(** * CatLife life-course simulation engine: model and verified properties

  A shallow embedding of the deterministic simulation core of the
  CatLife application:

  - the breed health database, [lib/catlife/breed-health-data.ts]
    (module [BreedHealthData]),
  - the health simulation engine, the second document of
    [app/catlife/page.tsx] (module [Simulation]),
  - the simulation enhancement service, which the engine imports as
    [./simulation-enhancer] (module [SimulationEnhancer]).

  Modelling conventions.

  - A JavaScript [number] is a rational ([Q]); ages in months and whole
    years are integers ([Z]).  Two comparisons of the engine decide at a
    threshold that only the rounding of IEEE doubles settles: the status
    buckets of [determineHealthStatus] and the weight alert of
    [generateAlerts].  Their operands are computed in binary64
    ([JS.binary64] rounds a rational to the nearest double, ties to
    even); the other arithmetic is exact.  NaN and the infinities are
    outside the model; a division whose divisor can be zero is written
    out with the comparison it feeds.
  - [x | null] is [option x]; [a ?? b] and [a || b] are written out.
  - [Math.random()] is an explicit stream: the k-th call returns
    [random k].
  - A function that can throw returns a [Completion].
  - The asynchronous call to the milestone-note service is a value of
    [FetchOutcome], one constructor per way the call can end. *)

From Stdlib Require Import ZArith QArith Qround Qminmax Qabs Qpower.
From Stdlib Require Import List String Ascii Bool DecimalString.
From Stdlib Require Import Lia Lqa Permutation Sorted.
Import ListNotations.

Local Open Scope string_scope.
Local Open Scope Z_scope.
Local Open Scope Q_scope.

(** ** JavaScript primitives used by the sources *)

Module JS.

(** Normal or abrupt (a thrown TypeError) completion of a call. *)
Inductive Completion (A : Type) : Type :=
| Returned (a : A)
| Threw (error : string).
Arguments Returned {A} a.
Arguments Threw {A} error.

Definition is_upper (c : ascii) : bool :=
  let n := nat_of_ascii c in (65 <=? n)%nat && (n <=? 90)%nat.

Definition lower_ascii (c : ascii) : ascii :=
  if is_upper c then ascii_of_nat (nat_of_ascii c + 32) else c.

(** [String.prototype.toLowerCase], on the ASCII letters. *)
Fixpoint toLowerCase (s : string) : string :=
  match s with
  | EmptyString => EmptyString
  | String c s' => String (lower_ascii c) (toLowerCase s')
  end.

(** The white space characters of [\s] and of [trim] (ASCII part):
    tab, line feed, vertical tab, form feed, carriage return, space. *)
Definition is_space (c : ascii) : bool :=
  let n := nat_of_ascii c in
  ((9 <=? n)%nat && (n <=? 13)%nat) || (n =? 32)%nat.

Fixpoint trimStart (s : string) : string :=
  match s with
  | EmptyString => EmptyString
  | String c s' => if is_space c then trimStart s' else s
  end.

Fixpoint trimEnd (s : string) : string :=
  match s with
  | EmptyString => EmptyString
  | String c s' =>
      match trimEnd s' with
      | EmptyString => if is_space c then EmptyString else String c EmptyString
      | t => String c t
      end
  end.

Definition trim (s : string) : string := trimEnd (trimStart s).

(** [s.replace(/\s/g, '-')]. *)
Fixpoint replace_spaces_with_dash (s : string) : string :=
  match s with
  | EmptyString => EmptyString
  | String c s' =>
      String (if is_space c then "-"%char else c) (replace_spaces_with_dash s')
  end.

(** [s.substring(0, n)]. *)
Definition substring0 (n : nat) (s : string) : string := String.substring 0 n s.

(** [s.includes(t)]. *)
Definition includes (s t : string) : bool :=
  match String.index 0 t s with
  | Some _ => true
  | None => false
  end.

(** [s.startsWith(p)]. *)
Fixpoint startsWith (s p : string) {struct p} : bool :=
  match p with
  | EmptyString => true
  | String c p' =>
      match s with
      | EmptyString => false
      | String d s' => Ascii.eqb c d && startsWith s' p'
      end
  end.

(** [l.join(sep)]. *)
Definition join (sep : string) (l : list string) : string := String.concat sep l.

(** The double quote character, for the messages that contain one. *)
Definition dquote : string := String (ascii_of_nat 34) EmptyString.

(** Template-literal rendering of an integer. *)
Definition string_of_Z (z : Z) : string := NilZero.string_of_int (Z.to_int z).

Fixpoint fraction_digits (fuel : nat) (r d : Z) : string :=
  match fuel with
  | O => EmptyString
  | S fuel' =>
      if (r =? 0)%Z then EmptyString
      else string_of_Z ((10 * r) / d) ++ fraction_digits fuel' ((10 * r) mod d) d
  end.

(** Template-literal rendering of a number: integers print as integers,
    other values by their decimal expansion (exact for every finite
    expansion of at most 17 digits, which covers the registry). *)
Definition string_of_number (q : Q) : string :=
  let n := Qnum q in
  let d := Z.pos (Qden q) in
  if (n mod d =? 0)%Z then string_of_Z (n / d)
  else
    (if (n <? 0)%Z then "-" else "") ++
    string_of_Z (Z.abs n / d) ++ "." ++ fraction_digits 17 (Z.abs n mod d) d.

Definition Qeqb (a b : Q) : bool := Qeq_bool a b.
Definition Qleb (a b : Q) : bool := Qle_bool a b.
Definition Qltb (a b : Q) : bool := negb (Qle_bool b a).

(** [Math.max], [Math.min], [Math.abs], [Math.round], [Math.floor]. *)
Definition Math_max (a b : Q) : Q := if Qltb a b then b else a.
Definition Math_min (a b : Q) : Q := if Qltb b a then b else a.
Definition Math_abs (a : Q) : Q := if Qltb a 0 then - a else a.
Definition Math_round (a : Q) : Z := Qfloor (a + (1 # 2)).
Definition Math_floor (a : Q) : Z := Qfloor a.

(** *** Binary64 arithmetic *)

(** The integer nearest to [q], a tie going to the even one. *)
Definition round_half_even (q : Q) : Z :=
  let f := Qfloor q in
  match Qcompare (q - inject_Z f) (1 # 2) with
  | Lt => f
  | Gt => (f + 1)%Z
  | Eq => if Z.even f then f else (f + 1)%Z
  end.

(** [floor (log2 q)] for a positive [q]. *)
Definition ilog2 (q : Q) : Z :=
  let k := (Z.log2 (Qnum q) - Z.log2 (Z.pos (Qden q)))%Z in
  if Qleb (2 ^ k) q then k else (k - 1)%Z.

(** The exponent of the unit in the last place of the doubles around [q]:
    53 significant bits, and steps of 2^-1074 among the subnormals. *)
Definition ulp_exponent (q : Q) : Z := Z.max (ilog2 (Qabs q) - 52) (-1074).

(** The double nearest to [q], as a rational: what a numeric literal or a
    parsed number holds, and what an arithmetic operation returns for the
    exact result [q].  (Below 2^1024 in magnitude; beyond, the double is
    an infinity.) *)
Definition binary64 (q : Q) : Q :=
  if Qeqb q 0 then 0
  else
    let e := ulp_exponent q in
    inject_Z (round_half_even (q / 2 ^ e)) * 2 ^ e.

(** [a + b], [a - b], [a * b] and [a / b] on doubles. *)
Definition add64 (a b : Q) : Q := binary64 (a + b).
Definition sub64 (a b : Q) : Q := binary64 (a - b).
Definition mul64 (a b : Q) : Q := binary64 (a * b).
Definition div64 (a b : Q) : Q := binary64 (a / b).

(** [a / b < c] on doubles [a] and [b], for a literal [c]: a zero divisor
    gives NaN or an infinity, and then the comparison holds only for
    [-Infinity]. *)
Definition div64_lt (a b c : Q) : bool :=
  if Qeqb b 0 then Qltb a 0 else Qltb (div64 a b) (binary64 c).

(** [a / b > c] for finite [a], [b], [c]: a zero divisor gives NaN or an
    infinity, and then the comparison holds only for [+Infinity]. *)
Definition div_gt (a b c : Q) : bool :=
  if Qeqb b 0 then Qltb 0 a else Qltb c (a / b).

(** Reading [table[key]] on an object literal: the table's own keys
    first, then the properties every object inherits from
    [Object.prototype], whose values are functions (or, for [__proto__],
    the prototype object): truthy, and never one of the table's values. *)
Inductive PropertyRead (A : Type) : Type :=
| Own (a : A)
| Inherited
| Undefined.
Arguments Own {A} a.
Arguments Inherited {A}.
Arguments Undefined {A}.

Definition object_prototype_keys : list string :=
  ["constructor"; "__proto__"; "hasOwnProperty"; "isPrototypeOf";
   "propertyIsEnumerable"; "toLocaleString"; "toString"; "valueOf";
   "__defineGetter__"; "__defineSetter__"; "__lookupGetter__";
   "__lookupSetter__"].

Fixpoint own_property {A : Type} (table : list (string * A)) (key : string)
  : option A :=
  match table with
  | [] => None
  | (k, v) :: rest => if String.eqb k key then Some v else own_property rest key
  end.

Definition get_property {A : Type} (table : list (string * A)) (key : string)
  : PropertyRead A :=
  match own_property table key with
  | Some v => Own v
  | None =>
      if existsb (String.eqb key) object_prototype_keys
      then Inherited else Undefined
  end.

(** [l.find(p)], [l.findIndex(p)] (with [None] for -1), [l.slice(-n)],
    [l.slice(0, n)] and [l.slice(n)]. *)
Definition find_index {A : Type} (p : A -> bool) (l : list A) : option nat :=
  (fix go (i : nat) (l : list A) : option nat :=
     match l with
     | [] => None
     | x :: l' => if p x then Some i else go (S i) l'
     end) O l.

Definition slice_last {A : Type} (n : nat) (l : list A) : list A :=
  skipn (List.length l - n) l.

(** [l.filter((x, index) => p index x)]. *)
Definition filter_indexed {A : Type} (p : nat -> A -> bool) (l : list A) : list A :=
  (fix go (i : nat) (l : list A) : list A :=
     match l with
     | [] => []
     | x :: l' => if p i x then x :: go (S i) l' else go (S i) l'
     end) O l.

(** [l.sort((a, b) => key a - key b)]: a stable sort by [key] (an element
    stays before the later elements of the same key). *)
Fixpoint insert_by {A : Type} (key : A -> Q) (x : A) (l : list A) : list A :=
  match l with
  | [] => [x]
  | y :: l' => if Qleb (key x) (key y) then x :: y :: l' else y :: insert_by key x l'
  end.

Definition sort_by {A : Type} (key : A -> Q) (l : list A) : list A :=
  fold_right (insert_by key) [] l.

End JS.

(** ** lib/catlife/breed-health-data.ts *)

Module BreedHealthData.

Inductive SizeCategory : Type := small | medium | large.
Inductive RiskLevel : Type := low | moderate | high.

Record Range : Type := { min : Q; max : Q }.

Record HealthRisk : Type := {
  condition : string;
  riskLevel : RiskLevel;
  typicalOnsetYears : Q;
  monitoringAdvice : string;
  symptoms : option (list string)
}.

Record ScreeningSchedule : Type := {
  ageYears : Q;
  screenings : list string;
  reason : string
}.

Record AgeSpecificAdvice : Type := {
  ageRange : Q * Q;
  advice : list string;
  focus : string
}.

Record BreedHealthProfile : Type := {
  breed : string;
  aliases : list string;
  sizeCategory : SizeCategory;
  lifeExpectancy : Range;
  idealWeight : Range;
  healthRisks : list HealthRisk;
  screeningSchedule : list ScreeningSchedule;
  ageSpecificAdvice : list AgeSpecificAdvice;
  generalNotes : string
}.

Definition maineCoon : BreedHealthProfile :=
  {| breed := "Maine Coon";
     aliases := ["maine coon"; "mainecoon"; "maine-coon"];
     sizeCategory := large;
     lifeExpectancy := {| min := 12; max := 15 |};
     idealWeight := {| min := 5.5; max := 10 |};
     healthRisks :=
    [{| condition := "Hypertrophic Cardiomyopathy (HCM)";
       riskLevel := high;
       typicalOnsetYears := 4;
       monitoringAdvice := "Annual echocardiograms starting at age 3-4. Watch for lethargy, rapid breathing.";
       symptoms := Some ["Lethargy"; "Rapid breathing"; "Open-mouth breathing"; "Decreased appetite"] |};
    {| condition := "Hip Dysplasia";
       riskLevel := moderate;
       typicalOnsetYears := 2;
       monitoringAdvice := "Watch for difficulty jumping or climbing. X-rays if limping develops.";
       symptoms := Some ["Difficulty jumping"; "Limping"; "Reluctance to climb stairs"] |};
    {| condition := "Spinal Muscular Atrophy (SMA)";
       riskLevel := low;
       typicalOnsetYears := 0.5;
       monitoringAdvice := "Genetic testing available. Usually apparent in kittens.";
       symptoms := Some ["Muscle weakness"; "Abnormal gait"; "Tremors"] |};
    {| condition := "Polycystic Kidney Disease (PKD)";
       riskLevel := moderate;
       typicalOnsetYears := 7;
       monitoringAdvice := "Ultrasound screening after age 5. Monitor water intake.";
       symptoms := Some ["Increased thirst"; "Weight loss"; "Lethargy"] |}];
     screeningSchedule :=
    [{| ageYears := 1;
       screenings := ["Baseline bloodwork"; "Dental exam"];
       reason := "Establish baseline health markers" |};
    {| ageYears := 3;
       screenings := ["Echocardiogram"; "Heart murmur check"];
       reason := "Early HCM detection - critical for Maine Coons" |};
    {| ageYears := 5;
       screenings := ["Echocardiogram"; "Kidney ultrasound"; "Full bloodwork"];
       reason := "Monitor heart and early kidney screening" |};
    {| ageYears := 7;
       screenings := ["Echocardiogram"; "Kidney function panel"; "Thyroid check"];
       reason := "Senior screening begins" |};
    {| ageYears := 10;
       screenings := ["Bi-annual echocardiogram"; "Complete senior panel"; "Blood pressure"];
       reason := "Intensive monitoring for geriatric care" |}];
     ageSpecificAdvice :=
    [{| ageRange := (0, 2);
       advice := ["Support healthy bone development with quality nutrition"; "Monitor growth rate - Maine Coons grow until age 4-5"; "Establish jumping-friendly furniture arrangements"];
       focus := "Growth & Development" |};
    {| ageRange := (2, 5);
       advice := ["Schedule first echocardiogram by age 3-4"; "Learn to monitor resting respiratory rate at home"; "Maintain healthy weight to reduce heart strain"];
       focus := "Heart Health Baseline" |};
    {| ageRange := (5, 8);
       advice := ["Annual echocardiograms are essential"; "Begin kidney function monitoring"; "Watch for mobility changes - hip issues may emerge"];
       focus := "Preventive Monitoring" |};
    {| ageRange := (8, 12);
       advice := ["Bi-annual vet visits recommended"; "Consider joint supplements"; "Monitor for signs of heart disease progression"];
       focus := "Senior Care" |};
    {| ageRange := (12, 20);
       advice := ["Focus on comfort and pain management"; "Easy access to food, water, and litter"; "Regular heart monitoring continues"];
       focus := "Quality of Life" |}];
     generalNotes := "Maine Coons are gentle giants prone to heart disease. Regular cardiac screening is essential. They continue growing until age 4-5." |}.

Definition ragdoll : BreedHealthProfile :=
  {| breed := "Ragdoll";
     aliases := ["ragdoll"; "rag doll"; "rag-doll"];
     sizeCategory := large;
     lifeExpectancy := {| min := 12; max := 17 |};
     idealWeight := {| min := 4.5; max := 9 |};
     healthRisks :=
    [{| condition := "Hypertrophic Cardiomyopathy (HCM)";
       riskLevel := high;
       typicalOnsetYears := 3;
       monitoringAdvice := "Annual echocardiograms starting at age 2-3. Genetic test available.";
       symptoms := Some ["Lethargy"; "Rapid breathing"; "Fainting"] |};
    {| condition := "Bladder Stones";
       riskLevel := moderate;
       typicalOnsetYears := 4;
       monitoringAdvice := "Ensure adequate water intake. Watch for urinary difficulties.";
       symptoms := Some ["Straining to urinate"; "Blood in urine"; "Frequent urination attempts"] |};
    {| condition := "Feline Infectious Peritonitis (FIP)";
       riskLevel := moderate;
       typicalOnsetYears := 1;
       monitoringAdvice := "More susceptible than average. Watch for fever, weight loss.";
       symptoms := Some ["Fever"; "Weight loss"; "Abdominal swelling"] |}];
     screeningSchedule :=
    [{| ageYears := 1;
       screenings := ["Baseline bloodwork"; "Urinalysis"];
       reason := "Establish baseline" |};
    {| ageYears := 2;
       screenings := ["Echocardiogram"; "Genetic HCM test"];
       reason := "Early cardiac screening" |};
    {| ageYears := 5;
       screenings := ["Echocardiogram"; "Urinalysis"; "Kidney panel"];
       reason := "Regular monitoring" |};
    {| ageYears := 8;
       screenings := ["Full senior panel"; "Echocardiogram"; "Blood pressure"];
       reason := "Senior screening" |}];
     ageSpecificAdvice :=
    [{| ageRange := (0, 2);
       advice := ["Complete vaccination schedule is crucial"; "Monitor for FIP symptoms"; "Support slow, healthy growth"];
       focus := "Growth & Immunity" |};
    {| ageRange := (2, 5);
       advice := ["First echocardiogram by age 2-3"; "Encourage water intake for bladder health"; "Consider wet food to increase hydration"];
       focus := "Heart & Urinary Health" |};
    {| ageRange := (5, 10);
       advice := ["Annual heart screening"; "Regular urinalysis for bladder health"; "Maintain healthy weight"];
       focus := "Preventive Care" |};
    {| ageRange := (10, 20);
       advice := ["Bi-annual checkups"; "Joint support as needed"; "Continue heart monitoring"];
       focus := "Senior Support" |}];
     generalNotes := "Ragdolls are docile and often don't show pain. Regular health checks are important as they may hide symptoms." |}.

Definition norwegianForest : BreedHealthProfile :=
  {| breed := "Norwegian Forest Cat";
     aliases := ["norwegian forest"; "norwegian forest cat"; "wegie"; "norsk skogkatt"];
     sizeCategory := large;
     lifeExpectancy := {| min := 12; max := 16 |};
     idealWeight := {| min := 4.5; max := 9 |};
     healthRisks :=
    [{| condition := "Glycogen Storage Disease IV (GSD IV)";
       riskLevel := moderate;
       typicalOnsetYears := 0.5;
       monitoringAdvice := "Genetic test available. Fatal if present - usually shows in kittens.";
       symptoms := Some ["Muscle weakness"; "Fever"; "Tremors"] |};
    {| condition := "Hypertrophic Cardiomyopathy (HCM)";
       riskLevel := moderate;
       typicalOnsetYears := 5;
       monitoringAdvice := "Annual heart checks after age 4.";
       symptoms := Some ["Lethargy"; "Breathing difficulties"] |};
    {| condition := "Hip Dysplasia";
       riskLevel := moderate;
       typicalOnsetYears := 3;
       monitoringAdvice := "Monitor mobility, especially as they age.";
       symptoms := Some ["Difficulty jumping"; "Stiffness"] |}];
     screeningSchedule :=
    [{| ageYears := 1;
       screenings := ["GSD IV genetic test"; "Baseline bloodwork"];
       reason := "Rule out genetic disease" |};
    {| ageYears := 4;
       screenings := ["Echocardiogram"; "Hip evaluation"];
       reason := "Begin cardiac monitoring" |};
    {| ageYears := 7;
       screenings := ["Full panel"; "Heart check"; "Joint assessment"];
       reason := "Senior preparation" |}];
     ageSpecificAdvice :=
    [{| ageRange := (0, 2);
       advice := ["GSD IV test if not done by breeder"; "Support healthy coat with omega fatty acids"; "Establish grooming routine for long coat"];
       focus := "Genetic Screening" |};
    {| ageRange := (2, 6);
       advice := ["Regular grooming to prevent mats"; "Monitor activity levels for joint health"; "Begin cardiac screening at 4"];
       focus := "Coat & Joint Care" |};
    {| ageRange := (6, 12);
       advice := ["Joint supplements may help"; "Continue regular heart checks"; "Watch weight as activity decreases"];
       focus := "Senior Transition" |};
    {| ageRange := (12, 20);
       advice := ["Easy access accommodations"; "Regular vet visits"; "Pain management if needed"];
       focus := "Comfort Care" |}];
     generalNotes := "Hardy breed adapted to cold climates. Requires regular grooming. GSD IV is a serious genetic concern." |}.

Definition britishShorthair : BreedHealthProfile :=
  {| breed := "British Shorthair";
     aliases := ["british shorthair"; "british blue"; "bsh"];
     sizeCategory := large;
     lifeExpectancy := {| min := 12; max := 17 |};
     idealWeight := {| min := 4; max := 8 |};
     healthRisks :=
    [{| condition := "Hypertrophic Cardiomyopathy (HCM)";
       riskLevel := high;
       typicalOnsetYears := 4;
       monitoringAdvice := "Annual echocardiograms starting at age 3.";
       symptoms := Some ["Lethargy"; "Labored breathing"; "Weakness in hind legs"] |};
    {| condition := "Obesity";
       riskLevel := high;
       typicalOnsetYears := 2;
       monitoringAdvice := "Strict portion control essential. This breed gains weight easily.";
       symptoms := Some ["Visible weight gain"; "Decreased activity"; "Difficulty grooming"] |};
    {| condition := "Polycystic Kidney Disease (PKD)";
       riskLevel := moderate;
       typicalOnsetYears := 7;
       monitoringAdvice := "Ultrasound screening after age 5.";
       symptoms := Some ["Increased thirst"; "Weight loss"] |}];
     screeningSchedule :=
    [{| ageYears := 1;
       screenings := ["Weight assessment"; "Baseline bloodwork"];
       reason := "Establish healthy baseline" |};
    {| ageYears := 3;
       screenings := ["Echocardiogram"; "Body condition score"];
       reason := "Heart and weight monitoring" |};
    {| ageYears := 6;
       screenings := ["Kidney ultrasound"; "Heart check"; "Diabetes screening"];
       reason := "Preventive screening" |};
    {| ageYears := 9;
       screenings := ["Full senior panel"; "Cardiac assessment"];
       reason := "Senior care" |}];
     ageSpecificAdvice :=
    [{| ageRange := (0, 2);
       advice := ["Establish portion-controlled feeding early"; "Encourage active play despite calm nature"; "Avoid free-feeding"];
       focus := "Weight Management Foundation" |};
    {| ageRange := (2, 5);
       advice := ["First echocardiogram by age 3"; "Monitor weight monthly"; "Interactive play sessions daily"];
       focus := "Heart & Weight" |};
    {| ageRange := (5, 10);
       advice := ["Watch for diabetes signs"; "Annual heart screening"; "Kidney monitoring begins"];
       focus := "Metabolic Health" |};
    {| ageRange := (10, 20);
       advice := ["Careful calorie management"; "Regular cardiac checks"; "Joint support for heavier cats"];
       focus := "Senior Weight & Heart" |}];
     generalNotes := "Calm, easy-going breed prone to obesity. Requires strict diet management and regular exercise encouragement." |}.

Definition savannah : BreedHealthProfile :=
  {| breed := "Savannah";
     aliases := ["savannah"; "savannah cat"];
     sizeCategory := large;
     lifeExpectancy := {| min := 12; max := 20 |};
     idealWeight := {| min := 5.5; max := 11 |};
     healthRisks :=
    [{| condition := "Hypertrophic Cardiomyopathy (HCM)";
       riskLevel := moderate;
       typicalOnsetYears := 5;
       monitoringAdvice := "Annual heart screening after age 4.";
       symptoms := Some ["Lethargy"; "Breathing issues"] |};
    {| condition := "Hybrid Male Sterility";
       riskLevel := low;
       typicalOnsetYears := 0;
       monitoringAdvice := "Early generation males (F1-F4) are typically sterile.";
       symptoms := Some [] |}];
     screeningSchedule :=
    [{| ageYears := 2;
       screenings := ["Baseline bloodwork"; "Heart check"];
       reason := "Establish baseline" |};
    {| ageYears := 5;
       screenings := ["Echocardiogram"; "Full panel"];
       reason := "Cardiac monitoring" |};
    {| ageYears := 8;
       screenings := ["Senior screening"; "Heart assessment"];
       reason := "Senior preparation" |}];
     ageSpecificAdvice :=
    [{| ageRange := (0, 3);
       advice := ["Provide extensive enrichment and space"; "High-protein diet essential"; "Socialize well during this period"];
       focus := "High Energy Management" |};
    {| ageRange := (3, 8);
       advice := ["Maintain high activity levels"; "Regular heart monitoring"; "Mental stimulation crucial"];
       focus := "Active Adult Care" |};
    {| ageRange := (8, 15);
       advice := ["May still be very active"; "Regular health checks"; "Watch for any slowing down"];
       focus := "Mature Care" |};
    {| ageRange := (15, 20);
       advice := ["Adjust activity to comfort"; "Regular monitoring"; "Comfort-focused care"];
       focus := "Senior Years" |}];
     generalNotes := "Exotic hybrid breed requiring experienced owners. Very active and intelligent. Long lifespan if well cared for." |}.

Definition persian : BreedHealthProfile :=
  {| breed := "Persian";
     aliases := ["persian"; "persian cat"; "longhair"];
     sizeCategory := medium;
     lifeExpectancy := {| min := 12; max := 17 |};
     idealWeight := {| min := 3.5; max := 5.5 |};
     healthRisks :=
    [{| condition := "Polycystic Kidney Disease (PKD)";
       riskLevel := high;
       typicalOnsetYears := 7;
       monitoringAdvice := "Genetic test available. Ultrasound screening by age 5.";
       symptoms := Some ["Increased thirst"; "Increased urination"; "Weight loss"; "Lethargy"] |};
    {| condition := "Brachycephalic Airway Syndrome";
       riskLevel := high;
       typicalOnsetYears := 0;
       monitoringAdvice := "Present from birth due to flat face. Avoid heat and stress.";
       symptoms := Some ["Noisy breathing"; "Snoring"; "Exercise intolerance"] |};
    {| condition := "Progressive Retinal Atrophy (PRA)";
       riskLevel := moderate;
       typicalOnsetYears := 4;
       monitoringAdvice := "Eye exams yearly. Watch for night blindness.";
       symptoms := Some ["Night blindness"; "Dilated pupils"; "Bumping into objects"] |};
    {| condition := "Hypertrophic Cardiomyopathy (HCM)";
       riskLevel := moderate;
       typicalOnsetYears := 5;
       monitoringAdvice := "Annual heart screening after age 4.";
       symptoms := Some ["Lethargy"; "Breathing difficulties"] |}];
     screeningSchedule :=
    [{| ageYears := 1;
       screenings := ["PKD genetic test"; "Eye exam"; "Baseline bloodwork"];
       reason := "Early genetic screening" |};
    {| ageYears := 3;
       screenings := ["Eye exam"; "Heart check"; "Kidney ultrasound"];
       reason := "Preventive monitoring" |};
    {| ageYears := 5;
       screenings := ["Kidney ultrasound"; "Full bloodwork"; "Echocardiogram"];
       reason := "PKD typically shows by now" |};
    {| ageYears := 8;
       screenings := ["Complete senior panel"; "Kidney function"; "Eye exam"];
       reason := "Senior monitoring" |}];
     ageSpecificAdvice :=
    [{| ageRange := (0, 2);
       advice := ["Keep face clean and dry"; "Monitor breathing in warm weather"; "Daily eye cleaning routine"; "PKD genetic test if not done"];
       focus := "Breathing & Eye Care" |};
    {| ageRange := (2, 5);
       advice := ["Begin kidney screening by age 3"; "Annual eye exams essential"; "Maintain grooming routine for coat"];
       focus := "Kidney & Vision Monitoring" |};
    {| ageRange := (5, 10);
       advice := ["Regular kidney function tests"; "Consider renal-support diet if needed"; "Keep stress levels low"; "Monitor water intake"];
       focus := "Kidney Health Focus" |};
    {| ageRange := (10, 20);
       advice := ["Kidney management is key"; "Climate control important"; "Regular gentle grooming"; "Easy access to resources"];
       focus := "Supportive Care" |}];
     generalNotes := "Beautiful but high-maintenance breed. Flat face requires special care. PKD is a major concern - genetic testing highly recommended." |}.

Definition bengal : BreedHealthProfile :=
  {| breed := "Bengal";
     aliases := ["bengal"; "bengal cat"];
     sizeCategory := medium;
     lifeExpectancy := {| min := 12; max := 16 |};
     idealWeight := {| min := 4; max := 7 |};
     healthRisks :=
    [{| condition := "Pyruvate Kinase Deficiency (PK Deficiency)";
       riskLevel := moderate;
       typicalOnsetYears := 2;
       monitoringAdvice := "Genetic test available. Causes anemia.";
       symptoms := Some ["Lethargy"; "Pale gums"; "Weakness"] |};
    {| condition := "Hypertrophic Cardiomyopathy (HCM)";
       riskLevel := moderate;
       typicalOnsetYears := 4;
       monitoringAdvice := "Annual echocardiograms after age 3.";
       symptoms := Some ["Lethargy"; "Rapid breathing"] |};
    {| condition := "Progressive Retinal Atrophy (PRA)";
       riskLevel := moderate;
       typicalOnsetYears := 3;
       monitoringAdvice := "Genetic test available. Annual eye exams.";
       symptoms := Some ["Night blindness"; "Vision changes"] |};
    {| condition := "Flat Chested Kitten Syndrome";
       riskLevel := low;
       typicalOnsetYears := 0;
       monitoringAdvice := "Apparent at birth. Reputable breeders screen for this.";
       symptoms := Some ["Flattened chest"; "Breathing difficulties in kittens"] |}];
     screeningSchedule :=
    [{| ageYears := 1;
       screenings := ["PK deficiency test"; "PRA genetic test"; "Baseline bloodwork"];
       reason := "Genetic screening" |};
    {| ageYears := 3;
       screenings := ["Echocardiogram"; "Eye exam"];
       reason := "Begin cardiac monitoring" |};
    {| ageYears := 6;
       screenings := ["Heart check"; "Full bloodwork"; "Eye exam"];
       reason := "Ongoing monitoring" |};
    {| ageYears := 10;
       screenings := ["Senior panel"; "Cardiac assessment"];
       reason := "Senior care" |}];
     ageSpecificAdvice :=
    [{| ageRange := (0, 2);
       advice := ["Genetic testing for PK and PRA"; "Provide extensive exercise opportunities"; "Mental stimulation is crucial"; "High-protein diet supports activity level"];
       focus := "Energy & Genetics" |};
    {| ageRange := (2, 6);
       advice := ["First echocardiogram by age 3"; "Maintain high activity lifestyle"; "Regular eye exams"; "Monitor energy levels for anemia signs"];
       focus := "Heart & Activity" |};
    {| ageRange := (6, 12);
       advice := ["Continue active lifestyle"; "Annual heart screening"; "Watch for vision changes"; "Regular health checks"];
       focus := "Maintaining Vitality" |};
    {| ageRange := (12, 20);
       advice := ["Bengals often remain active into old age"; "Adjust play to comfort level"; "Regular monitoring"; "Joint support as needed"];
       focus := "Active Senior" |}];
     generalNotes := "Extremely active and intelligent breed. Requires lots of stimulation. Genetic testing recommended for PK deficiency and PRA." |}.

Definition siamese : BreedHealthProfile :=
  {| breed := "Siamese";
     aliases := ["siamese"; "siamese cat"; "meezer"];
     sizeCategory := medium;
     lifeExpectancy := {| min := 12; max := 20 |};
     idealWeight := {| min := 3.5; max := 5.5 |};
     healthRisks :=
    [{| condition := "Amyloidosis";
       riskLevel := high;
       typicalOnsetYears := 7;
       monitoringAdvice := "Liver form common in Siamese. Regular bloodwork to monitor liver function.";
       symptoms := Some ["Lethargy"; "Weight loss"; "Jaundice"; "Loss of appetite"] |};
    {| condition := "Dental Disease";
       riskLevel := high;
       typicalOnsetYears := 2;
       monitoringAdvice := "Annual dental exams. Consider dental diet or regular brushing.";
       symptoms := Some ["Bad breath"; "Difficulty eating"; "Drooling"; "Red gums"] |};
    {| condition := "Respiratory Issues";
       riskLevel := moderate;
       typicalOnsetYears := 0;
       monitoringAdvice := "More prone to asthma and bronchial disease.";
       symptoms := Some ["Coughing"; "Wheezing"; "Labored breathing"] |};
    {| condition := "Progressive Retinal Atrophy (PRA)";
       riskLevel := moderate;
       typicalOnsetYears := 3;
       monitoringAdvice := "Annual eye exams recommended.";
       symptoms := Some ["Night blindness"; "Dilated pupils"] |}];
     screeningSchedule :=
    [{| ageYears := 1;
       screenings := ["Dental exam"; "Baseline bloodwork"; "Eye exam"];
       reason := "Establish baseline" |};
    {| ageYears := 3;
       screenings := ["Dental cleaning if needed"; "Liver panel"; "Eye exam"];
       reason := "Early monitoring" |};
    {| ageYears := 6;
       screenings := ["Full bloodwork including liver"; "Dental assessment"; "Respiratory check"];
       reason := "Amyloidosis monitoring begins" |};
    {| ageYears := 9;
       screenings := ["Senior panel with liver focus"; "Dental care"; "Full exam"];
       reason := "Senior care" |}];
     ageSpecificAdvice :=
    [{| ageRange := (0, 2);
       advice := ["Start dental care routine early"; "Consider dental-friendly diet"; "Socialize well - Siamese are very social"; "Monitor for respiratory issues"];
       focus := "Dental Foundation" |};
    {| ageRange := (2, 6);
       advice := ["Regular dental checkups essential"; "Watch for signs of liver issues"; "Keep stress low - they're sensitive"; "Mental stimulation crucial"];
       focus := "Dental & Liver Health" |};
    {| ageRange := (6, 12);
       advice := ["Liver function monitoring important"; "Continue dental care"; "Watch for appetite changes"; "Regular comprehensive bloodwork"];
       focus := "Amyloidosis Watch" |};
    {| ageRange := (12, 20);
       advice := ["Siamese often live into late teens"; "Monitor liver and kidney function"; "Dental health remains important"; "Lots of companionship needed"];
       focus := "Long-Lived Senior" |}];
     generalNotes := "Vocal, social breed that bonds deeply. Prone to dental issues and liver amyloidosis. Often lives 15-20 years with good care." |}.

Definition abyssinian : BreedHealthProfile :=
  {| breed := "Abyssinian";
     aliases := ["abyssinian"; "aby"; "abyssinian cat"];
     sizeCategory := medium;
     lifeExpectancy := {| min := 12; max := 15 |};
     idealWeight := {| min := 3; max := 5 |};
     healthRisks :=
    [{| condition := "Renal Amyloidosis";
       riskLevel := high;
       typicalOnsetYears := 5;
       monitoringAdvice := "Regular kidney function tests starting at age 4.";
       symptoms := Some ["Increased thirst"; "Weight loss"; "Lethargy"] |};
    {| condition := "Pyruvate Kinase Deficiency (PK Deficiency)";
       riskLevel := moderate;
       typicalOnsetYears := 2;
       monitoringAdvice := "Genetic test available.";
       symptoms := Some ["Anemia"; "Lethargy"; "Pale gums"] |};
    {| condition := "Progressive Retinal Atrophy (PRA)";
       riskLevel := moderate;
       typicalOnsetYears := 3;
       monitoringAdvice := "Genetic test available. Annual eye exams.";
       symptoms := Some ["Night blindness"; "Vision loss"] |};
    {| condition := "Patellar Luxation";
       riskLevel := moderate;
       typicalOnsetYears := 2;
       monitoringAdvice := "Watch for limping or skipping gait.";
       symptoms := Some ["Limping"; "Holding leg up"; "Skipping gait"] |}];
     screeningSchedule :=
    [{| ageYears := 1;
       screenings := ["PK deficiency test"; "PRA test"; "Baseline bloodwork"];
       reason := "Genetic screening" |};
    {| ageYears := 4;
       screenings := ["Kidney function panel"; "Eye exam"; "Joint assessment"];
       reason := "Begin amyloidosis monitoring" |};
    {| ageYears := 7;
       screenings := ["Full bloodwork"; "Kidney ultrasound"; "Heart check"];
       reason := "Senior preparation" |};
    {| ageYears := 10;
       screenings := ["Comprehensive senior panel"; "Kidney monitoring"];
       reason := "Senior care" |}];
     ageSpecificAdvice :=
    [{| ageRange := (0, 2);
       advice := ["Complete genetic testing"; "Provide lots of climbing and play"; "Monitor joints during growth"; "High-quality protein diet"];
       focus := "Genetic Testing & Activity" |};
    {| ageRange := (2, 5);
       advice := ["Establish kidney function baseline by age 4"; "Encourage hydration"; "Regular eye exams"; "Monitor activity levels for anemia"];
       focus := "Kidney Baseline" |};
    {| ageRange := (5, 10);
       advice := ["Regular kidney monitoring crucial"; "Consider kidney-supportive diet"; "Watch water intake closely"; "Continue active lifestyle"];
       focus := "Kidney Health Priority" |};
    {| ageRange := (10, 15);
       advice := ["Intensive kidney monitoring"; "Joint support if needed"; "Keep activity appropriate"; "Regular comprehensive checks"];
       focus := "Senior Support" |}];
     generalNotes := "Active, playful breed with a shorter coat. Renal amyloidosis is a major concern - early and regular kidney monitoring essential." |}.

Definition exoticShorthair : BreedHealthProfile :=
  {| breed := "Exotic Shorthair";
     aliases := ["exotic shorthair"; "exotic"; "shorthaired persian"];
     sizeCategory := medium;
     lifeExpectancy := {| min := 12; max := 15 |};
     idealWeight := {| min := 3.5; max := 6 |};
     healthRisks :=
    [{| condition := "Polycystic Kidney Disease (PKD)";
       riskLevel := high;
       typicalOnsetYears := 7;
       monitoringAdvice := "Same as Persian. Genetic test and ultrasound screening.";
       symptoms := Some ["Increased thirst"; "Weight loss"; "Lethargy"] |};
    {| condition := "Brachycephalic Airway Syndrome";
       riskLevel := high;
       typicalOnsetYears := 0;
       monitoringAdvice := "Flat face causes breathing issues. Avoid heat stress.";
       symptoms := Some ["Noisy breathing"; "Snoring"; "Heat intolerance"] |};
    {| condition := "Dental Crowding";
       riskLevel := moderate;
       typicalOnsetYears := 1;
       monitoringAdvice := "Flat face can cause dental issues. Regular dental exams.";
       symptoms := Some ["Bad breath"; "Difficulty eating"] |}];
     screeningSchedule :=
    [{| ageYears := 1;
       screenings := ["PKD genetic test"; "Dental exam"; "Baseline bloodwork"];
       reason := "Genetic screening" |};
    {| ageYears := 4;
       screenings := ["Kidney ultrasound"; "Dental assessment"];
       reason := "PKD monitoring" |};
    {| ageYears := 7;
       screenings := ["Full panel"; "Kidney function"; "Respiratory assessment"];
       reason := "Senior preparation" |}];
     ageSpecificAdvice :=
    [{| ageRange := (0, 3);
       advice := ["Keep environment cool"; "Monitor breathing especially in summer"; "Regular dental care"; "PKD genetic test"];
       focus := "Breathing & Dental" |};
    {| ageRange := (3, 7);
       advice := ["Begin kidney screening"; "Maintain dental health"; "Climate control important"; "Monitor weight"];
       focus := "Kidney Monitoring" |};
    {| ageRange := (7, 15);
       advice := ["Regular kidney monitoring"; "Dental care continues"; "Keep stress low"; "Easy breathing environment"];
       focus := "Senior Care" |}];
     generalNotes := "Persian temperament with short coat. Same flat-face issues as Persian. PKD testing essential." |}.

Definition burmese : BreedHealthProfile :=
  {| breed := "Burmese";
     aliases := ["burmese"; "burmese cat"];
     sizeCategory := medium;
     lifeExpectancy := {| min := 15; max := 18 |};
     idealWeight := {| min := 3.5; max := 5.5 |};
     healthRisks :=
    [{| condition := "Diabetes Mellitus";
       riskLevel := high;
       typicalOnsetYears := 8;
       monitoringAdvice := "More prone than other breeds. Regular glucose monitoring after age 7.";
       symptoms := Some ["Increased thirst"; "Increased urination"; "Weight loss despite eating"] |};
    {| condition := "Hypokalaemia";
       riskLevel := moderate;
       typicalOnsetYears := 3;
       monitoringAdvice := "Genetic predisposition to low potassium. Bloodwork monitoring.";
       symptoms := Some ["Muscle weakness"; "Difficulty walking"; "Head droop"] |};
    {| condition := "Cranial Deformities";
       riskLevel := low;
       typicalOnsetYears := 0;
       monitoringAdvice := "Present at birth in affected kittens. Reputable breeders screen.";
       symptoms := Some [] |}];
     screeningSchedule :=
    [{| ageYears := 2;
       screenings := ["Baseline bloodwork including potassium"; "General health check"];
       reason := "Establish baseline" |};
    {| ageYears := 6;
       screenings := ["Glucose screening"; "Potassium levels"; "Full panel"];
       reason := "Pre-diabetes monitoring" |};
    {| ageYears := 9;
       screenings := ["Glucose tolerance"; "Full senior panel"];
       reason := "Diabetes monitoring" |};
    {| ageYears := 12;
       screenings := ["Comprehensive senior workup"; "Glucose monitoring"];
       reason := "Senior care" |}];
     ageSpecificAdvice :=
    [{| ageRange := (0, 3);
       advice := ["Monitor potassium levels"; "High-quality diet"; "Regular exercise to maintain weight"; "Socialize well"];
       focus := "Establishing Health" |};
    {| ageRange := (3, 7);
       advice := ["Watch weight carefully"; "Regular bloodwork"; "Maintain active lifestyle"; "Avoid overfeeding"];
       focus := "Metabolic Health" |};
    {| ageRange := (7, 12);
       advice := ["Regular glucose monitoring"; "Weight management critical"; "Consider low-carb diet"; "Watch for diabetes signs"];
       focus := "Diabetes Prevention" |};
    {| ageRange := (12, 20);
       advice := ["Burmese often live 15-18 years"; "Continue metabolic monitoring"; "Maintain healthy weight"; "Regular comprehensive exams"];
       focus := "Long-Lived Senior" |}];
     generalNotes := "Affectionate, people-oriented breed with long lifespan. Higher diabetes risk requires weight management and glucose monitoring." |}.

Definition orientalShorthair : BreedHealthProfile :=
  {| breed := "Oriental Shorthair";
     aliases := ["oriental shorthair"; "oriental"; "osh"];
     sizeCategory := medium;
     lifeExpectancy := {| min := 12; max := 15 |};
     idealWeight := {| min := 3; max := 5 |};
     healthRisks :=
    [{| condition := "Amyloidosis (Liver)";
       riskLevel := high;
       typicalOnsetYears := 6;
       monitoringAdvice := "Related to Siamese. Regular liver function tests.";
       symptoms := Some ["Lethargy"; "Weight loss"; "Jaundice"] |};
    {| condition := "Dilated Cardiomyopathy (DCM)";
       riskLevel := moderate;
       typicalOnsetYears := 5;
       monitoringAdvice := "Annual heart screening after age 4.";
       symptoms := Some ["Lethargy"; "Breathing difficulties"; "Weakness"] |};
    {| condition := "Dental Disease";
       riskLevel := moderate;
       typicalOnsetYears := 2;
       monitoringAdvice := "Similar to Siamese. Regular dental care essential.";
       symptoms := Some ["Bad breath"; "Red gums"; "Difficulty eating"] |}];
     screeningSchedule :=
    [{| ageYears := 2;
       screenings := ["Dental exam"; "Baseline bloodwork"];
       reason := "Establish baseline" |};
    {| ageYears := 4;
       screenings := ["Heart check"; "Liver panel"; "Dental assessment"];
       reason := "Begin cardiac monitoring" |};
    {| ageYears := 7;
       screenings := ["Full bloodwork"; "Echocardiogram"; "Dental care"];
       reason := "Senior preparation" |}];
     ageSpecificAdvice :=
    [{| ageRange := (0, 3);
       advice := ["Begin dental routine early"; "High-protein diet"; "Lots of social interaction"; "Mental stimulation crucial"];
       focus := "Dental Care Start" |};
    {| ageRange := (3, 7);
       advice := ["Begin cardiac screening"; "Monitor liver function"; "Continue dental care"; "Keep active and engaged"];
       focus := "Heart & Liver Watch" |};
    {| ageRange := (7, 15);
       advice := ["Regular comprehensive exams"; "Watch for signs of amyloidosis"; "Dental health maintenance"; "Heart monitoring continues"];
       focus := "Monitoring & Care" |}];
     generalNotes := "Related to Siamese with similar health concerns. Very vocal and social. Requires lots of attention and mental stimulation." |}.

Definition russianBlue : BreedHealthProfile :=
  {| breed := "Russian Blue";
     aliases := ["russian blue"; "archangel blue"];
     sizeCategory := medium;
     lifeExpectancy := {| min := 15; max := 20 |};
     idealWeight := {| min := 3.5; max := 5.5 |};
     healthRisks :=
    [{| condition := "Bladder Stones";
       riskLevel := moderate;
       typicalOnsetYears := 5;
       monitoringAdvice := "Encourage water intake. Regular urinalysis.";
       symptoms := Some ["Straining to urinate"; "Blood in urine"; "Frequent urination"] |};
    {| condition := "Obesity";
       riskLevel := moderate;
       typicalOnsetYears := 3;
       monitoringAdvice := "This breed loves food. Strict portion control needed.";
       symptoms := Some ["Weight gain"; "Decreased activity"] |}];
     screeningSchedule :=
    [{| ageYears := 2;
       screenings := ["Baseline bloodwork"; "Weight assessment"];
       reason := "Establish baseline" |};
    {| ageYears := 5;
       screenings := ["Urinalysis"; "Weight check"; "Bloodwork"];
       reason := "Bladder health monitoring" |};
    {| ageYears := 8;
       screenings := ["Senior panel"; "Urinalysis"];
       reason := "Senior preparation" |}];
     ageSpecificAdvice :=
    [{| ageRange := (0, 3);
       advice := ["Establish portion control early"; "Encourage play despite shy nature"; "High-quality diet"; "Gradual socialization"];
       focus := "Weight Foundation" |};
    {| ageRange := (3, 8);
       advice := ["Monitor weight closely"; "Ensure adequate water intake"; "Consider wet food for hydration"; "Regular urinalysis"];
       focus := "Weight & Urinary Health" |};
    {| ageRange := (8, 15);
       advice := ["Continue weight management"; "Regular health checks"; "This breed ages gracefully"; "Maintain enrichment"];
       focus := "Healthy Aging" |};
    {| ageRange := (15, 20);
       advice := ["Russian Blues often live very long"; "Regular senior checks"; "Comfortable environment"; "Monitor for age-related changes"];
       focus := "Long Life Care" |}];
     generalNotes := "Generally healthy breed with long lifespan. Prone to weight gain and bladder issues. Shy but loyal temperament." |}.

Definition sphynx : BreedHealthProfile :=
  {| breed := "Sphynx";
     aliases := ["sphynx"; "sphinx"; "hairless cat"];
     sizeCategory := small;
     lifeExpectancy := {| min := 12; max := 15 |};
     idealWeight := {| min := 3; max := 5 |};
     healthRisks :=
    [{| condition := "Hypertrophic Cardiomyopathy (HCM)";
       riskLevel := high;
       typicalOnsetYears := 3;
       monitoringAdvice := "Annual echocardiograms starting at age 2. High prevalence in breed.";
       symptoms := Some ["Lethargy"; "Rapid breathing"; "Weakness"] |};
    {| condition := "Skin Issues";
       riskLevel := high;
       typicalOnsetYears := 0;
       monitoringAdvice := "Regular bathing needed. Watch for oil buildup and infections.";
       symptoms := Some ["Oily skin"; "Skin infections"; "Acne"] |};
    {| condition := "Temperature Sensitivity";
       riskLevel := moderate;
       typicalOnsetYears := 0;
       monitoringAdvice := "No fur means they need warmth. Provide heated beds, sweaters.";
       symptoms := Some ["Shivering"; "Seeking warmth constantly"] |};
    {| condition := "Hereditary Myopathy";
       riskLevel := moderate;
       typicalOnsetYears := 1;
       monitoringAdvice := "Genetic predisposition. Watch for muscle weakness.";
       symptoms := Some ["Muscle weakness"; "Difficulty swallowing"; "Fatigue"] |}];
     screeningSchedule :=
    [{| ageYears := 1;
       screenings := ["Skin assessment"; "Baseline bloodwork"; "Heart check"];
       reason := "Establish baseline" |};
    {| ageYears := 2;
       screenings := ["Echocardiogram"; "Skin check"];
       reason := "Critical - begin HCM monitoring early" |};
    {| ageYears := 4;
       screenings := ["Annual echocardiogram"; "Full panel"];
       reason := "Ongoing cardiac monitoring" |};
    {| ageYears := 8;
       screenings := ["Senior panel"; "Cardiac assessment"; "Skin health"];
       reason := "Senior care" |}];
     ageSpecificAdvice :=
    [{| ageRange := (0, 2);
       advice := ["Establish bathing routine (weekly)"; "First echocardiogram by age 2"; "Provide warmth - heated beds essential"; "Sun protection if exposed to windows"];
       focus := "Skin & Heart Foundation" |};
    {| ageRange := (2, 6);
       advice := ["Annual echocardiograms essential"; "Maintain skin care routine"; "Temperature regulation important"; "High-calorie diet for heat generation"];
       focus := "Cardiac Priority" |};
    {| ageRange := (6, 12);
       advice := ["Heart monitoring continues"; "Watch skin for changes"; "Dental care - no whiskers to detect food"; "Keep environment warm"];
       focus := "Continuing Care" |};
    {| ageRange := (12, 15);
       advice := ["Increased cardiac monitoring"; "Extra warmth needed"; "Skin may need more care"; "Comfortable, heated spaces"];
       focus := "Senior Sphynx" |}];
     generalNotes := "Hairless breed requiring special care. High HCM risk - cardiac screening essential. Needs weekly bathing and warmth." |}.

Definition devonRex : BreedHealthProfile :=
  {| breed := "Devon Rex";
     aliases := ["devon rex"; "devon"; "pixie cat"];
     sizeCategory := small;
     lifeExpectancy := {| min := 12; max := 15 |};
     idealWeight := {| min := 2.5; max := 4 |};
     healthRisks :=
    [{| condition := "Hereditary Myopathy";
       riskLevel := high;
       typicalOnsetYears := 0.5;
       monitoringAdvice := "Genetic condition causing muscle weakness. Usually apparent in kittens.";
       symptoms := Some ["Muscle weakness"; "Head bobbing"; "Difficulty swallowing"; "Fatigue"] |};
    {| condition := "Patellar Luxation";
       riskLevel := moderate;
       typicalOnsetYears := 2;
       monitoringAdvice := "Watch for limping or abnormal gait.";
       symptoms := Some ["Limping"; "Leg held up"; "Skipping gait"] |};
    {| condition := "Hip Dysplasia";
       riskLevel := moderate;
       typicalOnsetYears := 3;
       monitoringAdvice := "Monitor mobility as they age.";
       symptoms := Some ["Reluctance to jump"; "Stiffness"] |};
    {| condition := "Skin Sensitivity";
       riskLevel := moderate;
       typicalOnsetYears := 0;
       monitoringAdvice := "Curly coat can cause skin issues. Regular grooming needed.";
       symptoms := Some ["Skin irritation"; "Oily skin"] |}];
     screeningSchedule :=
    [{| ageYears := 1;
       screenings := ["Myopathy assessment"; "Joint evaluation"; "Baseline bloodwork"];
       reason := "Screen for hereditary issues" |};
    {| ageYears := 3;
       screenings := ["Joint assessment"; "Heart check"];
       reason := "Monitor for developing issues" |};
    {| ageYears := 7;
       screenings := ["Full panel"; "Joint evaluation"];
       reason := "Senior preparation" |}];
     ageSpecificAdvice :=
    [{| ageRange := (0, 2);
       advice := ["Watch for myopathy signs"; "Monitor joint health"; "Gentle skin care for curly coat"; "High-calorie diet - high metabolism"];
       focus := "Genetic Monitoring" |};
    {| ageRange := (2, 6);
       advice := ["Monitor for patella issues"; "Keep weight healthy for joints"; "Regular exercise appropriate for build"; "Skin care routine"];
       focus := "Joint Care" |};
    {| ageRange := (6, 12);
       advice := ["Joint supplements may help"; "Regular health checks"; "Maintain healthy weight"; "Skin monitoring continues"];
       focus := "Maintenance" |};
    {| ageRange := (12, 15);
       advice := ["Joint care priority"; "Soft bedding"; "Warmth - thin coat provides less insulation"; "Regular vet visits"];
       focus := "Senior Support" |}];
     generalNotes := "Playful, mischievous breed with unique curly coat. Hereditary myopathy is a concern. Needs warmth and joint care." |}.

Definition cornishRex : BreedHealthProfile :=
  {| breed := "Cornish Rex";
     aliases := ["cornish rex"; "cornish"];
     sizeCategory := small;
     lifeExpectancy := {| min := 12; max := 15 |};
     idealWeight := {| min := 2.5; max := 4.5 |};
     healthRisks :=
    [{| condition := "Hypotrichosis";
       riskLevel := moderate;
       typicalOnsetYears := 0;
       monitoringAdvice := "Some may develop bald patches. Usually cosmetic.";
       symptoms := Some ["Hair loss"; "Thin coat areas"] |};
    {| condition := "Patellar Luxation";
       riskLevel := moderate;
       typicalOnsetYears := 2;
       monitoringAdvice := "Similar to Devon Rex. Monitor joint health.";
       symptoms := Some ["Limping"; "Abnormal gait"] |};
    {| condition := "Hypertrophic Cardiomyopathy (HCM)";
       riskLevel := moderate;
       typicalOnsetYears := 5;
       monitoringAdvice := "Less common than in Sphynx but still monitor.";
       symptoms := Some ["Lethargy"; "Breathing changes"] |}];
     screeningSchedule :=
    [{| ageYears := 2;
       screenings := ["Joint evaluation"; "Skin assessment"; "Baseline bloodwork"];
       reason := "Establish baseline" |};
    {| ageYears := 5;
       screenings := ["Heart check"; "Joint assessment"];
       reason := "Cardiac monitoring begins" |};
    {| ageYears := 8;
       screenings := ["Senior panel"; "Full assessment"];
       reason := "Senior care" |}];
     ageSpecificAdvice :=
    [{| ageRange := (0, 3);
       advice := ["Monitor joint development"; "High-calorie diet for high metabolism"; "Warmth needed - wavy coat provides less insulation"; "Gentle grooming"];
       focus := "Growth & Joints" |};
    {| ageRange := (3, 8);
       advice := ["Keep joints healthy with appropriate exercise"; "Maintain healthy weight"; "Begin heart monitoring"; "Skin care"];
       focus := "Active Adult" |};
    {| ageRange := (8, 15);
       advice := ["Joint support"; "Regular cardiac checks"; "Warmth important"; "Regular health monitoring"];
       focus := "Senior Years" |}];
     generalNotes := "Elegant, athletic breed with unique wavy coat. Similar to Devon Rex in care needs. Needs warmth and joint monitoring." |}.

Definition scottishFold : BreedHealthProfile :=
  {| breed := "Scottish Fold";
     aliases := ["scottish fold"; "scottish"; "fold"];
     sizeCategory := medium;
     lifeExpectancy := {| min := 11; max := 14 |};
     idealWeight := {| min := 3; max := 6 |};
     healthRisks :=
    [{| condition := "Osteochondrodysplasia";
       riskLevel := high;
       typicalOnsetYears := 0;
       monitoringAdvice := "Genetic condition affecting all Scottish Folds. Causes arthritis and cartilage issues.";
       symptoms := Some ["Stiffness"; "Reluctance to move"; "Thick/stiff tail"; "Limping"] |};
    {| condition := "Arthritis";
       riskLevel := high;
       typicalOnsetYears := 2;
       monitoringAdvice := "Develops early due to osteochondrodysplasia. Pain management essential.";
       symptoms := Some ["Stiffness"; "Reluctance to jump"; "Difficulty grooming"] |};
    {| condition := "Cardiomyopathy";
       riskLevel := moderate;
       typicalOnsetYears := 5;
       monitoringAdvice := "Regular heart monitoring recommended.";
       symptoms := Some ["Lethargy"; "Breathing difficulties"] |}];
     screeningSchedule :=
    [{| ageYears := 1;
       screenings := ["Joint assessment"; "Baseline X-rays"; "Bloodwork"];
       reason := "Assess bone/joint development" |};
    {| ageYears := 3;
       screenings := ["Joint X-rays"; "Pain assessment"; "Heart check"];
       reason := "Monitor progression" |};
    {| ageYears := 5;
       screenings := ["Full joint evaluation"; "Cardiac screening"; "Pain management review"];
       reason := "Ongoing care" |};
    {| ageYears := 8;
       screenings := ["Comprehensive assessment"; "Pain management"];
       reason := "Senior care" |}];
     ageSpecificAdvice :=
    [{| ageRange := (0, 2);
       advice := ["X-rays to assess bone development"; "Soft bedding essential"; "Low-impact play"; "Watch for early stiffness signs"];
       focus := "Joint Baseline" |};
    {| ageRange := (2, 5);
       advice := ["Joint supplements from early age"; "Maintain healthy weight - critical for joints"; "Pain medication if needed"; "Accessible litter boxes and food"];
       focus := "Pain Prevention" |};
    {| ageRange := (5, 10);
       advice := ["Pain management review regularly"; "Heated beds can help"; "Gentle handling"; "Monitor mobility closely"];
       focus := "Comfort Priority" |};
    {| ageRange := (10, 14);
       advice := ["Focus on comfort and pain control"; "Easy access to everything"; "Regular pain assessments"; "Consider mobility aids"];
       focus := "Quality of Life" |}];
     generalNotes := "Sweet, gentle breed but ALL Scottish Folds have a genetic condition affecting bones/cartilage. Early and ongoing joint care is essential. Pain management is a priority." |}.

Definition birman : BreedHealthProfile :=
  {| breed := "Birman";
     aliases := ["birman"; "sacred cat of burma"];
     sizeCategory := medium;
     lifeExpectancy := {| min := 12; max := 16 |};
     idealWeight := {| min := 3.5; max := 6 |};
     healthRisks :=
    [{| condition := "Hypertrophic Cardiomyopathy (HCM)";
       riskLevel := moderate;
       typicalOnsetYears := 5;
       monitoringAdvice := "Annual cardiac screening after age 4.";
       symptoms := Some ["Lethargy"; "Breathing difficulties"] |};
    {| condition := "Renal Disease";
       riskLevel := moderate;
       typicalOnsetYears := 8;
       monitoringAdvice := "Monitor kidney function from middle age.";
       symptoms := Some ["Increased thirst"; "Weight loss"] |};
    {| condition := "Feline Hyperesthesia Syndrome";
       riskLevel := low;
       typicalOnsetYears := 1;
       monitoringAdvice := "Watch for skin rippling and excessive grooming.";
       symptoms := Some ["Skin rippling"; "Tail chasing"; "Excessive grooming"] |}];
     screeningSchedule :=
    [{| ageYears := 2;
       screenings := ["Baseline bloodwork"; "General health check"];
       reason := "Establish baseline" |};
    {| ageYears := 5;
       screenings := ["Echocardiogram"; "Kidney panel"];
       reason := "Begin cardiac/renal monitoring" |};
    {| ageYears := 8;
       screenings := ["Full senior panel"; "Heart check"; "Kidney function"];
       reason := "Senior preparation" |}];
     ageSpecificAdvice :=
    [{| ageRange := (0, 3);
       advice := ["Regular grooming for silky coat"; "Gentle socialization"; "Establish health baseline"; "Watch for hyperesthesia signs"];
       focus := "Socialization & Grooming" |};
    {| ageRange := (3, 8);
       advice := ["Begin cardiac screening at 5"; "Monitor kidney function"; "Maintain grooming routine"; "Keep stress low"];
       focus := "Preventive Care" |};
    {| ageRange := (8, 16);
       advice := ["Regular cardiac and kidney checks"; "Comfortable environment"; "Continue gentle grooming"; "Monitor for age-related changes"];
       focus := "Senior Care" |}];
     generalNotes := "Gentle, quiet breed with beautiful coat. Generally healthy but monitor heart and kidneys as they age." |}.

Definition turkishAngora : BreedHealthProfile :=
  {| breed := "Turkish Angora";
     aliases := ["turkish angora"; "angora"];
     sizeCategory := medium;
     lifeExpectancy := {| min := 12; max := 18 |};
     idealWeight := {| min := 3; max := 5 |};
     healthRisks :=
    [{| condition := "Deafness (White Cats)";
       riskLevel := high;
       typicalOnsetYears := 0;
       monitoringAdvice := "White Turkish Angoras, especially with blue eyes, often deaf. BAER test available.";
       symptoms := Some ["No response to sounds"; "Startles easily when touched"] |};
    {| condition := "Ataxia";
       riskLevel := moderate;
       typicalOnsetYears := 0.5;
       monitoringAdvice := "Hereditary condition affecting coordination. Usually apparent in kittens.";
       symptoms := Some ["Uncoordinated movement"; "Head bobbing"; "Balance issues"] |};
    {| condition := "Hypertrophic Cardiomyopathy (HCM)";
       riskLevel := moderate;
       typicalOnsetYears := 5;
       monitoringAdvice := "Annual heart screening from age 4.";
       symptoms := Some ["Lethargy"; "Breathing changes"] |}];
     screeningSchedule :=
    [{| ageYears := 0.5;
       screenings := ["BAER hearing test (white cats)"; "Neurological assessment"];
       reason := "Screen for deafness and ataxia" |};
    {| ageYears := 4;
       screenings := ["Echocardiogram"; "General health check"];
       reason := "Begin cardiac monitoring" |};
    {| ageYears := 8;
       screenings := ["Heart check"; "Senior panel"];
       reason := "Senior care" |}];
     ageSpecificAdvice :=
    [{| ageRange := (0, 2);
       advice := ["BAER test for white cats"; "Monitor for ataxia signs"; "Establish grooming routine for long coat"; "Indoor-only recommended for deaf cats"];
       focus := "Genetic Screening" |};
    {| ageRange := (2, 6);
       advice := ["Very active breed - provide lots of play"; "Begin cardiac monitoring at 4"; "Keep coat well-groomed"; "Mental stimulation important"];
       focus := "Active Adult Care" |};
    {| ageRange := (6, 12);
       advice := ["Regular heart checks"; "Maintain activity level"; "Grooming routine continues"; "Watch for any mobility changes"];
       focus := "Healthy Aging" |};
    {| ageRange := (12, 18);
       advice := ["Turkish Angoras can live very long"; "Regular monitoring"; "Comfort-focused care"; "Gentle grooming"];
       focus := "Long-Lived Senior" |}];
     generalNotes := "Elegant, ancient breed known for long silky coat. White cats often deaf. Active and intelligent, often lives into late teens." |}.

Definition himalayan : BreedHealthProfile :=
  {| breed := "Himalayan";
     aliases := ["himalayan"; "himmie"; "colorpoint persian"];
     sizeCategory := medium;
     lifeExpectancy := {| min := 12; max := 15 |};
     idealWeight := {| min := 3.5; max := 5.5 |};
     healthRisks :=
    [{| condition := "Polycystic Kidney Disease (PKD)";
       riskLevel := high;
       typicalOnsetYears := 7;
       monitoringAdvice := "Same as Persian - genetic test and ultrasound essential.";
       symptoms := Some ["Increased thirst"; "Weight loss"; "Lethargy"] |};
    {| condition := "Brachycephalic Airway Syndrome";
       riskLevel := high;
       typicalOnsetYears := 0;
       monitoringAdvice := "Flat face causes breathing issues. Avoid heat and stress.";
       symptoms := Some ["Noisy breathing"; "Snoring"; "Exercise intolerance"] |};
    {| condition := "Progressive Retinal Atrophy (PRA)";
       riskLevel := moderate;
       typicalOnsetYears := 4;
       monitoringAdvice := "Annual eye exams recommended.";
       symptoms := Some ["Night blindness"; "Vision loss"] |}];
     screeningSchedule :=
    [{| ageYears := 1;
       screenings := ["PKD genetic test"; "Eye exam"; "Baseline bloodwork"];
       reason := "Genetic screening" |};
    {| ageYears := 4;
       screenings := ["Kidney ultrasound"; "Eye exam"];
       reason := "PKD monitoring" |};
    {| ageYears := 7;
       screenings := ["Full panel"; "Kidney function"; "Eye exam"];
       reason := "Senior preparation" |}];
     ageSpecificAdvice :=
    [{| ageRange := (0, 3);
       advice := ["Keep environment cool"; "Establish daily grooming routine"; "PKD genetic test"; "Monitor breathing"];
       focus := "Breathing & Grooming" |};
    {| ageRange := (3, 7);
       advice := ["Begin kidney screening"; "Annual eye exams"; "Maintain grooming"; "Climate control important"];
       focus := "Kidney & Eye Health" |};
    {| ageRange := (7, 15);
       advice := ["Regular kidney monitoring"; "Keep stress low"; "Comfortable environment"; "Gentle care routine"];
       focus := "Senior Care" |}];
     generalNotes := "Persian with Siamese coloring. Same health concerns as Persian including PKD and breathing issues. High-maintenance coat." |}.

Definition domesticShorthair : BreedHealthProfile :=
  {| breed := "Domestic Shorthair";
     aliases := ["domestic shorthair"; "dsh"; "house cat"; "moggy"; "mixed breed"; "tabby"; "mixed"];
     sizeCategory := medium;
     lifeExpectancy := {| min := 12; max := 20 |};
     idealWeight := {| min := 3.5; max := 5.5 |};
     healthRisks :=
    [{| condition := "Obesity";
       riskLevel := moderate;
       typicalOnsetYears := 3;
       monitoringAdvice := "Very common in pet cats. Portion control and regular exercise essential.";
       symptoms := Some ["Visible weight gain"; "Decreased activity"; "Difficulty grooming"] |};
    {| condition := "Dental Disease";
       riskLevel := moderate;
       typicalOnsetYears := 3;
       monitoringAdvice := "Common in all cats. Annual dental exams recommended.";
       symptoms := Some ["Bad breath"; "Difficulty eating"; "Red gums"] |};
    {| condition := "Diabetes";
       riskLevel := moderate;
       typicalOnsetYears := 8;
       monitoringAdvice := "Often linked to obesity. Weight management is key.";
       symptoms := Some ["Increased thirst"; "Increased urination"; "Weight changes"] |};
    {| condition := "Kidney Disease";
       riskLevel := moderate;
       typicalOnsetYears := 10;
       monitoringAdvice := "Common in senior cats. Regular bloodwork after age 7.";
       symptoms := Some ["Increased thirst"; "Weight loss"; "Decreased appetite"] |}];
     screeningSchedule :=
    [{| ageYears := 1;
       screenings := ["Baseline bloodwork"; "Dental exam"; "Weight assessment"];
       reason := "Establish baseline" |};
    {| ageYears := 5;
       screenings := ["Full bloodwork"; "Dental assessment"; "Weight check"];
       reason := "Middle-age check" |};
    {| ageYears := 7;
       screenings := ["Senior bloodwork including kidney/thyroid"; "Dental care"];
       reason := "Begin senior monitoring" |};
    {| ageYears := 10;
       screenings := ["Bi-annual senior panels"; "Complete assessment"];
       reason := "Senior care intensifies" |}];
     ageSpecificAdvice :=
    [{| ageRange := (0, 2);
       advice := ["Spay/neuter if not done"; "Establish feeding routine and portions"; "Complete vaccinations"; "Regular play for healthy development"];
       focus := "Foundation Health" |};
    {| ageRange := (2, 7);
       advice := ["Annual checkups"; "Maintain healthy weight"; "Dental care important"; "Keep mentally and physically active"];
       focus := "Maintenance & Prevention" |};
    {| ageRange := (7, 12);
       advice := ["Switch to bi-annual vet visits"; "Monitor for diabetes and kidney disease"; "Adjust diet as needed"; "Watch for arthritis signs"];
       focus := "Senior Transition" |};
    {| ageRange := (12, 20);
       advice := ["Regular bloodwork monitoring"; "Comfort and quality of life focus"; "Easy access to resources"; "Watch for cognitive changes"];
       focus := "Senior Care" |}];
     generalNotes := "Mixed breed cats are generally hardy with genetic diversity. Still need regular care and preventive health measures. Can live very long with proper care." |}.

Definition domesticLonghair : BreedHealthProfile :=
  {| breed := "Domestic Longhair";
     aliases := ["domestic longhair"; "dlh"; "long-haired cat"; "longhair"];
     sizeCategory := medium;
     lifeExpectancy := {| min := 12; max := 18 |};
     idealWeight := {| min := 3.5; max := 6 |};
     healthRisks :=
    [{| condition := "Hairballs";
       riskLevel := moderate;
       typicalOnsetYears := 1;
       monitoringAdvice := "Long coat leads to more hairballs. Regular grooming and hairball remedies help.";
       symptoms := Some ["Frequent vomiting"; "Constipation"; "Dry heaving"] |};
    {| condition := "Matted Fur";
       riskLevel := moderate;
       typicalOnsetYears := 0;
       monitoringAdvice := "Regular grooming essential. Mats can cause skin issues.";
       symptoms := Some ["Tangled fur"; "Skin irritation under mats"] |};
    {| condition := "Obesity";
       riskLevel := moderate;
       typicalOnsetYears := 3;
       monitoringAdvice := "Same as DSH. Long fur can hide weight gain.";
       symptoms := Some ["Weight gain"; "Difficulty grooming"] |};
    {| condition := "Kidney Disease";
       riskLevel := moderate;
       typicalOnsetYears := 10;
       monitoringAdvice := "Common in senior cats.";
       symptoms := Some ["Increased thirst"; "Weight loss"] |}];
     screeningSchedule :=
    [{| ageYears := 1;
       screenings := ["Baseline bloodwork"; "Coat/skin assessment"];
       reason := "Establish baseline" |};
    {| ageYears := 5;
       screenings := ["Full bloodwork"; "Weight check"];
       reason := "Middle-age check" |};
    {| ageYears := 7;
       screenings := ["Senior panel"; "Thyroid check"];
       reason := "Senior monitoring begins" |};
    {| ageYears := 10;
       screenings := ["Bi-annual senior panels"];
       reason := "Senior care" |}];
     ageSpecificAdvice :=
    [{| ageRange := (0, 2);
       advice := ["Establish daily grooming routine early"; "Train to accept brushing"; "Hairball prevention diet/treats"; "Regular play"];
       focus := "Grooming Foundation" |};
    {| ageRange := (2, 7);
       advice := ["Maintain grooming routine"; "Monitor weight under the fluff"; "Dental care"; "Annual checkups"];
       focus := "Coat & Weight Care" |};
    {| ageRange := (7, 12);
       advice := ["May need grooming help as they age"; "Regular senior bloodwork"; "Watch for mobility affecting self-grooming"; "Hairball management continues"];
       focus := "Senior Prep" |};
    {| ageRange := (12, 18);
       advice := ["Assist with grooming if needed"; "Regular health monitoring"; "Comfort-focused care"; "Watch for matting in hard-to-reach areas"];
       focus := "Senior Support" |}];
     generalNotes := "Mixed breed with long coat. Needs regular grooming to prevent mats and hairballs. Generally healthy with good genetic diversity." |}.

Definition tuxedo : BreedHealthProfile :=
  {| breed := "Tuxedo";
     aliases := ["tuxedo"; "tuxedo cat"; "black and white"];
     sizeCategory := medium;
     lifeExpectancy := {| min := 12; max := 20 |};
     idealWeight := {| min := 3.5; max := 5.5 |};
     healthRisks :=
    healthRisks domesticShorthair;
     screeningSchedule :=
    screeningSchedule domesticShorthair;
     ageSpecificAdvice :=
    ageSpecificAdvice domesticShorthair;
     generalNotes := "Tuxedo is a color pattern, not a breed. Health considerations are same as Domestic Shorthair. Known for personality and intelligence!" |}.

Definition calico : BreedHealthProfile :=
  {| breed := "Calico";
     aliases := ["calico"; "calico cat"; "tricolor"];
     sizeCategory := medium;
     lifeExpectancy := {| min := 12; max := 18 |};
     idealWeight := {| min := 3.5; max := 5.5 |};
     healthRisks :=
    (healthRisks domesticShorthair) ++
    [{| condition := "Klinefelter Syndrome (Male Calicos)";
       riskLevel := high;
       typicalOnsetYears := 0;
       monitoringAdvice := "Male calicos are extremely rare and have XXY chromosomes. Often have health issues.";
       symptoms := Some ["Developmental issues"; "Cognitive problems"; "Behavioral differences"] |}];
     screeningSchedule :=
    screeningSchedule domesticShorthair;
     ageSpecificAdvice :=
    ageSpecificAdvice domesticShorthair;
     generalNotes := "Calico is a color pattern (almost always female). Health considerations similar to Domestic Shorthair. Male calicos are rare and may have genetic issues." |}.

Definition tabby : BreedHealthProfile :=
  {| breed := "Tabby";
     aliases := ["tabby"; "tabby cat"; "striped cat"; "tiger cat"];
     sizeCategory := medium;
     lifeExpectancy := {| min := 12; max := 20 |};
     idealWeight := {| min := 3.5; max := 5.5 |};
     healthRisks :=
    healthRisks domesticShorthair;
     screeningSchedule :=
    screeningSchedule domesticShorthair;
     ageSpecificAdvice :=
    ageSpecificAdvice domesticShorthair;
     generalNotes := "Tabby is a coat pattern, not a breed. Health considerations same as Domestic Shorthair. Very common and hardy pattern." |}.

Definition americanShorthair : BreedHealthProfile :=
  {| breed := "American Shorthair";
     aliases := ["american shorthair"; "ash"];
     sizeCategory := medium;
     lifeExpectancy := {| min := 15; max := 20 |};
     idealWeight := {| min := 4; max := 6 |};
     healthRisks :=
    [{| condition := "Hypertrophic Cardiomyopathy (HCM)";
       riskLevel := moderate;
       typicalOnsetYears := 5;
       monitoringAdvice := "Annual heart screening from age 4.";
       symptoms := Some ["Lethargy"; "Breathing difficulties"] |};
    {| condition := "Obesity";
       riskLevel := moderate;
       typicalOnsetYears := 3;
       monitoringAdvice := "Muscular breed that can become overweight. Portion control needed.";
       symptoms := Some ["Weight gain"; "Decreased activity"] |}];
     screeningSchedule :=
    [{| ageYears := 2;
       screenings := ["Baseline bloodwork"; "Weight assessment"];
       reason := "Establish baseline" |};
    {| ageYears := 5;
       screenings := ["Echocardiogram"; "Full panel"];
       reason := "Cardiac monitoring" |};
    {| ageYears := 8;
       screenings := ["Senior panel"; "Heart check"];
       reason := "Senior care" |}];
     ageSpecificAdvice :=
    [{| ageRange := (0, 3);
       advice := ["Establish portion control"; "Regular play sessions"; "Annual checkups"];
       focus := "Foundation" |};
    {| ageRange := (3, 8);
       advice := ["Monitor weight"; "Begin cardiac screening"; "Maintain activity"];
       focus := "Weight & Heart" |};
    {| ageRange := (8, 15);
       advice := ["Regular heart monitoring"; "Joint support if needed"; "Weight management continues"];
       focus := "Senior Care" |};
    {| ageRange := (15, 20);
       advice := ["Very long-lived breed"; "Regular monitoring"; "Comfort-focused care"];
       focus := "Golden Years" |}];
     generalNotes := "Hardy, athletic breed with long lifespan. Generally healthy but watch weight and heart. Can live 15-20 years." |}.

Definition manx : BreedHealthProfile :=
  {| breed := "Manx";
     aliases := ["manx"; "manx cat"; "tailless cat"];
     sizeCategory := medium;
     lifeExpectancy := {| min := 12; max := 14 |};
     idealWeight := {| min := 3.5; max := 5.5 |};
     healthRisks :=
    [{| condition := "Manx Syndrome";
       riskLevel := high;
       typicalOnsetYears := 0;
       monitoringAdvice := "Spinal defects from the tailless gene. Can affect bowel/bladder control.";
       symptoms := Some ["Incontinence"; "Difficulty walking"; "Constipation"; "Hind leg weakness"] |};
    {| condition := "Arthritis";
       riskLevel := moderate;
       typicalOnsetYears := 5;
       monitoringAdvice := "Spine issues can lead to early arthritis.";
       symptoms := Some ["Stiffness"; "Reluctance to jump"] |};
    {| condition := "Corneal Dystrophy";
       riskLevel := moderate;
       typicalOnsetYears := 4;
       monitoringAdvice := "Annual eye exams recommended.";
       symptoms := Some ["Cloudy eyes"; "Vision changes"] |}];
     screeningSchedule :=
    [{| ageYears := 0.5;
       screenings := ["Spinal assessment"; "Neurological evaluation"];
       reason := "Screen for Manx syndrome" |};
    {| ageYears := 3;
       screenings := ["X-rays if needed"; "Eye exam"];
       reason := "Ongoing monitoring" |};
    {| ageYears := 6;
       screenings := ["Full assessment"; "Pain evaluation"; "Eye exam"];
       reason := "Monitor for arthritis" |}];
     ageSpecificAdvice :=
    [{| ageRange := (0, 2);
       advice := ["Thorough evaluation for Manx syndrome"; "Monitor bowel/bladder function"; "Gentle exercise appropriate"; "Watch for hind leg issues"];
       focus := "Spinal Assessment" |};
    {| ageRange := (2, 7);
       advice := ["Monitor for early arthritis"; "Keep weight healthy for spine"; "Regular eye exams"; "Appropriate exercise levels"];
       focus := "Mobility Support" |};
    {| ageRange := (7, 14);
       advice := ["Pain management as needed"; "Soft bedding important"; "Easy access to litter box"; "Regular monitoring"];
       focus := "Comfort Care" |}];
     generalNotes := "Unique tailless breed with genetic spinal concerns. Manx syndrome is a serious risk. Requires careful monitoring from kittenhood." |}.

Definition ragamuffin : BreedHealthProfile :=
  {| breed := "Ragamuffin";
     aliases := ["ragamuffin"; "raga muffin"];
     sizeCategory := large;
     lifeExpectancy := {| min := 12; max := 16 |};
     idealWeight := {| min := 4.5; max := 9 |};
     healthRisks :=
    [{| condition := "Hypertrophic Cardiomyopathy (HCM)";
       riskLevel := moderate;
       typicalOnsetYears := 5;
       monitoringAdvice := "Related to Ragdoll - similar cardiac risks.";
       symptoms := Some ["Lethargy"; "Breathing difficulties"] |};
    {| condition := "Polycystic Kidney Disease (PKD)";
       riskLevel := moderate;
       typicalOnsetYears := 7;
       monitoringAdvice := "Some PKD present in breeding lines. Ultrasound screening recommended.";
       symptoms := Some ["Increased thirst"; "Weight loss"] |}];
     screeningSchedule :=
    [{| ageYears := 2;
       screenings := ["Baseline bloodwork"; "Heart check"];
       reason := "Establish baseline" |};
    {| ageYears := 5;
       screenings := ["Echocardiogram"; "Kidney ultrasound"];
       reason := "Begin monitoring" |};
    {| ageYears := 8;
       screenings := ["Full senior panel"; "Cardiac/renal check"];
       reason := "Senior care" |}];
     ageSpecificAdvice :=
    [{| ageRange := (0, 3);
       advice := ["Support healthy growth - large breed"; "Regular grooming"; "Socialize well"; "Establish vet relationship"];
       focus := "Growth Period" |};
    {| ageRange := (3, 8);
       advice := ["Begin cardiac screening"; "Monitor kidney health"; "Maintain coat with regular grooming"; "Keep active for weight management"];
       focus := "Adult Care" |};
    {| ageRange := (8, 16);
       advice := ["Regular heart and kidney monitoring"; "Joint support for large frame"; "Continue grooming assistance"; "Comfort-focused care"];
       focus := "Senior Years" |}];
     generalNotes := "Sweet, docile breed related to Ragdoll. Large size requires joint and heart attention. Generally healthy but monitor for HCM." |}.

Definition somali : BreedHealthProfile :=
  {| breed := "Somali";
     aliases := ["somali"; "somali cat"; "longhaired abyssinian"];
     sizeCategory := medium;
     lifeExpectancy := {| min := 12; max := 16 |};
     idealWeight := {| min := 3; max := 5 |};
     healthRisks :=
    healthRisks abyssinian;
     screeningSchedule :=
    screeningSchedule abyssinian;
     ageSpecificAdvice :=
    [{| ageRange := (0, 2);
       advice := ["Complete genetic testing (same as Aby)"; "Establish grooming routine for long coat"; "Provide lots of activity"; "High-quality protein diet"];
       focus := "Genetic Testing & Coat Care" |};
    {| ageRange := (2, 5);
       advice := ["Establish kidney function baseline"; "Regular grooming"; "Eye exams for PRA"; "Keep active and stimulated"];
       focus := "Kidney Baseline" |};
    {| ageRange := (5, 10);
       advice := ["Regular kidney monitoring crucial"; "Consider kidney-supportive diet"; "Maintain grooming"; "Continue active lifestyle"];
       focus := "Kidney Health Priority" |};
    {| ageRange := (10, 16);
       advice := ["Intensive kidney monitoring"; "May need grooming help"; "Joint support if needed"; "Regular comprehensive checks"];
       focus := "Senior Support" |}];
     generalNotes := "Long-haired version of Abyssinian with same health concerns. Active, intelligent breed. Renal amyloidosis is primary concern." |}.

Definition chartreux : BreedHealthProfile :=
  {| breed := "Chartreux";
     aliases := ["chartreux"];
     sizeCategory := medium;
     lifeExpectancy := {| min := 12; max := 15 |};
     idealWeight := {| min := 4; max := 7 |};
     healthRisks :=
    [{| condition := "Patellar Luxation";
       riskLevel := moderate;
       typicalOnsetYears := 2;
       monitoringAdvice := "Watch for limping or unusual gait.";
       symptoms := Some ["Limping"; "Skipping gait"; "Leg held up"] |};
    {| condition := "Polycystic Kidney Disease (PKD)";
       riskLevel := low;
       typicalOnsetYears := 7;
       monitoringAdvice := "Less common but can occur. Monitor kidney function in seniors.";
       symptoms := Some ["Increased thirst"; "Weight loss"] |}];
     screeningSchedule :=
    [{| ageYears := 2;
       screenings := ["Joint assessment"; "Baseline bloodwork"];
       reason := "Establish baseline" |};
    {| ageYears := 5;
       screenings := ["Full bloodwork"; "Joint check"];
       reason := "Middle age monitoring" |};
    {| ageYears := 8;
       screenings := ["Senior panel"; "Kidney function"];
       reason := "Senior care" |}];
     ageSpecificAdvice :=
    [{| ageRange := (0, 3);
       advice := ["Monitor joint health"; "Maintain healthy weight"; "Regular play"; "Establish brushing routine for dense coat"];
       focus := "Joint Development" |};
    {| ageRange := (3, 8);
       advice := ["Regular checkups"; "Watch for patella issues"; "Keep active"; "Coat care"];
       focus := "Maintenance" |};
    {| ageRange := (8, 15);
       advice := ["Joint support if needed"; "Regular bloodwork"; "Continue coat care"; "Monitor kidney function"];
       focus := "Senior Years" |}];
     generalNotes := "Quiet, gentle French breed with distinctive blue-gray coat. Generally healthy. Watch joints and maintain dense coat." |}.

Definition BREED_HEALTH_DATABASE : list BreedHealthProfile :=
  [maineCoon;
   ragdoll;
   norwegianForest;
   britishShorthair;
   savannah;
   ragamuffin;
   persian;
   bengal;
   siamese;
   abyssinian;
   exoticShorthair;
   burmese;
   orientalShorthair;
   russianBlue;
   scottishFold;
   birman;
   turkishAngora;
   himalayan;
   americanShorthair;
   manx;
   somali;
   chartreux;
   sphynx;
   devonRex;
   cornishRex;
   domesticShorthair;
   domesticLonghair;
   tuxedo;
   calico;
   tabby].

(** Find a breed profile by name (case-insensitive, checks aliases). *)
Definition matches (normalized : string) (profile : BreedHealthProfile) : bool :=
  String.eqb (JS.toLowerCase (breed profile)) normalized
  || existsb (fun alias => String.eqb (JS.toLowerCase alias) normalized)
             (aliases profile).

Definition findBreedProfile (breedName : option string) : BreedHealthProfile :=
  match breedName with
  | None => domesticShorthair
  | Some EmptyString => domesticShorthair
  | Some name =>
      let normalized := JS.trim (JS.toLowerCase name) in
      match find (matches normalized) BREED_HEALTH_DATABASE with
      | Some profile => profile
      | None => domesticShorthair
      end
  end.

(** Health risks for a specific age: those that could emerge soon. *)
Definition getHealthRisksForAge (profile : BreedHealthProfile) (age : Q)
  : list HealthRisk :=
  filter (fun risk => JS.Qleb (typicalOnsetYears risk) (age + 2))
         (healthRisks profile).

(** Age-specific advice for the current age. *)
Definition getAgeSpecificAdvice (profile : BreedHealthProfile) (age : Q)
  : option AgeSpecificAdvice :=
  find (fun a => JS.Qleb (fst (ageRange a)) age && JS.Qltb age (snd (ageRange a)))
       (ageSpecificAdvice profile).

(** Recommended screenings for a specific age: the most recent screening
    milestone at or before this age. *)
Definition getScreeningsForAge (profile : BreedHealthProfile) (age : Q)
  : option ScreeningSchedule :=
  let screenings :=
    JS.sort_by (fun s => - ageYears s)
      (filter (fun s => JS.Qleb (ageYears s) age) (screeningSchedule profile)) in
  hd_error screenings.

(** Upcoming screenings: the next milestone after this age. *)
Definition getUpcomingScreenings (profile : BreedHealthProfile) (age : Q)
  : option ScreeningSchedule :=
  let upcoming :=
    JS.sort_by ageYears
      (filter (fun s => JS.Qltb age (ageYears s)) (screeningSchedule profile)) in
  hd_error upcoming.

(** What [getBreedAlertsForAge] returns. *)
Record BreedAlerts : Type := {
  ba_alerts : list string;
  ba_screenings : list string;
  ba_advice : list string
}.

(** All relevant breed alerts for a specific age (things to watch for). *)
Definition getBreedAlertsForAge (profile : BreedHealthProfile) (age : Q) : BreedAlerts :=
  let alerts :=
    flat_map
      (fun risk =>
         if JS.Qeqb (typicalOnsetYears risk) age then
           [breed profile ++ "s typically begin showing " ++ condition risk
              ++ " around age " ++ JS.string_of_number age ++ ". "
              ++ monitoringAdvice risk]
         else if JS.Qeqb (typicalOnsetYears risk) (age + 1) then
           ["Watch for early signs of " ++ condition risk ++ " - common in "
              ++ breed profile ++ "s starting around age "
              ++ JS.string_of_number (typicalOnsetYears risk) ++ "."]
         else [])
      (healthRisks profile) in
  let screenings :=
    match find (fun s => JS.Qeqb (ageYears s) age) (screeningSchedule profile) with
    | Some screening =>
        map (fun s => "Recommended: " ++ s ++ " - " ++ reason screening)
            (BreedHealthData.screenings screening)
    | None => []
    end in
  let advice :=
    match getAgeSpecificAdvice profile age with
    | Some ageAdvice => BreedHealthData.advice ageAdvice
    | None => []
    end in
  {| ba_alerts := alerts; ba_screenings := screenings; ba_advice := advice |}.

End BreedHealthData.

(** ** types/catlife.ts *)

Module IndoorOutdoor.
Inductive t : Type := indoor | outdoor | mixed.
End IndoorOutdoor.

Module FoodType.
Inductive t : Type := dry | wet | mixed | raw | other.
End FoodType.

Inductive HealthStatus : Type := thriving | ok | risky | unhealthy.
Inductive AlertSeverity : Type := info | warning | critical.

Definition HealthStatus_eqb (a b : HealthStatus) : bool :=
  match a, b with
  | thriving, thriving | ok, ok | risky, risky | unhealthy, unhealthy => true
  | _, _ => false
  end.

(** The fields of [CatProfile] and [CareRoutine] that the simulation core
    reads; the remaining ones (sex, neutered, weightSource, bodyCondition,
    photo and avatar references, feedingFrequency,
    litterCleaningFrequency) are never consulted by it. *)
Module CatProfile.
Record t : Type := {
  name : option string;
  ageYears : option Z;
  ageMonths : option Z;
  breed : option string;
  indoorOutdoor : option IndoorOutdoor.t;
  weightKg : option Q;
  knownConditions : list string
}.
End CatProfile.

Module CareRoutine.
Record t : Type := {
  foodType : option FoodType.t;
  foodAmountOzPerDay : option Q;
  treatsPerDay : option Q;
  playMinutesPerDay : option Q;
  vetVisitsPerYear : option Q
}.
End CareRoutine.

Module SimulationConfig.
Record t : Type := {
  catProfile : CatProfile.t;
  careRoutine : CareRoutine.t;
  startAgeMonths : Z;
  endAgeMonths : Z
}.
End SimulationConfig.

Module SimulationPoint.
Record t : Type := {
  ageMonths : Z;
  weightKgEstimate : Q;
  healthStatus : HealthStatus;
  notes : string
}.
End SimulationPoint.

Module SimulationAlert.
Record t : Type := {
  id : string;
  ageMonths : Q;
  severity : AlertSeverity;
  message : string;
  recommendation : string
}.
End SimulationAlert.

Module SimulationResult.
Record t : Type := {
  points : list SimulationPoint.t;
  alerts : list SimulationAlert.t;
  summary : string;
  recommendations : list string
}.
End SimulationResult.

(** [a ?? b]. *)
Definition nullish {A : Type} (a : option A) (b : A) : A :=
  match a with
  | Some x => x
  | None => b
  end.

(** [catProfile.name || "Your cat"]. *)
Definition catName_of (catProfile : CatProfile.t) : string :=
  match CatProfile.name catProfile with
  | None | Some EmptyString => "Your cat"
  | Some n => n
  end.

(** ** The health simulation engine (second document of app/catlife/page.tsx) *)

Module Simulation.
Import BreedHealthData.

(** Keys of [FALLBACK_WEIGHT_RANGES]. *)
Inductive SizeKey : Type := size_small | size_medium | size_large | size_default.

(** Fallback weight ranges by breed category (in kg). *)
Definition FALLBACK_WEIGHT_RANGES (size : SizeKey) : Range :=
  match size with
  | size_small => {| min := 2.5; max := 4.0 |}
  | size_medium => {| min := 4.0; max := 5.5 |}
  | size_large => {| min := 5.5; max := 8.0 |}
  | size_default => {| min := 3.5; max := 5.5 |}
  end.

(** Fallback breed size mapping. *)
Definition FALLBACK_BREED_SIZES : list (string * SizeKey) :=
  [("maine coon", size_large);
   ("ragdoll", size_large);
   ("norwegian forest", size_large);
   ("british shorthair", size_large);
   ("savannah", size_large);
   ("bengal", size_medium);
   ("persian", size_medium);
   ("siamese", size_small);
   ("abyssinian", size_small);
   ("devon rex", size_small);
   ("cornish rex", size_small);
   ("sphynx", size_small);
   ("domestic shorthair", size_medium);
   ("domestic longhair", size_medium);
   ("tabby", size_medium);
   ("tuxedo", size_medium);
   ("calico", size_medium);
   ("default", size_medium)].

(** Life stage boundaries (in months). *)
Module LIFE_STAGES.
Definition kitten_end : Z := 12.
Definition youngAdult_end : Z := 36.
Definition adult_end : Z := 120.
Definition senior_end : Z := 180.
Definition geriatric_end : Z := 240.
End LIFE_STAGES.

(** Ideal weight range of a breed: the breed database first, then the
    basic mapping.  [None] is [undefined]: the result of
    [FALLBACK_WEIGHT_RANGES[size]] when [size] is not one of its keys,
    which happens when [FALLBACK_BREED_SIZES[normalizedBreed]] is a
    property inherited from [Object.prototype]. *)
Definition getIdealWeightRange (breed : option string) : option Range :=
  let breedProfile := findBreedProfile breed in
  if negb (String.eqb (BreedHealthData.breed breedProfile) "Domestic Shorthair")
  then Some (idealWeight breedProfile)
  else
    match breed with
    | None | Some EmptyString => Some (FALLBACK_WEIGHT_RANGES size_default)
    | Some b =>
        let normalizedBreed := JS.trim (JS.toLowerCase b) in
        match JS.get_property FALLBACK_BREED_SIZES normalizedBreed with
        | JS.Own size => Some (FALLBACK_WEIGHT_RANGES size)
        | JS.Undefined => Some (FALLBACK_WEIGHT_RANGES size_default)
        | JS.Inherited => None
        end
    end.

(** Calorie balance proxy: positive is a weight gain tendency. *)
Definition calculateCalorieProxy (careRoutine : CareRoutine.t)
  (indoorOutdoor : option IndoorOutdoor.t) (currentWeight idealWeight : Q) : Q :=
  let proxy := 0 in
  let foodOz := nullish (CareRoutine.foodAmountOzPerDay careRoutine) 3.5 in
  let idealFoodOz := (idealWeight * 2.2) * 0.5 in
  let proxy := proxy + (foodOz - idealFoodOz) * 0.1 in
  let treats := nullish (CareRoutine.treatsPerDay careRoutine) 2 in
  let proxy := proxy + treats * 0.02 in
  let playMinutes := nullish (CareRoutine.playMinutesPerDay careRoutine) 15 in
  let proxy := proxy - playMinutes * 0.01 in
  let proxy :=
    match indoorOutdoor with
    | Some IndoorOutdoor.indoor => proxy + 0.05
    | Some IndoorOutdoor.outdoor | Some IndoorOutdoor.mixed => proxy - 0.05
    | None => proxy
    end in
  let proxy :=
    match CareRoutine.foodType careRoutine with
    | Some FoodType.wet | Some FoodType.raw => proxy - 0.02
    | Some FoodType.dry => proxy + 0.02
    | _ => proxy
    end in
  proxy.

(** The classification by weight alone with which [determineHealthStatus]
    starts. *)
Definition weightStatus (weight : Q) (idealRange : Range) : HealthStatus :=
  let weight := JS.binary64 weight in
  let midIdeal :=
    JS.div64
      (JS.add64 (JS.binary64 (min idealRange)) (JS.binary64 (max idealRange))) 2 in
  let deviation_lt := JS.div64_lt (JS.Math_abs (JS.sub64 weight midIdeal)) midIdeal in
  if deviation_lt 0.1 then thriving
  else if deviation_lt 0.2 then ok
  else if deviation_lt 0.35 then risky
  else unhealthy.

(** Health status from the weight deviation and the other factors. *)
Definition determineHealthStatus (weight : Q) (idealRange : Range)
  (vetVisitsPerYear : option Q) (ageMonths : Z) (hasKnownConditions : bool)
  : HealthStatus :=
  let status := weightStatus weight idealRange in
  let vetVisits := nullish vetVisitsPerYear 0 in
  let status :=
    if JS.Qeqb vetVisits 0 && (ageMonths >? 24)%Z then
      match status with
      | thriving => ok
      | ok => risky
      | _ => status
      end
    else status in
  let status :=
    if (ageMonths >? LIFE_STAGES.senior_end)%Z then
      if JS.Qltb vetVisits 1 && negb (HealthStatus_eqb status unhealthy) then
        match status with
        | thriving => ok
        | _ => risky
        end
      else status
    else status in
  let status :=
    if hasKnownConditions then
      if JS.Qltb vetVisits 2 then
        match status with
        | thriving => ok
        | _ => status
        end
      else status
    else status in
  status.

Definition getLifeStage (ageMonths : Z) : string :=
  if (ageMonths <? LIFE_STAGES.kitten_end)%Z then "kitten"
  else if (ageMonths <? LIFE_STAGES.youngAdult_end)%Z then "young adult"
  else if (ageMonths <? LIFE_STAGES.adult_end)%Z then "adult"
  else if (ageMonths <? LIFE_STAGES.senior_end)%Z then "senior"
  else "geriatric".

(** Notes of a simulation point. *)
Definition generateNotes (ageMonths : Z) (weight : Q) (status : HealthStatus)
  (idealRange : Range) (catName : string) : string :=
  let ageYears := (ageMonths / 12)%Z in
  let lifeStage := getLifeStage ageMonths in
  let isOverweight := JS.Qltb (max idealRange) weight in
  let isUnderweight := JS.Qltb weight (min idealRange) in
  let note :=
    "At age " ++ JS.string_of_Z ageYears ++ ", " ++ catName ++ " is a "
      ++ lifeStage ++ ". " in
  match status with
  | thriving =>
      note ++ "Weight is in a healthy range and care routine looks great!"
  | ok =>
      if isOverweight then
        note ++ "Weight is slightly above ideal. A bit more playtime could help."
      else if isUnderweight then
        note ++ "Weight is slightly below ideal. Consider consulting your vet."
      else note ++ "Overall health is stable, but there's room for improvement."
  | risky =>
      if isOverweight then
        note ++ "Weight is becoming a concern. Consider reducing treats and increasing activity."
      else if isUnderweight then
        note ++ "Weight is low. Please check with your vet to rule out health issues."
      else note ++ "Some health indicators suggest closer attention is needed."
  | unhealthy =>
      note ++ "Health needs attention. Please schedule a vet visit soon."
  end.

(** Recommendations by life stage. *)
Definition getLifeStageRecommendation (ageMonths : Z) (careRoutine : CareRoutine.t)
  : string :=
  if (ageMonths =? 12)%Z then
    "Transition to adult food if you haven't already. Keep up the play sessions!"
  else if (ageMonths =? 84)%Z then
    "Consider more frequent vet checkups and monitor for any behavior changes."
  else if (ageMonths =? 120)%Z then
    "Switch to senior cat food, increase vet visits to twice yearly, and watch for mobility issues."
  else if (ageMonths =? 180)%Z then
    "Focus on comfort and quality of life. Consider joint supplements and easier-access litter boxes."
  else "Keep providing love, good food, and regular vet care!".

(** *** Alert generation *)

(** The variables of the loop of [generateAlerts]. *)
Record AlertLoop : Type := {
  previousStatus : HealthStatus;
  hasWarnedAboutWeight : bool;
  hasWarnedAboutVet : bool;
  pushed : list SimulationAlert.t
}.

Definition riskyAlert (catName : string) (point : SimulationPoint.t)
  : SimulationAlert.t :=
  let m := SimulationPoint.ageMonths point in
  {| SimulationAlert.id := "alert-risky-" ++ JS.string_of_Z m;
     SimulationAlert.ageMonths := inject_Z m;
     SimulationAlert.severity := warning;
     SimulationAlert.message :=
       "At age " ++ JS.string_of_Z (m / 12)%Z ++ ", " ++ catName
         ++ "'s health moves to " ++ JS.dquote ++ "risky" ++ JS.dquote ++ " status.";
     SimulationAlert.recommendation :=
       "Consider adjusting diet, increasing playtime by 10-15 minutes, and scheduling a vet checkup." |}.

Definition unhealthyAlert (catName : string) (point : SimulationPoint.t)
  : SimulationAlert.t :=
  let m := SimulationPoint.ageMonths point in
  {| SimulationAlert.id := "alert-unhealthy-" ++ JS.string_of_Z m;
     SimulationAlert.ageMonths := inject_Z m;
     SimulationAlert.severity := critical;
     SimulationAlert.message :=
       "At age " ++ JS.string_of_Z (m / 12)%Z ++ ", " ++ catName
         ++ " reaches " ++ JS.dquote ++ "unhealthy" ++ JS.dquote ++ " status.";
     SimulationAlert.recommendation :=
       "Urgent: Schedule a vet visit, significantly reduce treats, and increase daily activity." |}.

Definition weightAlert (catName : string) (point : SimulationPoint.t)
  : SimulationAlert.t :=
  let m := SimulationPoint.ageMonths point in
  {| SimulationAlert.id := "alert-weight-" ++ JS.string_of_Z m;
     SimulationAlert.ageMonths := inject_Z m;
     SimulationAlert.severity := warning;
     SimulationAlert.message := catName ++ "'s weight is trending 15%+ above ideal.";
     SimulationAlert.recommendation :=
       "Reduce treats to 1-2 per day, switch to measured portions, and add 10+ minutes of active play." |}.

Definition vetAlert (catName : string) (point : SimulationPoint.t)
  : SimulationAlert.t :=
  let m := SimulationPoint.ageMonths point in
  {| SimulationAlert.id := "alert-vet-" ++ JS.string_of_Z m;
     SimulationAlert.ageMonths := inject_Z m;
     SimulationAlert.severity := info;
     SimulationAlert.message :=
       catName ++ " is entering their senior years. Regular vet visits become more important.";
     SimulationAlert.recommendation :=
       "Consider scheduling annual or bi-annual vet checkups to catch age-related issues early." |}.

(** One iteration of [for (const point of points)]. *)
Definition alertStep (catName : string) (careRoutine : CareRoutine.t)
  (idealRange : Range) (st : AlertLoop) (point : SimulationPoint.t) : AlertLoop :=
  let status := SimulationPoint.healthStatus point in
  let prev := previousStatus st in
  let alerts := pushed st in
  let alerts :=
    if HealthStatus_eqb status risky
       && negb (HealthStatus_eqb prev risky)
       && negb (HealthStatus_eqb prev unhealthy)
    then (alerts ++ [riskyAlert catName point])%list else alerts in
  let alerts :=
    if HealthStatus_eqb status unhealthy && negb (HealthStatus_eqb prev unhealthy)
    then (alerts ++ [unhealthyAlert catName point])%list else alerts in
  let weightFires :=
    negb (hasWarnedAboutWeight st)
    && JS.Qltb (JS.mul64 (JS.binary64 (max idealRange)) (JS.binary64 1.15))
               (JS.binary64 (SimulationPoint.weightKgEstimate point)) in
  let alerts := if weightFires then (alerts ++ [weightAlert catName point])%list else alerts in
  let vetFires :=
    negb (hasWarnedAboutVet st)
    && (LIFE_STAGES.adult_end <=? SimulationPoint.ageMonths point)%Z
    && JS.Qltb (nullish (CareRoutine.vetVisitsPerYear careRoutine) 0) 1 in
  let alerts := if vetFires then (alerts ++ [vetAlert catName point])%list else alerts in
  {| previousStatus := status;
     hasWarnedAboutWeight := hasWarnedAboutWeight st || weightFires;
     hasWarnedAboutVet := hasWarnedAboutVet st || vetFires;
     pushed := alerts |}.

Definition milestoneMonths : list (Z * string) :=
  [(12%Z, "reaches 1 year old - no longer a kitten!");
   (84%Z, "turns 7 - now considered a mature adult.");
   (120%Z, "turns 10 - entering senior years.");
   (180%Z, "turns 15 - a wonderful achievement!")].

Definition milestoneAlert (catName : string) (careRoutine : CareRoutine.t)
  (milestone : Z * string) : SimulationAlert.t :=
  {| SimulationAlert.id := "milestone-" ++ JS.string_of_Z (fst milestone);
     SimulationAlert.ageMonths := inject_Z (fst milestone);
     SimulationAlert.severity := info;
     SimulationAlert.message := catName ++ " " ++ snd milestone;
     SimulationAlert.recommendation :=
       getLifeStageRecommendation (fst milestone) careRoutine |}.

(** The alerts before the final sort: those of the loop over the points,
    then the life stage milestones that have a point. *)
Definition unsortedAlerts (points : list SimulationPoint.t)
  (catProfile : CatProfile.t) (careRoutine : CareRoutine.t) (idealRange : Range)
  : list SimulationAlert.t :=
  let catName := catName_of catProfile in
  let st :=
    fold_left (alertStep catName careRoutine idealRange) points
      {| previousStatus := thriving;
         hasWarnedAboutWeight := false;
         hasWarnedAboutVet := false;
         pushed := [] |} in
  let milestones :=
    filter
      (fun milestone =>
         match find (fun p => (SimulationPoint.ageMonths p =? fst milestone)%Z) points with
         | Some _ => true
         | None => false
         end)
      milestoneMonths in
  (pushed st ++ map (milestoneAlert catName careRoutine) milestones)%list.

(** Check for and generate alerts at simulation milestones. *)
Definition generateAlerts (points : list SimulationPoint.t)
  (catProfile : CatProfile.t) (careRoutine : CareRoutine.t) (idealRange : Range)
  : list SimulationAlert.t :=
  JS.sort_by SimulationAlert.ageMonths
    (unsortedAlerts points catProfile careRoutine idealRange).

(** *** Summary and recommendations *)

Definition statusScore (s : HealthStatus) : Q :=
  match s with
  | thriving => 4
  | ok => 3
  | risky => 2
  | unhealthy => 1
  end.

Definition sumScores (points : list SimulationPoint.t) : Q :=
  fold_left (fun acc p => acc + statusScore (SimulationPoint.healthStatus p)) points 0.

(** The local [trajectory] of [generateSummary]: the last two years of
    points, their score sum divided by their number, and the label. *)
Definition summaryTrajectory (points : list SimulationPoint.t) : string :=
  let lastPoints := JS.slice_last 24 points in
  let avgStatus_gt :=
    JS.div_gt (sumScores lastPoints) (inject_Z (Z.of_nat (List.length lastPoints))) in
  if avgStatus_gt 3.5 then "excellent"
  else if avgStatus_gt 2.5 then "good"
  else if avgStatus_gt 1.5 then "concerning"
  else "needs attention".

(** [push] of a recommendation when a rule fires. *)
Definition push_if (b : bool) (items : list string) (l : list string) : list string :=
  if b then (l ++ items)%list else l.

(** Summary and recommendations from the simulation results (the filtered
    lists of critical and warning alerts, which the source computes and
    never reads, are left out). *)
Definition generateSummary (catProfile : CatProfile.t) (careRoutine : CareRoutine.t)
  (points : list SimulationPoint.t) (alerts : list SimulationAlert.t)
  (idealRange : Range) : string * list string :=
  let catName := catName_of catProfile in
  let trajectory := summaryTrajectory points in
  let summary :=
    if String.eqb trajectory "excellent" || String.eqb trajectory "good" then
      "Based on " ++ catName ++ "'s current care routine, the long-term outlook is "
        ++ trajectory ++ "! "
        ++ "With consistent care, " ++ catName
        ++ " has a great chance at a healthy, happy life."
    else
      catName ++ "'s health trajectory shows some areas for improvement. "
        ++ "With a few adjustments to diet and activity, you can help "
        ++ catName ++ " thrive." in
  let recommendations : list string := [] in
  let currentWeight :=
    nullish (CatProfile.weightKg catProfile) ((min idealRange + max idealRange) / 2) in
  let recommendations :=
    if JS.Qltb (max idealRange) currentWeight then
      (recommendations
        ++ ["Reduce daily food portions by about 10% and limit treats to 2-3 per day.";
            "Add 10-15 minutes of active play with wand toys or laser pointers."])%list
    else if JS.Qltb currentWeight (min idealRange) then
      (recommendations
        ++ ["Consider increasing food portions slightly and consult your vet about weight gain."])%list
    else recommendations in
  let playMinutes := nullish (CareRoutine.playMinutesPerDay careRoutine) 0 in
  let recommendations :=
    push_if (JS.Qltb playMinutes 15)
      ["Aim for at least 15-20 minutes of interactive play daily to keep "
         ++ catName ++ " active and engaged."]
      recommendations in
  let vetVisits := nullish (CareRoutine.vetVisitsPerYear careRoutine) 0 in
  let recommendations :=
    if JS.Qltb vetVisits 1 then
      (recommendations
        ++ ["Schedule at least one annual vet checkup to catch any health issues early."])%list
    else if (10 <=? nullish (CatProfile.ageYears catProfile) 0)%Z && JS.Qltb vetVisits 2 then
      (recommendations
        ++ ["For senior cats, consider twice-yearly vet visits for optimal health monitoring."])%list
    else recommendations in
  let recommendations :=
    push_if
      match CareRoutine.foodType careRoutine with
      | Some FoodType.dry => true
      | _ => false
      end
      ["Consider adding some wet food to " ++ catName ++ "'s diet for better hydration."]
      recommendations in
  let treats := nullish (CareRoutine.treatsPerDay careRoutine) 0 in
  let recommendations :=
    push_if (JS.Qltb 5 treats)
      ["Reduce treats to 2-3 per day, or switch to lower-calorie options."]
      recommendations in
  let recommendations :=
    push_if (List.length recommendations <? 3)%nat
      ["Continue providing fresh water and a clean litter box for " ++ catName
         ++ "'s comfort."]
      recommendations in
  let recommendations :=
    push_if (List.length recommendations <? 3)%nat
      ["Keep up the love and attention - it's the most important part of cat care!"]
      recommendations in
  (summary, firstn 5 recommendations).

(** *** Main simulation function *)

(** The body of the monthly loop of [runSimulation]: from the month, the
    value returned by [Math.random()] and the weight so far, the new weight
    and the point pushed. *)
Definition simulateMonth (catName : string) (careRoutine : CareRoutine.t)
  (hasKnownConditions : bool) (idealRange : Range) (calorieProxy : Q)
  (startAgeMonths : Z) (month : Z) (rnd : Q) (currentWeight : Q)
  : Q * SimulationPoint.t :=
  let monthlyDrift := calorieProxy * 0.02 in
  let noise := (rnd - 0.5) * 0.05 in
  let currentWeight := JS.Math_max 1.5 (currentWeight + monthlyDrift + noise) in
  let currentWeight :=
    if (month <? 12)%Z then JS.Math_min (currentWeight * 1.05) (max idealRange)
    else if (month >? LIFE_STAGES.senior_end)%Z then
      JS.Math_max (currentWeight * 0.998) (min idealRange * 0.8)
    else currentWeight in
  let status :=
    determineHealthStatus currentWeight idealRange
      (CareRoutine.vetVisitsPerYear careRoutine) month hasKnownConditions in
  let isYearMilestone := (Z.rem month 12 =? 0)%Z || (month =? startAgeMonths)%Z in
  let notes :=
    if isYearMilestone
    then generateNotes month currentWeight status idealRange catName
    else "" in
  (currentWeight,
   {| SimulationPoint.ageMonths := month;
      SimulationPoint.weightKgEstimate := inject_Z (JS.Math_round (currentWeight * 100)) / 100;
      SimulationPoint.healthStatus := status;
      SimulationPoint.notes := notes |}).

(** [for (let month = ...; month <= endAgeMonths; month++)]: [calls] counts
    the calls of [Math.random()] made so far; [fuel] bounds the number of
    iterations (see [monthlyLoop_fuel]). *)
Fixpoint monthlyLoop (step : Z -> Q -> Q -> Q * SimulationPoint.t)
  (random : nat -> Q) (endAgeMonths : Z)
  (fuel : nat) (month : Z) (calls : nat) (currentWeight : Q)
  : list SimulationPoint.t :=
  match fuel with
  | O => []
  | S fuel' =>
      if (month <=? endAgeMonths)%Z then
        let '(currentWeight, point) := step month (random calls) currentWeight in
        point :: monthlyLoop step random endAgeMonths fuel' (month + 1)%Z (S calls)
                   currentWeight
      else []
  end.

(** The number of months from [startAgeMonths] to [endAgeMonths]: the
    loop stops by its own test within that many iterations. *)
Definition monthlyLoop_fuel (startAgeMonths endAgeMonths : Z) : nat :=
  Z.to_nat (endAgeMonths - startAgeMonths + 1).

(** Run the cat health simulation. *)
Definition runSimulation (config : SimulationConfig.t) (random : nat -> Q)
  : JS.Completion SimulationResult.t :=
  let catProfile := SimulationConfig.catProfile config in
  let careRoutine := SimulationConfig.careRoutine config in
  let startAgeMonths := SimulationConfig.startAgeMonths config in
  let endAgeMonths := SimulationConfig.endAgeMonths config in
  let catName := catName_of catProfile in
  match getIdealWeightRange (CatProfile.breed catProfile) with
  | None =>
      JS.Threw "TypeError: Cannot read properties of undefined (reading 'min')"
  | Some idealRange =>
      let midIdeal := (min idealRange + max idealRange) / 2 in
      let currentWeight := nullish (CatProfile.weightKg catProfile) midIdeal in
      let calorieProxy :=
        calculateCalorieProxy careRoutine (CatProfile.indoorOutdoor catProfile)
          currentWeight midIdeal in
      let hasKnownConditions :=
        (0 <? List.length (CatProfile.knownConditions catProfile))%nat in
      let points :=
        monthlyLoop
          (simulateMonth catName careRoutine hasKnownConditions idealRange
             calorieProxy startAgeMonths)
          random endAgeMonths
          (monthlyLoop_fuel startAgeMonths endAgeMonths)
          startAgeMonths O currentWeight in
      let alerts := generateAlerts points catProfile careRoutine idealRange in
      let '(summary, recommendations) :=
        generateSummary catProfile careRoutine points alerts idealRange in
      JS.Returned
        {| SimulationResult.points := points;
           SimulationResult.alerts := alerts;
           SimulationResult.summary := summary;
           SimulationResult.recommendations := recommendations |}
  end.

(** The points of a run; none when the call threw. *)
Definition points_of (c : JS.Completion SimulationResult.t) : list SimulationPoint.t :=
  match c with
  | JS.Returned r => SimulationResult.points r
  | JS.Threw _ => []
  end.

End Simulation.

(** ** The simulation enhancement service (simulation-enhancer) *)

Module Trend.
Inductive t : Type := improving | stable | declining.
End Trend.

Module Priority.
Inductive t : Type := high | medium | low.
End Priority.

Module Category.
Inductive t : Type := screening | diet | activity | monitoring | comfort.
End Category.

Module HealthTrajectory.
Record t : Type := {
  trend : Trend.t;
  projectedStatusAtYear10 : HealthStatus;
  projectedStatusAtYear15 : HealthStatus;
  riskFactors : list string;
  positiveFactors : list string;
  averageHealthScore : Q
}.
End HealthTrajectory.

Module EnhancedMilestoneNote.
Record t : Type := {
  ageYears : Q;
  personalizedNote : string;
  breedSpecificAlerts : list string;
  ageAppropriateAdvice : list string;
  upcomingMilestones : list string;
  trajectoryInsight : string;
  priority : Priority.t
}.
End EnhancedMilestoneNote.

(** [EnhancedSimulationPoint extends SimulationPoint]: the four fields of
    a point and the two optional ones. *)
Module EnhancedSimulationPoint.
Record t : Type := {
  ageMonths : Z;
  weightKgEstimate : Q;
  healthStatus : HealthStatus;
  notes : string;
  enhancedNote : option EnhancedMilestoneNote.t;
  breedHealthRisks : option (list BreedHealthData.HealthRisk)
}.
End EnhancedSimulationPoint.

Module ProgressiveRecommendation.
Record t : Type := {
  ageYears : Z;
  category : Category.t;
  recommendation : string;
  reason : string;
  priority : Priority.t
}.
End ProgressiveRecommendation.

(** [EnhancedSimulationResult extends SimulationResult]. *)
Module EnhancedSimulationResult.
Record t : Type := {
  points : list SimulationPoint.t;
  alerts : list SimulationAlert.t;
  summary : string;
  recommendations : list string;
  enhancedPoints : list EnhancedSimulationPoint.t;
  trajectory : HealthTrajectory.t;
  breedProfile : option BreedHealthData.BreedHealthProfile;
  progressiveTimeline : list ProgressiveRecommendation.t;
  isEnhanced : bool
}.
End EnhancedSimulationResult.

Module SimulationEnhancer.
Import BreedHealthData.

(** *** Trajectory analysis *)

Definition statusScores (s : HealthStatus) : Q :=
  match s with
  | thriving => 4
  | ok => 3
  | risky => 2
  | unhealthy => 1
  end.

(** [l.reduce((sum, p) => sum + statusScores[p.healthStatus], 0) / l.length]. *)
Definition meanScore (l : list SimulationPoint.t) : Q :=
  fold_left (fun sum p => sum + statusScores (SimulationPoint.healthStatus p)) l 0
  / inject_Z (Z.of_nat (List.length l)).

Definition extrapolateStatus (avgScore : Q) (trend : Trend.t) (targetYear : Z)
  : HealthStatus :=
  let adjustedScore := avgScore in
  let adjustedScore :=
    match trend with
    | Trend.declining => adjustedScore - 0.5
    | Trend.improving => adjustedScore + 0.3
    | Trend.stable => adjustedScore
    end in
  let adjustedScore :=
    if (15 <=? targetYear)%Z then adjustedScore - 0.3 else adjustedScore in
  if JS.Qleb 3.5 adjustedScore then thriving
  else if JS.Qleb 2.5 adjustedScore then ok
  else if JS.Qleb 1.5 adjustedScore then risky
  else unhealthy.

(** [points.filter(p => p.ageMonths % 12 === 0)]. *)
Definition yearlyPointsOf (points : list SimulationPoint.t) : list SimulationPoint.t :=
  filter (fun p => (Z.rem (SimulationPoint.ageMonths p) 12 =? 0)%Z) points.

(** The two lists that [analyzeTrajectory] fills by [push], as a pair
    (riskFactors, positiveFactors). *)
Definition careFactors (catProfile : CatProfile.t) (careRoutine : CareRoutine.t)
  : list string * list string :=
  let riskFactors : list string := [] in
  let positiveFactors : list string := [] in
  let playMinutes := nullish (CareRoutine.playMinutesPerDay careRoutine) 0 in
  let vetVisits := nullish (CareRoutine.vetVisitsPerYear careRoutine) 0 in
  let treats := nullish (CareRoutine.treatsPerDay careRoutine) 0 in
  let '(riskFactors, positiveFactors) :=
    if JS.Qltb playMinutes 10 then
      ((riskFactors ++ ["Low activity level (less than 10 min/day)"])%list, positiveFactors)
    else if JS.Qleb 20 playMinutes then
      (riskFactors, (positiveFactors ++ ["Good daily activity level"])%list)
    else (riskFactors, positiveFactors) in
  let '(riskFactors, positiveFactors) :=
    if JS.Qltb vetVisits 1 then
      ((riskFactors ++ ["No regular vet visits"])%list, positiveFactors)
    else if JS.Qleb 2 vetVisits then
      (riskFactors, (positiveFactors ++ ["Regular vet checkups"])%list)
    else (riskFactors, positiveFactors) in
  let '(riskFactors, positiveFactors) :=
    if JS.Qltb 5 treats then
      ((riskFactors ++ ["High treat consumption"])%list, positiveFactors)
    else if JS.Qleb treats 2 then
      (riskFactors, (positiveFactors ++ ["Controlled treat intake"])%list)
    else (riskFactors, positiveFactors) in
  let '(riskFactors, positiveFactors) :=
    match CareRoutine.foodType careRoutine with
    | Some FoodType.dry =>
        ((riskFactors ++ ["Dry food only (lower hydration)"])%list, positiveFactors)
    | Some FoodType.wet | Some FoodType.mixed =>
        (riskFactors, (positiveFactors ++ ["Good food variety for hydration"])%list)
    | _ => (riskFactors, positiveFactors)
    end in
  let breedProfile := findBreedProfile (CatProfile.breed catProfile) in
  let '(riskFactors, positiveFactors) :=
    match CatProfile.weightKg catProfile with
    | None => (riskFactors, positiveFactors)
    | Some weightKg =>
        if JS.Qeqb weightKg 0 then (riskFactors, positiveFactors)
        else if JS.Qltb (max (idealWeight breedProfile)) weightKg then
          ((riskFactors ++ ["Current weight above ideal range"])%list, positiveFactors)
        else if JS.Qleb (min (idealWeight breedProfile)) weightKg
                && JS.Qleb weightKg (max (idealWeight breedProfile)) then
          (riskFactors, (positiveFactors ++ ["Weight in healthy range"])%list)
        else (riskFactors, positiveFactors)
    end in
  let riskFactors :=
    match CatProfile.knownConditions catProfile with
    | [] => riskFactors
    | conditions =>
        (riskFactors
          ++ [("Existing health conditions: " ++ JS.join ", " conditions)%string])%list
    end in
  let currentAge := nullish (CatProfile.ageYears catProfile) 1%Z in
  let riskFactors :=
    if (10 <=? currentAge)%Z && JS.Qltb vetVisits 2 then
      (riskFactors ++ ["Senior cat needs more frequent vet visits"])%list
    else riskFactors in
  (riskFactors, positiveFactors).

(** Analyze the health trajectory from simulation points. *)
Definition analyzeTrajectory (points : list SimulationPoint.t)
  (catProfile : CatProfile.t) (careRoutine : CareRoutine.t) : HealthTrajectory.t :=
  let yearlyPoints := yearlyPointsOf points in
  if (List.length yearlyPoints <? 2)%nat then
    {| HealthTrajectory.trend := Trend.stable;
       HealthTrajectory.projectedStatusAtYear10 := ok;
       HealthTrajectory.projectedStatusAtYear15 := ok;
       HealthTrajectory.riskFactors := [];
       HealthTrajectory.positiveFactors := [];
       HealthTrajectory.averageHealthScore := 3 |}
  else
    let avgScore := meanScore yearlyPoints in
    let midpoint := Nat.div (List.length yearlyPoints) 2 in
    let firstHalf := firstn midpoint yearlyPoints in
    let secondHalf := skipn midpoint yearlyPoints in
    let firstHalfAvg := meanScore firstHalf in
    let secondHalfAvg := meanScore secondHalf in
    let trend :=
      if JS.Qltb (firstHalfAvg + 0.3) secondHalfAvg then Trend.improving
      else if JS.Qltb secondHalfAvg (firstHalfAvg - 0.3) then Trend.declining
      else Trend.stable in
    let year10Point :=
      find (fun p => (SimulationPoint.ageMonths p =? 120)%Z) yearlyPoints in
    let year15Point :=
      find (fun p => (SimulationPoint.ageMonths p =? 180)%Z) yearlyPoints in
    let projectedStatusAtYear10 :=
      match year10Point with
      | Some p => SimulationPoint.healthStatus p
      | None => extrapolateStatus avgScore trend 10
      end in
    let projectedStatusAtYear15 :=
      match year15Point with
      | Some p => SimulationPoint.healthStatus p
      | None => extrapolateStatus avgScore trend 15
      end in
    let '(riskFactors, positiveFactors) := careFactors catProfile careRoutine in
    {| HealthTrajectory.trend := trend;
       HealthTrajectory.projectedStatusAtYear10 := projectedStatusAtYear10;
       HealthTrajectory.projectedStatusAtYear15 := projectedStatusAtYear15;
       HealthTrajectory.riskFactors := riskFactors;
       HealthTrajectory.positiveFactors := positiveFactors;
       HealthTrajectory.averageHealthScore := avgScore |}.

(** *** Breed-aware alert generation *)

Definition conditionSlug (risk : HealthRisk) : string :=
  JS.toLowerCase (JS.replace_spaces_with_dash (condition risk)).

Definition preWarningAlert (catName : string) (breedProfile : BreedHealthProfile)
  (risk : HealthRisk) (preWarningMonth : Q) : SimulationAlert.t :=
  {| SimulationAlert.id :=
       "breed-" ++ conditionSlug risk ++ "-prewarning-"
         ++ JS.string_of_number preWarningMonth;
     SimulationAlert.ageMonths := preWarningMonth;
     SimulationAlert.severity :=
       match riskLevel risk with
       | high => warning
       | _ => info
       end;
     SimulationAlert.message :=
       catName ++ " is approaching the typical onset age for " ++ condition risk
         ++ " in " ++ breed breedProfile ++ "s.";
     SimulationAlert.recommendation := "Start monitoring: " ++ monitoringAdvice risk |}.

Definition onsetAlert (breedProfile : BreedHealthProfile) (risk : HealthRisk)
  (onsetMonth : Q) : SimulationAlert.t :=
  {| SimulationAlert.id :=
       "breed-" ++ conditionSlug risk ++ "-onset-" ++ JS.string_of_number onsetMonth;
     SimulationAlert.ageMonths := onsetMonth;
     SimulationAlert.severity :=
       match riskLevel risk with
       | high => critical
       | _ => warning
       end;
     SimulationAlert.message :=
       breed breedProfile ++ "s typically begin showing " ++ condition risk
         ++ " around age " ++ JS.string_of_number (typicalOnsetYears risk) ++ ".";
     SimulationAlert.recommendation := monitoringAdvice risk |}.

(** The body of [breedProfile.healthRisks.forEach]: what one risk pushes. *)
Definition riskAlerts (catName : string) (breedProfile : BreedHealthProfile)
  (startAge : Z) (risk : HealthRisk) : list SimulationAlert.t :=
  let onsetMonth := typicalOnsetYears risk * 12 in
  if JS.Qleb (inject_Z startAge * 12) onsetMonth then
    let preWarningMonth := JS.Math_max (onsetMonth - 12) (inject_Z startAge * 12) in
    ((if negb (JS.Qeqb preWarningMonth onsetMonth)
      then [preWarningAlert catName breedProfile risk preWarningMonth]
      else [])
     ++ [onsetAlert breedProfile risk onsetMonth])%list
  else [].

(** The body of [breedProfile.screeningSchedule.forEach]. *)
Definition screeningAlerts (catName : string) (startAge : Z)
  (schedule : ScreeningSchedule) : list SimulationAlert.t :=
  let scheduleMonth := ageYears schedule * 12 in
  if JS.Qleb (inject_Z startAge * 12) scheduleMonth then
    [{| SimulationAlert.id :=
          "breed-screening-" ++ JS.string_of_number (ageYears schedule);
        SimulationAlert.ageMonths := scheduleMonth;
        SimulationAlert.severity := info;
        SimulationAlert.message :=
          "Year " ++ JS.string_of_number (ageYears schedule)
            ++ " screening recommended for " ++ catName ++ ".";
        SimulationAlert.recommendation :=
          "Schedule: " ++ JS.join ", " (screenings schedule) ++ ". "
            ++ reason schedule |}]
  else [].

(** Breed-specific alerts to inject into the simulation ([findBreedProfile]
    never returns null, so the early return is not taken). *)
Definition generateBreedSpecificAlerts (catProfile : CatProfile.t)
  (careRoutine : CareRoutine.t) (points : list SimulationPoint.t)
  : list SimulationAlert.t :=
  let breedProfile := findBreedProfile (CatProfile.breed catProfile) in
  let catName := catName_of catProfile in
  let startAge := nullish (CatProfile.ageYears catProfile) 1%Z in
  let alerts :=
    (flat_map (riskAlerts catName breedProfile startAge) (healthRisks breedProfile)
     ++ flat_map (screeningAlerts catName startAge) (screeningSchedule breedProfile))%list in
  JS.sort_by SimulationAlert.ageMonths alerts.

(** *** Progressive timeline generation *)

Definition mkRec (year : Z) (category : Category.t) (recommendation reason : string)
  (priority : Priority.t) : ProgressiveRecommendation.t :=
  {| ProgressiveRecommendation.ageYears := year;
     ProgressiveRecommendation.category := category;
     ProgressiveRecommendation.recommendation := recommendation;
     ProgressiveRecommendation.reason := reason;
     ProgressiveRecommendation.priority := priority |}.

(** [list.includes(s)] on a list of strings. *)
Definition list_includes (l : list string) (s : string) : bool :=
  existsb (String.eqb s) l.

Definition generateYearRecommendations (year : Z) (catProfile : CatProfile.t)
  (careRoutine : CareRoutine.t) (trajectory : HealthTrajectory.t)
  (breedProfile : option BreedHealthProfile) (catName : string)
  : list ProgressiveRecommendation.t :=
  let recs : list ProgressiveRecommendation.t := [] in
  let recs :=
    match breedProfile with
    | None => recs
    | Some breedProfile =>
        let recs :=
          match find (fun s => JS.Qeqb (ageYears s) (inject_Z year))
                     (screeningSchedule breedProfile) with
          | Some screening =>
              (recs
                ++ [mkRec year Category.screening
                      (JS.join ", " (screenings screening)) (reason screening)
                      (if (7 <=? year)%Z then Priority.high else Priority.medium)])%list
          | None => recs
          end in
        (recs
          ++ flat_map
               (fun risk =>
                  if JS.Qeqb (typicalOnsetYears risk) (inject_Z year) then
                    [mkRec year Category.monitoring
                       ("Begin " ++ condition risk ++ " monitoring")%string
                       (monitoringAdvice risk)
                       match riskLevel risk with
                       | high => Priority.high
                       | _ => Priority.medium
                       end]
                  else [])
               (healthRisks breedProfile))%list
    end in
  let recs :=
    if (year =? 1)%Z then
      (recs
        ++ [mkRec year Category.screening
              "Complete first-year vaccinations and establish baseline bloodwork"
              "Sets foundation for lifelong health monitoring" Priority.high])%list
    else recs in
  let recs :=
    if (year =? 7)%Z then
      let recs :=
        (recs
          ++ [mkRec year Category.screening "Begin senior wellness screening"
                (catName ++ " enters mature adult years - early detection is key")%string
                Priority.high])%list in
      if JS.Qltb (nullish (CareRoutine.vetVisitsPerYear careRoutine) 0) 2 then
        (recs
          ++ [mkRec year Category.monitoring "Increase to twice-yearly vet visits"
                "Senior cats benefit from more frequent health monitoring"
                Priority.medium])%list
      else recs
    else recs in
  let recs :=
    if (year =? 10)%Z then
      (recs
        ++ [mkRec year Category.diet "Evaluate transition to senior cat food formula"
              "Senior formulas support kidney function and joint health"
              Priority.medium])%list
    else recs in
  let recs :=
    if (year =? 12)%Z then
      (recs
        ++ [mkRec year Category.comfort
              "Consider orthopedic bedding and easier litter box access"
              "Supports mobility and comfort in senior years" Priority.medium])%list
    else recs in
  let recs :=
    match HealthTrajectory.trend trajectory with
    | Trend.declining =>
        if (nullish (CatProfile.ageYears catProfile) 1 + 2 <=? year)%Z then
          let recs :=
            if list_includes (HealthTrajectory.riskFactors trajectory)
                 "Low activity level (less than 10 min/day)"
            then
              (recs
                ++ [mkRec year Category.activity
                      "Gradually increase daily play to 15-20 minutes"
                      "Improving activity can reverse declining health trajectory"
                      Priority.high])%list
            else recs in
          if list_includes (HealthTrajectory.riskFactors trajectory)
               "No regular vet visits"
          then
            (recs
              ++ [mkRec year Category.monitoring
                    "Schedule a comprehensive health check"
                    "Regular monitoring essential for declining health trajectory"
                    Priority.high])%list
          else recs
        else recs
    | _ => recs
    end in
  recs.

(** [for (let year = ...; year <= 20; year++)] of
    [generateProgressiveTimeline]. *)
Fixpoint timelineLoop (body : Z -> list ProgressiveRecommendation.t)
  (fuel : nat) (year : Z) : list ProgressiveRecommendation.t :=
  match fuel with
  | O => []
  | S fuel' =>
      if (year <=? 20)%Z then (body year ++ timelineLoop body fuel' (year + 1)%Z)%list
      else []
  end.

(** A progressive care timeline with year-by-year recommendations. *)
Definition generateProgressiveTimeline (catProfile : CatProfile.t)
  (careRoutine : CareRoutine.t) (trajectory : HealthTrajectory.t)
  (breedProfile : option BreedHealthProfile) : list ProgressiveRecommendation.t :=
  let startAge := nullish (CatProfile.ageYears catProfile) 1%Z in
  let catName := catName_of catProfile in
  let firstYear := Z.max 1 startAge in
  timelineLoop
    (fun year =>
       generateYearRecommendations year catProfile careRoutine trajectory
         breedProfile catName)
    (Z.to_nat (20 - firstYear + 1)) firstYear.

(** *** Main enhancement function *)

Definition generateEnhancedSummary (originalSummary : string)
  (trajectory : HealthTrajectory.t) (breedProfile : option BreedHealthProfile)
  (catProfile : CatProfile.t) : string :=
  let catName := catName_of catProfile in
  let summary := originalSummary in
  let summary :=
    match HealthTrajectory.trend trajectory with
    | Trend.declining =>
        summary
          ++ " The health trajectory shows some decline over time - small changes now can make a big difference."
    | Trend.improving =>
        summary ++ " Great news - the health trajectory is improving with current care!"
    | Trend.stable => summary
    end in
  match breedProfile with
  | Some breedProfile =>
      if negb (String.eqb (breed breedProfile) "Domestic Shorthair") then
        let avgLifespan :=
          (min (lifeExpectancy breedProfile) + max (lifeExpectancy breedProfile)) / 2 in
        summary ++ " As a " ++ breed breedProfile ++ ", " ++ catName
          ++ " has an average life expectancy of "
          ++ JS.string_of_Z (JS.Math_round avgLifespan) ++ " years with proper care."
      else summary
  | None => summary
  end.

(** [recs.some(r => r.includes(s))]. *)
Definition some_includes (recs : list string) (s : string) : bool :=
  existsb (fun r => JS.includes r s) recs.

(** The body of [trajectory.riskFactors.forEach]. *)
Definition riskFactorStep (catName : string) (recs : list string) (risk : string)
  : list string :=
  let recs :=
    if JS.includes risk "Low activity" && negb (some_includes recs "play") then
      (recs
        ++ [("Increase " ++ catName
               ++ "'s daily play sessions to at least 15 minutes.")%string])%list
    else recs in
  let recs :=
    if JS.includes risk "vet visits" && negb (some_includes recs "vet") then
      (recs
        ++ ["Schedule regular vet checkups - at least annually, twice yearly for seniors."])%list
    else recs in
  let recs :=
    if JS.includes risk "treat" && negb (some_includes recs "treat") then
      (recs ++ ["Reduce daily treats to 2-3 to support healthy weight."])%list
    else recs in
  recs.

(** The body of [upcomingRisks.forEach]. *)
Definition upcomingRiskStep (breedProfile : BreedHealthProfile) (recs : list string)
  (risk : HealthRisk) : list string :=
  match riskLevel risk with
  | high =>
      if negb (some_includes recs (condition risk)) then
        (recs
          ++ [(breed breedProfile ++ "s are prone to " ++ condition risk ++ ". "
                 ++ monitoringAdvice risk)%string])%list
      else recs
  | _ => recs
  end.

Definition generateEnhancedRecommendations (originalRecs : list string)
  (trajectory : HealthTrajectory.t) (breedProfile : option BreedHealthProfile)
  (catProfile : CatProfile.t) (careRoutine : CareRoutine.t) : list string :=
  let recs := originalRecs in
  let catName := catName_of catProfile in
  let recs :=
    fold_left (riskFactorStep catName) (HealthTrajectory.riskFactors trajectory) recs in
  let recs :=
    match breedProfile with
    | None => recs
    | Some breedProfile =>
        let currentAge := nullish (CatProfile.ageYears catProfile) 1%Z in
        let upcomingRisks :=
          filter
            (fun r =>
               JS.Qltb (inject_Z currentAge) (typicalOnsetYears r)
               && JS.Qleb (typicalOnsetYears r) (inject_Z currentAge + 3))
            (healthRisks breedProfile) in
        let recs := fold_left (upcomingRiskStep breedProfile) upcomingRisks recs in
        match getAgeSpecificAdvice breedProfile (inject_Z currentAge) with
        | Some ageAdvice =>
            match
              find (fun a => negb (some_includes recs (JS.substring0 20 a)))
                   (advice ageAdvice)
            with
            | Some EmptyString | None => recs
            | Some newAdvice => (recs ++ [newAdvice])%list
            end
        | None => recs
        end
    end in
  firstn 6 recs.

(** The key on which merged alerts are compared: same age and same first
    30 characters of the message. *)
Definition sameAlert (a b : SimulationAlert.t) : bool :=
  JS.Qeqb (SimulationAlert.ageMonths a) (SimulationAlert.ageMonths b)
  && String.eqb (JS.substring0 30 (SimulationAlert.message a))
                (JS.substring0 30 (SimulationAlert.message b)).

(** [self.filter((alert, index, self) => index === self.findIndex(...))]. *)
Definition dedupAlerts (self : list SimulationAlert.t) : list SimulationAlert.t :=
  JS.filter_indexed
    (fun index alert =>
       match JS.find_index (fun a => sameAlert a alert) self with
       | Some i => Nat.eqb index i
       | None => false
       end)
    self.

(** A point with the breed health risks attached:
    [{ ...point, breedHealthRisks }]. *)
Definition enhancePoint (breedProfile : BreedHealthProfile) (point : SimulationPoint.t)
  : EnhancedSimulationPoint.t :=
  let ageYears := (SimulationPoint.ageMonths point / 12)%Z in
  let breedHealthRisks := getHealthRisksForAge breedProfile (inject_Z ageYears) in
  {| EnhancedSimulationPoint.ageMonths := SimulationPoint.ageMonths point;
     EnhancedSimulationPoint.weightKgEstimate := SimulationPoint.weightKgEstimate point;
     EnhancedSimulationPoint.healthStatus := SimulationPoint.healthStatus point;
     EnhancedSimulationPoint.notes := SimulationPoint.notes point;
     EnhancedSimulationPoint.enhancedNote := None;
     EnhancedSimulationPoint.breedHealthRisks := Some breedHealthRisks |}.

(** Enhance simulation results with breed-specific data and trajectory
    analysis: the local enhancement, without API calls. *)
Definition enhanceSimulationLocally (result : SimulationResult.t)
  (catProfile : CatProfile.t) (careRoutine : CareRoutine.t)
  : EnhancedSimulationResult.t :=
  let breedProfile := findBreedProfile (CatProfile.breed catProfile) in
  let trajectory :=
    analyzeTrajectory (SimulationResult.points result) catProfile careRoutine in
  let breedAlerts :=
    generateBreedSpecificAlerts catProfile careRoutine (SimulationResult.points result) in
  let mergedAlerts :=
    dedupAlerts
      (JS.sort_by SimulationAlert.ageMonths
         (SimulationResult.alerts result ++ breedAlerts)%list) in
  let enhancedPoints := map (enhancePoint breedProfile) (SimulationResult.points result) in
  let progressiveTimeline :=
    generateProgressiveTimeline catProfile careRoutine trajectory (Some breedProfile) in
  let enhancedSummary :=
    generateEnhancedSummary (SimulationResult.summary result) trajectory
      (Some breedProfile) catProfile in
  let enhancedRecommendations :=
    generateEnhancedRecommendations (SimulationResult.recommendations result)
      trajectory (Some breedProfile) catProfile careRoutine in
  {| EnhancedSimulationResult.points := SimulationResult.points result;
     EnhancedSimulationResult.alerts := mergedAlerts;
     EnhancedSimulationResult.summary := enhancedSummary;
     EnhancedSimulationResult.recommendations := enhancedRecommendations;
     EnhancedSimulationResult.enhancedPoints := enhancedPoints;
     EnhancedSimulationResult.trajectory := trajectory;
     EnhancedSimulationResult.breedProfile := Some breedProfile;
     EnhancedSimulationResult.progressiveTimeline := progressiveTimeline;
     EnhancedSimulationResult.isEnhanced := true |}.

(** *** Enhancement with externally generated notes *)

(** [data.notes] of the decoded payload: absent or otherwise falsy, an
    array of notes, or a truthy value that is not an array (on which
    [.find] is not a function). *)
Inductive NotesField : Type :=
| NotesFalsy
| NotesArray (notes : list EnhancedMilestoneNote.t)
| NotesNotArray.

(** The value [response.json()] resolves to: [null] (or another value
    whose property read throws), or an object with the truthiness of its
    [success] field and its [notes] field. *)
Inductive Payload : Type :=
| PayloadNull
| PayloadObject (success : bool) (notes : NotesField).

(** The ways [response.json()] can end. *)
Inductive JsonOutcome : Type :=
| JsonRejected
| JsonResolved (data : Payload).

(** The ways the call to [/api/catlife/generate-milestone-notes] can end:
    [fetch] rejects (network or transport failure), or it resolves to a
    response with its [ok] flag and the outcome of decoding its body. *)
Inductive FetchOutcome : Type :=
| FetchRejected
| FetchResolved (responseOk : bool) (body : JsonOutcome).

(** [{ ...point, enhancedNote: gptNote, notes: gptNote.personalizedNote }]
    when a note of the point's year exists, else the point itself. *)
Definition mergeNote (notes : list EnhancedMilestoneNote.t)
  (point : EnhancedSimulationPoint.t) : EnhancedSimulationPoint.t :=
  let ageYears := (EnhancedSimulationPoint.ageMonths point / 12)%Z in
  match
    find (fun n => JS.Qeqb (EnhancedMilestoneNote.ageYears n) (inject_Z ageYears)) notes
  with
  | Some gptNote =>
      {| EnhancedSimulationPoint.ageMonths := EnhancedSimulationPoint.ageMonths point;
         EnhancedSimulationPoint.weightKgEstimate :=
           EnhancedSimulationPoint.weightKgEstimate point;
         EnhancedSimulationPoint.healthStatus :=
           EnhancedSimulationPoint.healthStatus point;
         EnhancedSimulationPoint.notes := EnhancedMilestoneNote.personalizedNote gptNote;
         EnhancedSimulationPoint.enhancedNote := Some gptNote;
         EnhancedSimulationPoint.breedHealthRisks :=
           EnhancedSimulationPoint.breedHealthRisks point |}
  | None => point
  end.

Definition withEnhancedPoints (r : EnhancedSimulationResult.t)
  (enhancedPoints : list EnhancedSimulationPoint.t) : EnhancedSimulationResult.t :=
  {| EnhancedSimulationResult.points := EnhancedSimulationResult.points r;
     EnhancedSimulationResult.alerts := EnhancedSimulationResult.alerts r;
     EnhancedSimulationResult.summary := EnhancedSimulationResult.summary r;
     EnhancedSimulationResult.recommendations :=
       EnhancedSimulationResult.recommendations r;
     EnhancedSimulationResult.enhancedPoints := enhancedPoints;
     EnhancedSimulationResult.trajectory := EnhancedSimulationResult.trajectory r;
     EnhancedSimulationResult.breedProfile := EnhancedSimulationResult.breedProfile r;
     EnhancedSimulationResult.progressiveTimeline :=
       EnhancedSimulationResult.progressiveTimeline r;
     EnhancedSimulationResult.isEnhanced := EnhancedSimulationResult.isEnhanced r |}.

(** Sequencing inside the [try] block: an abrupt completion skips the
    rest of the block. *)
Definition bind {A B : Type} (c : JS.Completion A) (k : A -> JS.Completion B)
  : JS.Completion B :=
  match c with
  | JS.Returned a => k a
  | JS.Threw e => JS.Threw e
  end.

Notation "x <- c ;; k" := (bind c (fun x => k))
  (at level 61, c at next level, right associativity).

(** [await fetch(...)]: the response ([ok] flag and body) or a rejection. *)
Definition awaitFetch (outcome : FetchOutcome) : JS.Completion (bool * JsonOutcome) :=
  match outcome with
  | FetchRejected => JS.Threw "TypeError: Failed to fetch"
  | FetchResolved responseOk body => JS.Returned (responseOk, body)
  end.

(** [await response.json()]. *)
Definition awaitJson (body : JsonOutcome) : JS.Completion Payload :=
  match body with
  | JsonRejected => JS.Threw "SyntaxError: Unexpected token in JSON"
  | JsonResolved data => JS.Returned data
  end.

(** [data.success] and [data.notes]: reading a property of [null] throws. *)
Definition readFields (data : Payload) : JS.Completion (bool * NotesField) :=
  match data with
  | PayloadNull => JS.Threw "TypeError: Cannot read properties of null"
  | PayloadObject success notes => JS.Returned (success, notes)
  end.

(** [!data.notes]. *)
Definition notesFalsy (notes : NotesField) : bool :=
  match notes with
  | NotesFalsy => true
  | _ => false
  end.

(** [data.notes.find], which exists on arrays only. *)
Definition notesArray (notes : NotesField)
  : JS.Completion (list EnhancedMilestoneNote.t) :=
  match notes with
  | NotesArray l => JS.Returned l
  | _ => JS.Threw "TypeError: data.notes.find is not a function"
  end.

(** The [try] block of [enhanceSimulationWithGPT]; [outcome] is how the
    call to the note service ended. *)
Definition tryEnhanceWithNotes (localEnhanced : EnhancedSimulationResult.t)
  (outcome : FetchOutcome) : JS.Completion EnhancedSimulationResult.t :=
  response <- awaitFetch outcome ;;
  if negb (fst response) then JS.Returned localEnhanced
  else
    data <- awaitJson (snd response) ;;
    fields <- readFields data ;;
    if negb (fst fields) || notesFalsy (snd fields) then JS.Returned localEnhanced
    else
      notes <- notesArray (snd fields) ;;
      JS.Returned
        (withEnhancedPoints localEnhanced
           (map (mergeNote notes)
                (EnhancedSimulationResult.enhancedPoints localEnhanced))).

(** Enhance simulation with GPT-generated personalized milestone notes:
    the local enhancement first, then the [try] block, whose [catch] falls
    back to the local enhancement. *)
Definition enhanceSimulationWithGPT (result : SimulationResult.t)
  (catProfile : CatProfile.t) (careRoutine : CareRoutine.t) (outcome : FetchOutcome)
  : EnhancedSimulationResult.t :=
  let localEnhanced := enhanceSimulationLocally result catProfile careRoutine in
  match tryEnhanceWithNotes localEnhanced outcome with
  | JS.Returned enhanced => enhanced
  | JS.Threw _ => localEnhanced
  end.

End SimulationEnhancer.

(** ** The entry points at the end of the simulation engine *)

Module SimulationEntryPoints.

(** [((catProfile.ageYears ?? 1) * 12) + (catProfile.ageMonths ?? 0)]. *)
Definition startAge (catProfile : CatProfile.t) : Z :=
  (nullish (CatProfile.ageYears catProfile) 1 * 12
   + nullish (CatProfile.ageMonths catProfile) 0)%Z.

Definition configOf (catProfile : CatProfile.t) (careRoutine : CareRoutine.t)
  : SimulationConfig.t :=
  {| SimulationConfig.catProfile := catProfile;
     SimulationConfig.careRoutine := careRoutine;
     SimulationConfig.startAgeMonths := startAge catProfile;
     SimulationConfig.endAgeMonths := 240 |}.

(** [c.then(f)] for a call that returns or throws. *)
Definition mapCompletion {A B : Type} (f : A -> B) (c : JS.Completion A)
  : JS.Completion B :=
  match c with
  | JS.Returned a => JS.Returned (f a)
  | JS.Threw e => JS.Threw e
  end.

(** Quick simulation preview: only the yearly milestones of the run. *)
Definition runQuickSimulation (catProfile : CatProfile.t) (careRoutine : CareRoutine.t)
  (random : nat -> Q) : JS.Completion (list SimulationPoint.t) :=
  mapCompletion
    (fun result =>
       filter (fun p => (Z.rem (SimulationPoint.ageMonths p) 12 =? 0)%Z)
              (SimulationResult.points result))
    (Simulation.runSimulation (configOf catProfile careRoutine) random).

(** Enhanced simulation with breed-specific data and trajectory analysis
    (the promise rejects when the base simulation throws). *)
Definition runEnhancedSimulation (catProfile : CatProfile.t)
  (careRoutine : CareRoutine.t) (random : nat -> Q)
  : JS.Completion EnhancedSimulationResult.t :=
  mapCompletion
    (fun baseResult =>
       SimulationEnhancer.enhanceSimulationLocally baseResult catProfile careRoutine)
    (Simulation.runSimulation (configOf catProfile careRoutine) random).

(** Fully enhanced simulation with the personalized notes of the note
    service; [outcome] is how the call to the service ends. *)
Definition runFullyEnhancedSimulation (catProfile : CatProfile.t)
  (careRoutine : CareRoutine.t) (random : nat -> Q)
  (outcome : SimulationEnhancer.FetchOutcome)
  : JS.Completion EnhancedSimulationResult.t :=
  mapCompletion
    (fun baseResult =>
       SimulationEnhancer.enhanceSimulationWithGPT baseResult catProfile careRoutine
         outcome)
    (Simulation.runSimulation (configOf catProfile careRoutine) random).

End SimulationEntryPoints.

(** ** lib/catlife/notifications.ts: the phone number helpers *)

Module Notifications.

(** [\d]. *)
Definition is_digit (c : ascii) : bool :=
  let n := nat_of_ascii c in (48 <=? n)%nat && (n <=? 57)%nat.

(** [s.replace(/CLASS/g, "")] removes the characters of the class; the
    function is given the characters that stay. *)
Fixpoint keep (p : ascii -> bool) (s : string) : string :=
  match s with
  | EmptyString => EmptyString
  | String c s' => if p c then String c (keep p s') else keep p s'
  end.

Fixpoint all_chars (p : ascii -> bool) (s : string) : bool :=
  match s with
  | EmptyString => true
  | String c s' => p c && all_chars p s'
  end.

(** Validate phone number format (E.164): the regular expression
    [^\+[1-9]\d{9,14}$] on the number without its white space: a plus
    sign, a digit from 1 to 9, then 9 to 14 digits. *)
Definition isValidPhoneNumber (phone : string) : bool :=
  match keep (fun c => negb (JS.is_space c)) phone with
  | String "+" (String d rest) =>
      is_digit d && negb (Ascii.eqb d "0")
      && all_chars is_digit rest
      && (9 <=? String.length rest)%nat && (String.length rest <=? 14)%nat
  | _ => false
  end.

(** Normalize phone number to E.164 format: drop everything but digits
    and plus signs; without a leading plus, assume US (+1), dropping a
    leading 1 of an 11-character number. *)
Definition normalizePhoneNumber (phone : string) : string :=
  let normalized := keep (fun c => is_digit c || Ascii.eqb c "+") phone in
  if JS.startsWith normalized "+" then normalized
  else
    let normalized :=
      if JS.startsWith normalized "1" && (String.length normalized =? 11)%nat
      then String.substring 1 (String.length normalized - 1) normalized
      else normalized in
    "+1" ++ normalized.

End Notifications.

(** * Specification vocabulary *)

(** How much worse than "thriving" a status is, on the ordered scale
    thriving > ok > risky > unhealthy. *)
Definition severityRank (s : HealthStatus) : nat :=
  match s with
  | thriving => 0
  | ok => 1
  | risky => 2
  | unhealthy => 3
  end.

(** Half a unit in the last place of the doubles from 1 to 2, half the
    smallest positive double, and a bound of the latter that is easier to
    write. *)
Definition unit_roundoff : Q := 1 # 9007199254740992.
Definition half_smallest : Q := 2 ^ (-1075).
Definition underflow_slack : Q := 1 # 1000000000000000000000000000000.

(** The midpoint of a range and the deviation of a weight from it,
    relative to the midpoint, as the code computes them in binary64. *)
Definition midpoint (idealRange : BreedHealthData.Range) : Q :=
  JS.div64
    (JS.add64 (JS.binary64 (BreedHealthData.min idealRange))
       (JS.binary64 (BreedHealthData.max idealRange))) 2.


(** The same deviation in exact arithmetic, and the distance from a
    bucket boundary beyond which rounding cannot change the bucket. *)
Definition exactDeviation (weight : Q) (idealRange : BreedHealthData.Range) : Q :=
  let midIdeal :=
    (BreedHealthData.min idealRange + BreedHealthData.max idealRange) / 2 in
  Qabs (weight - midIdeal) / midIdeal.

Definition margin : Q := 1 # 1000000000.



(** The ways the call to the note service fails: the three of the error
    taxonomy (transport failure, non-OK response, payload without
    [success] or [notes]) and the remaining exceptions of the [try] block. *)
Inductive CallFailed : SimulationEnhancer.FetchOutcome -> Prop :=
| failed_transport :
    CallFailed SimulationEnhancer.FetchRejected
| failed_not_ok body :
    CallFailed (SimulationEnhancer.FetchResolved false body)
| failed_no_success notes :
    CallFailed
      (SimulationEnhancer.FetchResolved true
         (SimulationEnhancer.JsonResolved
            (SimulationEnhancer.PayloadObject false notes)))
| failed_no_notes success :
    CallFailed
      (SimulationEnhancer.FetchResolved true
         (SimulationEnhancer.JsonResolved
            (SimulationEnhancer.PayloadObject success SimulationEnhancer.NotesFalsy)))
| failed_body_not_json :
    CallFailed
      (SimulationEnhancer.FetchResolved true SimulationEnhancer.JsonRejected)
| failed_null_payload :
    CallFailed
      (SimulationEnhancer.FetchResolved true
         (SimulationEnhancer.JsonResolved SimulationEnhancer.PayloadNull))
| failed_notes_not_array :
    CallFailed
      (SimulationEnhancer.FetchResolved true
         (SimulationEnhancer.JsonResolved
            (SimulationEnhancer.PayloadObject true SimulationEnhancer.NotesNotArray))).

(** The simulated values of a point and of an enhanced point. *)
Definition coreValues (p : SimulationPoint.t) : Z * Q * HealthStatus :=
  (SimulationPoint.ageMonths p,
   SimulationPoint.weightKgEstimate p,
   SimulationPoint.healthStatus p).

Definition enhancedCoreValues (p : EnhancedSimulationPoint.t) : Z * Q * HealthStatus :=
  (EnhancedSimulationPoint.ageMonths p,
   EnhancedSimulationPoint.weightKgEstimate p,
   EnhancedSimulationPoint.healthStatus p).

(** A breed name that matches no entry of the database. *)
Definition unmatched (name : string) : Prop :=
  forall profile,
    In profile BreedHealthData.BREED_HEALTH_DATABASE ->
    BreedHealthData.matches (JS.trim (JS.toLowerCase name)) profile = false.

(** The average status score over the trailing 24 points, as
    [generateSummary] computes it. *)
Definition avgStatus (points : list SimulationPoint.t) : Q :=
  let lastPoints := JS.slice_last 24 points in
  Simulation.sumScores lastPoints / inject_Z (Z.of_nat (List.length lastPoints)).

(** The status-transition alerts, recognised by their ids
    ([alert-risky-<month>], [alert-unhealthy-<month>]). *)
Definition isRiskyAlert (a : SimulationAlert.t) : bool :=
  JS.startsWith (SimulationAlert.id a) "alert-risky-".

Definition isUnhealthyAlert (a : SimulationAlert.t) : bool :=
  JS.startsWith (SimulationAlert.id a) "alert-unhealthy-".

(** The number of entries into "risky" along a sequence of statuses: the
    positions whose status is risky while the status before (the one in
    [previous] for the first position) is thriving or ok. *)
Fixpoint riskyEntries (previous : HealthStatus) (statuses : list HealthStatus) : nat :=
  match statuses with
  | [] => 0
  | s :: rest =>
      (match s, previous with
       | risky, thriving | risky, ok => 1
       | _, _ => 0
       end + riskyEntries s rest)%nat
  end.

(** The number of entries into "unhealthy": the positions whose status is
    unhealthy while the status before is a better one. *)
Fixpoint unhealthyEntries (previous : HealthStatus) (statuses : list HealthStatus) : nat :=
  match statuses with
  | [] => 0
  | s :: rest =>
      (match s, previous with
       | unhealthy, unhealthy => 0
       | unhealthy, _ => 1
       | _, _ => 0
       end + unhealthyEntries s rest)%nat
  end.

(** The points at which the status enters "risky" from thriving or ok,
    and those at which it enters "unhealthy" from a better status, in
    order; [previous] is the status before the first point. *)
Fixpoint riskyEntryPoints (previous : HealthStatus) (points : list SimulationPoint.t)
  : list SimulationPoint.t :=
  match points with
  | [] => []
  | p :: rest =>
      (match SimulationPoint.healthStatus p, previous with
       | risky, thriving | risky, ok => [p]
       | _, _ => []
       end ++ riskyEntryPoints (SimulationPoint.healthStatus p) rest)%list
  end.

Fixpoint unhealthyEntryPoints (previous : HealthStatus)
  (points : list SimulationPoint.t) : list SimulationPoint.t :=
  match points with
  | [] => []
  | p :: rest =>
      (match SimulationPoint.healthStatus p, previous with
       | unhealthy, unhealthy => []
       | unhealthy, _ => [p]
       | _, _ => []
       end ++ unhealthyEntryPoints (SimulationPoint.healthStatus p) rest)%list
  end.

(** The month and the severity of an alert, and those an alert raised at
    a point with a given severity has. *)
Definition monthAndSeverity (a : SimulationAlert.t) : Q * AlertSeverity :=
  (SimulationAlert.ageMonths a, SimulationAlert.severity a).

Definition raisedAt (severity : AlertSeverity) (p : SimulationPoint.t)
  : Q * AlertSeverity :=
  (inject_Z (SimulationPoint.ageMonths p), severity).

(** ** Example inputs *)

Definition exampleRange : BreedHealthData.Range :=
  {| BreedHealthData.min := 3.5; BreedHealthData.max := 5.5 |}.

Definition exampleProfile : CatProfile.t :=
  {| CatProfile.name := Some "Tom";
     CatProfile.ageYears := Some 1%Z;
     CatProfile.ageMonths := Some 0%Z;
     CatProfile.breed := Some "Maine Coon";
     CatProfile.indoorOutdoor := Some IndoorOutdoor.indoor;
     CatProfile.weightKg := Some 4.5;
     CatProfile.knownConditions := [] |}.

Definition exampleRoutine : CareRoutine.t :=
  {| CareRoutine.foodType := Some FoodType.dry;
     CareRoutine.foodAmountOzPerDay := None;
     CareRoutine.treatsPerDay := Some 2;
     CareRoutine.playMinutesPerDay := Some 20;
     CareRoutine.vetVisitsPerYear := Some 2 |}.

(** Points of consecutive months from [month] on with the given statuses
    (weight 4.5 kg, no notes). *)
Fixpoint pointsWithStatuses (month : Z) (statuses : list HealthStatus)
  : list SimulationPoint.t :=
  match statuses with
  | [] => []
  | s :: rest =>
      {| SimulationPoint.ageMonths := month;
         SimulationPoint.weightKgEstimate := 4.5;
         SimulationPoint.healthStatus := s;
         SimulationPoint.notes := "" |}
      :: pointsWithStatuses (month + 1) rest
  end.

(** Two years of points: a thriving year, then a year of ok. *)
Definition thrivingThenOk : list SimulationPoint.t :=
  pointsWithStatuses 24 (repeat thriving 12 ++ repeat ok 12)%list.

(** A cat that becomes risky, recovers, and becomes risky again. *)
Definition riskyTwice : list SimulationPoint.t :=
  pointsWithStatuses 24 [risky; ok; risky].

(** A cat that becomes unhealthy, recovers, and becomes unhealthy again. *)
Definition unhealthyTwice : list SimulationPoint.t :=
  pointsWithStatuses 24 [unhealthy; risky; unhealthy].

(** A Maine Coon aged exactly four years, the typical onset age of
    hypertrophic cardiomyopathy in the breed, and that risk. *)
Definition maineCoonAgedFour : CatProfile.t :=
  {| CatProfile.name := Some "Tom";
     CatProfile.ageYears := Some 4%Z;
     CatProfile.ageMonths := Some 0%Z;
     CatProfile.breed := Some "Maine Coon";
     CatProfile.indoorOutdoor := Some IndoorOutdoor.indoor;
     CatProfile.weightKg := Some 7;
     CatProfile.knownConditions := [] |}.

(** A Maine Coon aged three years and six months: its simulation starts
    at month 42. *)
Definition maineCoonAgedThreeAndHalf : CatProfile.t :=
  {| CatProfile.name := Some "Tom";
     CatProfile.ageYears := Some 3%Z;
     CatProfile.ageMonths := Some 6%Z;
     CatProfile.breed := Some "Maine Coon";
     CatProfile.indoorOutdoor := Some IndoorOutdoor.indoor;
     CatProfile.weightKg := Some 7;
     CatProfile.knownConditions := [] |}.

Definition maineCoonHCM : BreedHealthData.HealthRisk :=
  {| BreedHealthData.condition := "Hypertrophic Cardiomyopathy (HCM)";
     BreedHealthData.riskLevel := BreedHealthData.high;
     BreedHealthData.typicalOnsetYears := 4;
     BreedHealthData.monitoringAdvice :=
       "Annual echocardiograms starting at age 3-4. Watch for lethargy, rapid breathing.";
     BreedHealthData.symptoms :=
       Some ["Lethargy"; "Rapid breathing"; "Open-mouth breathing"; "Decreased appetite"] |}.

(** The breed alerts of a risk, recognised by their ids
    ([breed-<condition>-prewarning-<month>], [breed-<condition>-onset-<month>]). *)
Definition isPreWarningFor (risk : BreedHealthData.HealthRisk) (a : SimulationAlert.t)
  : bool :=
  JS.startsWith (SimulationAlert.id a)
    ("breed-" ++ SimulationEnhancer.conditionSlug risk ++ "-prewarning-").

Definition isOnsetFor (risk : BreedHealthData.HealthRisk) (a : SimulationAlert.t)
  : bool :=
  JS.startsWith (SimulationAlert.id a)
    ("breed-" ++ SimulationEnhancer.conditionSlug risk ++ "-onset-").

(** "Two entries for the risk": a pre-warning alert and an onset alert of
    the risk among the breed-specific alerts. *)
Definition hasAlertPair (catProfile : CatProfile.t) (careRoutine : CareRoutine.t)
  (points : list SimulationPoint.t) (risk : BreedHealthData.HealthRisk) : Prop :=
  exists preWarning onset,
    In preWarning
       (SimulationEnhancer.generateBreedSpecificAlerts catProfile careRoutine points)
    /\ In onset
         (SimulationEnhancer.generateBreedSpecificAlerts catProfile careRoutine points)
    /\ isPreWarningFor risk preWarning = true
    /\ isOnsetFor risk onset = true.

(** A run whose cat has the free-text breed "constructor". *)
Definition constructorCat : CatProfile.t :=
  {| CatProfile.name := Some "Tom";
     CatProfile.ageYears := Some 1%Z;
     CatProfile.ageMonths := Some 0%Z;
     CatProfile.breed := Some "constructor";
     CatProfile.indoorOutdoor := Some IndoorOutdoor.indoor;
     CatProfile.weightKg := Some 4.5;
     CatProfile.knownConditions := [] |}.

Definition constructorConfig : SimulationConfig.t :=
  {| SimulationConfig.catProfile := constructorCat;
     SimulationConfig.careRoutine := exampleRoutine;
     SimulationConfig.startAgeMonths := 12;
     SimulationConfig.endAgeMonths := 240 |}.

(** The months [start], [start + 1], ... ([n] of them). *)
Definition monthsFrom (start : Z) (n : nat) : list Z :=
  map (fun i => (start + Z.of_nat i)%Z) (seq 0 n).

(** Every ideal weight range of the database and of the fallback table
    leaves room for the floor: its maximum is at least 1.5 kg, and so is
    80% of its minimum. *)
Definition roomForFloor (r : BreedHealthData.Range) : bool :=
  JS.Qleb 1.5 (BreedHealthData.max r) && JS.Qleb 1.5 (BreedHealthData.min r * 0.8).

(** Four months of the life of the example cat, with [Math.random()]
    returning 0.5 each time. *)
Definition fourMonthsConfig : SimulationConfig.t :=
  {| SimulationConfig.catProfile := exampleProfile;
     SimulationConfig.careRoutine := exampleRoutine;
     SimulationConfig.startAgeMonths := 12;
     SimulationConfig.endAgeMonths := 15 |}.

(** A Bengal (ideal weight 4 to 7 kg) weighing 8.05 kg at two years: in
    binary64 the threshold 7 * 1.15 is 8.049999999999999. *)
Definition bengalAt805 : list SimulationPoint.t :=
  [{| SimulationPoint.ageMonths := 24;
      SimulationPoint.weightKgEstimate := 8.05;
      SimulationPoint.healthStatus := thriving;
      SimulationPoint.notes := "" |}].

(** The tenth and eleventh month of a kitten, and month 181 and 182 of an
    old cat, with the profile and routine of the example. *)
Definition kittenConfig : SimulationConfig.t :=
  {| SimulationConfig.catProfile := exampleProfile;
     SimulationConfig.careRoutine := exampleRoutine;
     SimulationConfig.startAgeMonths := 10;
     SimulationConfig.endAgeMonths := 11 |}.

Definition geriatricConfig : SimulationConfig.t :=
  {| SimulationConfig.catProfile := exampleProfile;
     SimulationConfig.careRoutine := exampleRoutine;
     SimulationConfig.startAgeMonths := 181;
     SimulationConfig.endAgeMonths := 182 |}.

(** ** Vocabulary of the further properties *)

(** Alerts in non-decreasing order of age: every alert is at most as old
    as all the alerts after it. *)
Definition ageOrdered (alerts : list SimulationAlert.t) : Prop :=
  StronglySorted
    (fun a b => SimulationAlert.ageMonths a <= SimulationAlert.ageMonths b) alerts.

(** The first alert of every kind (same age, same first 30 characters of
    the message), in order; [seen] holds the alerts already passed. *)
Fixpoint firstOfEachKind (seen alerts : list SimulationAlert.t)
  : list SimulationAlert.t :=
  match alerts with
  | [] => []
  | a :: rest =>
      if existsb (fun b => SimulationEnhancer.sameAlert b a) seen
      then firstOfEachKind (seen ++ [a]) rest
      else a :: firstOfEachKind (seen ++ [a]) rest
  end.

(** The loops of [JS.find_index] and [JS.filter_indexed], from index [i]. *)
Fixpoint findIndexFrom {A : Type} (p : A -> bool) (i : nat) (l : list A) : option nat :=
  match l with
  | [] => None
  | x :: l' => if p x then Some i else findIndexFrom p (S i) l'
  end.

Fixpoint filterIndexedFrom {A : Type} (p : nat -> A -> bool) (i : nat) (l : list A)
  : list A :=
  match l with
  | [] => []
  | x :: l' =>
      if p i x then x :: filterIndexedFrom p (S i) l' else filterIndexedFrom p (S i) l'
  end.

(** The other alerts of [generateAlerts], recognised by their ids. *)
Definition isWeightAlert (a : SimulationAlert.t) : bool :=
  JS.startsWith (SimulationAlert.id a) "alert-weight-".

Definition isVetAlert (a : SimulationAlert.t) : bool :=
  JS.startsWith (SimulationAlert.id a) "alert-vet-".

Definition isMilestoneAlert (a : SimulationAlert.t) : bool :=
  JS.startsWith (SimulationAlert.id a) "milestone-".

(** A point whose weight is more than 115% of the ideal maximum, with the
    product [max * 1.15] rounded as binary64 has it (for a maximum of 7
    it is 8.049999999999999, which a point of 8.05 kg exceeds). *)
Definition overweightPoint (idealRange : BreedHealthData.Range)
  (p : SimulationPoint.t) : bool :=
  JS.Qltb
    (JS.binary64 (JS.binary64 (BreedHealthData.max idealRange) * JS.binary64 1.15))
    (JS.binary64 (SimulationPoint.weightKgEstimate p)).

(** A point at or past ten years of age. *)
Definition seniorPoint (p : SimulationPoint.t) : bool :=
  (120 <=? SimulationPoint.ageMonths p)%Z.

(** A routine with less than one vet visit a year. *)
Definition noYearlyVet (careRoutine : CareRoutine.t) : bool :=
  JS.Qltb (nullish (CareRoutine.vetVisitsPerYear careRoutine) 0) 1.

(** Age bands that follow one another from [lower] on: each band starts
    where the one before ended and is not empty. *)
Fixpoint bandsFrom (lower : Q) (bands : list BreedHealthData.AgeSpecificAdvice) : bool :=
  match bands with
  | [] => true
  | band :: rest =>
      JS.Qeqb (fst (BreedHealthData.ageRange band)) lower
      && JS.Qltb (fst (BreedHealthData.ageRange band)) (snd (BreedHealthData.ageRange band))
      && bandsFrom (snd (BreedHealthData.ageRange band)) rest
  end.

(** The upper bound of the last band ([lower] when there is none). *)
Fixpoint lastUpper (lower : Q) (bands : list BreedHealthData.AgeSpecificAdvice) : Q :=
  match bands with
  | [] => lower
  | band :: rest => lastUpper (snd (BreedHealthData.ageRange band)) rest
  end.

(** What the merge of an external note may do to an enhanced point:
    nothing, or replace its notes by the personalized note of a supplied
    note of the point's year, attached as its enhanced note. *)
Definition noteMerged (notes : list EnhancedMilestoneNote.t)
  (before after : EnhancedSimulationPoint.t) : Prop :=
  after = before
  \/ exists note,
       In note notes
       /\ EnhancedMilestoneNote.ageYears note
          == inject_Z (EnhancedSimulationPoint.ageMonths before / 12)
       /\ EnhancedSimulationPoint.notes after
          = EnhancedMilestoneNote.personalizedNote note
       /\ EnhancedSimulationPoint.enhancedNote after = Some note
       /\ EnhancedSimulationPoint.breedHealthRisks after
          = EnhancedSimulationPoint.breedHealthRisks before
       /\ enhancedCoreValues after = enhancedCoreValues before.

(** What the merge does to an enhanced point, exactly: with no note of
    the point's year among the supplied ones the point stays as it is;
    otherwise it takes the first supplied note of its year. *)
Definition firstNoteTaken (notes : list EnhancedMilestoneNote.t)
  (before after : EnhancedSimulationPoint.t) : Prop :=
  let year := inject_Z (EnhancedSimulationPoint.ageMonths before / 12) in
  ((forall note, In note notes -> ~ EnhancedMilestoneNote.ageYears note == year)
   /\ after = before)
  \/ exists earlier note later,
       notes = (earlier ++ note :: later)%list
       /\ (forall n, In n earlier -> ~ EnhancedMilestoneNote.ageYears n == year)
       /\ EnhancedMilestoneNote.ageYears note == year
       /\ EnhancedSimulationPoint.notes after
          = EnhancedMilestoneNote.personalizedNote note
       /\ EnhancedSimulationPoint.enhancedNote after = Some note
       /\ EnhancedSimulationPoint.breedHealthRisks after
          = EnhancedSimulationPoint.breedHealthRisks before
       /\ enhancedCoreValues after = enhancedCoreValues before.

(** A base result with three points of a cat's third year (months 24 to
    26), and a note for the age of two. *)
Definition thirdYearResult : SimulationResult.t :=
  {| SimulationResult.points := riskyTwice;
     SimulationResult.alerts := [];
     SimulationResult.summary := "";
     SimulationResult.recommendations := [] |}.

Definition yearTwoNote : EnhancedMilestoneNote.t :=
  {| EnhancedMilestoneNote.ageYears := 2;
     EnhancedMilestoneNote.personalizedNote := "Tom is settling into adult life.";
     EnhancedMilestoneNote.breedSpecificAlerts := [];
     EnhancedMilestoneNote.ageAppropriateAdvice := [];
     EnhancedMilestoneNote.upcomingMilestones := [];
     EnhancedMilestoneNote.trajectoryInsight := "";
     EnhancedMilestoneNote.priority := Priority.low |}.

(** The outcome of a call to the note service that succeeds with [notes]. *)
Definition notesReceived (notes : list EnhancedMilestoneNote.t)
  : SimulationEnhancer.FetchOutcome :=
  SimulationEnhancer.FetchResolved true
    (SimulationEnhancer.JsonResolved
       (SimulationEnhancer.PayloadObject true (SimulationEnhancer.NotesArray notes))).

(** The tables of a profile end early: no typical onset after 10 years,
    no screening milestone after 12 years. *)
Definition tablesEndEarly (profile : BreedHealthData.BreedHealthProfile) : bool :=
  forallb (fun risk => JS.Qleb (BreedHealthData.typicalOnsetYears risk) 10)
          (BreedHealthData.healthRisks profile)
  && forallb (fun s => JS.Qleb (BreedHealthData.ageYears s) 12)
             (BreedHealthData.screeningSchedule profile).

(** * Properties *)

(** ** Comparisons on rationals *)

Lemma Qleb_le (a b : Q) : JS.Qleb a b = true <-> a <= b.
Proof. unfold JS.Qleb. apply Qle_bool_iff. Qed.

Lemma Qltb_lt (a b : Q) : JS.Qltb a b = true <-> a < b.
Proof.
  unfold JS.Qltb. rewrite negb_true_iff.
  split; intro H.
  - apply Qnot_le_lt. intro Hle. apply Qle_bool_iff in Hle. congruence.
  - destruct (Qle_bool b a) eqn:E; trivial.
    apply Qle_bool_iff in E. exfalso. apply (Qlt_not_le _ _ H E).
Qed.

Lemma Qltb_ge (a b : Q) : JS.Qltb a b = false <-> b <= a.
Proof.
  unfold JS.Qltb. rewrite negb_false_iff. apply Qle_bool_iff.
Qed.

Lemma Qeqb_eq (a b : Q) : JS.Qeqb a b = true <-> a == b.
Proof. unfold JS.Qeqb. apply Qeq_bool_iff. Qed.

Lemma Math_max_lub_l (a b : Q) : a <= JS.Math_max a b.
Proof.
  unfold JS.Math_max. destruct (JS.Qltb a b) eqn:E.
  - apply Qltb_lt in E. apply Qlt_le_weak, E.
  - apply Qle_refl.
Qed.

Lemma Math_max_lub_r (a b : Q) : b <= JS.Math_max a b.
Proof.
  unfold JS.Math_max. destruct (JS.Qltb a b) eqn:E.
  - apply Qle_refl.
  - apply Qltb_ge in E. exact E.
Qed.

Lemma Math_min_glb (a b c : Q) : c <= a -> c <= b -> c <= JS.Math_min a b.
Proof.
  intros Ha Hb. unfold JS.Math_min. destruct (JS.Qltb b a); assumption.
Qed.

(** ** The breed registry *)

Lemma find_none_of_unmatched (name : string) :
  unmatched name ->
  find (BreedHealthData.matches (JS.trim (JS.toLowerCase name)))
       BreedHealthData.BREED_HEALTH_DATABASE = None.
Proof.
  intro H.
  destruct (find _ _) as [p|] eqn:E; trivial.
  apply find_some in E. destruct E as [Hin Hm].
  rewrite (H p Hin) in Hm. discriminate.
Qed.

Lemma domesticShorthair_in_database :
  In BreedHealthData.domesticShorthair BreedHealthData.BREED_HEALTH_DATABASE.
Proof.
  unfold BreedHealthData.BREED_HEALTH_DATABASE. simpl. tauto.
Qed.

Lemma findBreedProfile_in_database (breedName : option string) :
  In (BreedHealthData.findBreedProfile breedName)
     BreedHealthData.BREED_HEALTH_DATABASE.
Proof.
  unfold BreedHealthData.findBreedProfile.
  destruct breedName as [[|c s]|]; try apply domesticShorthair_in_database.
  destruct (find _ _) as [p|] eqn:E.
  - apply find_some in E. apply E.
  - apply domesticShorthair_in_database.
Qed.

Lemma Xyzzycat_unmatched : unmatched "Xyzzycat".
Proof.
  assert (H : forallb
                (fun p => negb (BreedHealthData.matches
                                  (JS.trim (JS.toLowerCase "Xyzzycat")) p))
                BreedHealthData.BREED_HEALTH_DATABASE = true)
    by (vm_compute; reflexivity).
  intros p Hin. rewrite forallb_forall in H.
  specialize (H p Hin). apply negb_true_iff in H. exact H.
Qed.

(** C6: [findBreedProfile] is total and always answers with an entry of
    the database; for null, the empty string and every name that matches
    no entry it answers with the generic Domestic Shorthair profile; in
    particular "Xyzzycat" resolves to Domestic Shorthair and its ideal
    weight range is {min: 3.5, max: 5.5}. *)
Theorem findBreedProfile_never_fails :
  (forall breedName,
     In (BreedHealthData.findBreedProfile breedName)
        BreedHealthData.BREED_HEALTH_DATABASE)
  /\ BreedHealthData.findBreedProfile None = BreedHealthData.domesticShorthair
  /\ BreedHealthData.findBreedProfile (Some "") = BreedHealthData.domesticShorthair
  /\ (forall name,
        unmatched name ->
        BreedHealthData.findBreedProfile (Some name)
        = BreedHealthData.domesticShorthair)
  /\ BreedHealthData.breed BreedHealthData.domesticShorthair = "Domestic Shorthair"
  /\ BreedHealthData.findBreedProfile (Some "Xyzzycat")
     = BreedHealthData.domesticShorthair
  /\ Simulation.getIdealWeightRange (Some "Xyzzycat")
     = Some {| BreedHealthData.min := 3.5; BreedHealthData.max := 5.5 |}.
Proof.
  split; [exact findBreedProfile_in_database|].
  split; [reflexivity|].
  split; [reflexivity|].
  split.
  - intros name H. unfold BreedHealthData.findBreedProfile.
    destruct name as [|c s]; [reflexivity|].
    rewrite (find_none_of_unmatched _ H). reflexivity.
  - split; [reflexivity|]. split; vm_compute; reflexivity.
Qed.

Lemma findBreedProfile_never_fails_witness :
  unmatched "Xyzzycat"
  /\ BreedHealthData.findBreedProfile (Some "Xyzzycat")
     = BreedHealthData.domesticShorthair.
Proof.
  split.
  - exact Xyzzycat_unmatched.
  - exact (proj1 (proj2 (proj2 (proj2 findBreedProfile_never_fails)))
             "Xyzzycat" Xyzzycat_unmatched).
Defined.

(** ** Binary64 rounding *)

Lemma round_half_even_error (x : Q) :
  Qabs (inject_Z (JS.round_half_even x) - x) <= 1 # 2.
Proof.
  unfold JS.round_half_even.
  pose proof (Qfloor_le x) as Hlo. pose proof (Qlt_floor x) as Hhi.
  rewrite inject_Z_plus in Hhi. change (inject_Z 1) with 1 in Hhi.
  destruct (Qcompare (x - inject_Z (Qfloor x)) (1 # 2)) eqn:E.
  - apply Qeq_alt in E.
    destruct (Z.even (Qfloor x));
      [|rewrite inject_Z_plus; change (inject_Z 1) with 1];
      apply Qabs_case; intros _; lra.
  - apply Qlt_alt in E. apply Qabs_case; intros _; lra.
  - apply Qgt_alt in E. rewrite inject_Z_plus. change (inject_Z 1) with 1.
    apply Qabs_case; intros _; lra.
Qed.

Lemma pow2_pos (e : Z) : 0 < 2 ^ e.
Proof. apply Qpower_0_lt. reflexivity. Qed.

Lemma ilog2_le (q : Q) : 0 < q -> 2 ^ JS.ilog2 q <= q.
Proof.
  intro Hq. unfold JS.ilog2.
  set (n := Qnum q). set (d := Z.pos (Qden q)).
  destruct (JS.Qleb (2 ^ (Z.log2 n - Z.log2 d)) q) eqn:E.
  - apply Qle_bool_iff. exact E.
  - clear E.
    assert (Hn : (0 < n)%Z).
    { unfold n. destruct q as [qn qd]. unfold Qlt in Hq. simpl in *. lia. }
    assert (Hd : (0 < d)%Z) by (unfold d; lia).
    destruct (Z.log2_spec n Hn) as [Hn1 _].
    destruct (Z.log2_spec d Hd) as [_ Hd2].
    pose proof (Z.log2_nonneg n) as Hln. pose proof (Z.log2_nonneg d) as Hld.
    replace (Z.log2 n - Z.log2 d - 1)%Z with (Z.log2 n - Z.succ (Z.log2 d))%Z by lia.
    rewrite Qpower_minus by (intro H; discriminate H).
    assert (P1 : 2 ^ Z.log2 n == inject_Z (2 ^ Z.log2 n))
      by (rewrite Zpower_Qpower by lia; reflexivity).
    assert (P2 : 2 ^ Z.succ (Z.log2 d) == inject_Z (2 ^ Z.succ (Z.log2 d)))
      by (rewrite Zpower_Qpower by lia; reflexivity).
    rewrite P1, P2. clear P1 P2.
    assert (Hq' : q == inject_Z n / inject_Z d).
    { unfold n, d. destruct q as [qn qd]. simpl. rewrite <- Qmake_Qdiv. reflexivity. }
    rewrite Hq'.
    assert (H1 : inject_Z (2 ^ Z.log2 n) <= inject_Z n)
      by (rewrite <- Zle_Qle; exact Hn1).
    assert (H2 : inject_Z d <= inject_Z (2 ^ Z.succ (Z.log2 d)))
      by (rewrite <- Zle_Qle; lia).
    assert (H3 : 0 < inject_Z d) by (rewrite <- (Zlt_Qlt 0); exact Hd).
    assert (H4 : 0 < inject_Z (2 ^ Z.log2 n)).
    { rewrite <- (Zlt_Qlt 0). apply Z.pow_pos_nonneg; lia. }
    apply Qle_shift_div_l; [exact H3|].
    apply Qle_trans with (inject_Z (2 ^ Z.log2 n) / inject_Z (2 ^ Z.succ (Z.log2 d))
                          * inject_Z (2 ^ Z.succ (Z.log2 d))).
    + apply Qmult_le_l.
      * apply Qlt_shift_div_l; [lra|]. lra.
      * exact H2.
    + field_simplify; [lra|]. lra.
Qed.

Lemma half_smallest_small : 0 < half_smallest /\ half_smallest <= underflow_slack.
Proof.
  split.
  - apply pow2_pos.
  - apply Qle_bool_iff. vm_compute. reflexivity.
Qed.

Lemma ulp_bound (q : Q) :
  ~ q == 0 -> 2 ^ JS.ulp_exponent q <= Qabs q * 2 ^ (-52) + 2 ^ (-1074).
Proof.
  intro Hq. unfold JS.ulp_exponent.
  assert (Hpos : 0 < Qabs q).
  { destruct (Qlt_le_dec 0 q) as [H|H].
    - rewrite Qabs_pos; lra.
    - rewrite Qabs_neg by exact H.
      destruct (Qlt_le_dec q 0) as [H'|H']; [lra|].
      exfalso. apply Hq. lra. }
  pose proof (ilog2_le (Qabs q) Hpos) as Hl.
  pose proof (pow2_pos (-52)) as H52. pose proof (pow2_pos (-1074)) as H1074.
  destruct (Z.max_spec (JS.ilog2 (Qabs q) - 52) (-1074)) as [[_ ->]|[_ ->]].
  - set (a := 2 ^ (-52)) in *. set (b := 2 ^ (-1074)) in *.
    assert (0 <= Qabs q * a) by (apply Qmult_le_0_compat; lra). lra.
  - unfold Z.sub. rewrite Qpower_plus by (intro H; discriminate H).
    change (- (52))%Z with (-52)%Z.
    set (a := 2 ^ (-52)) in *. set (b := 2 ^ (-1074)) in *.
    set (c := 2 ^ JS.ilog2 (Qabs q)) in *.
    assert (c * a <= Qabs q * a) by (apply Qmult_le_compat_r; lra).
    lra.
Qed.

(** The rounding error of [binary64] is at most half a unit in the last
    place. *)
Lemma binary64_error (q : Q) :
  Qabs (JS.binary64 q - q) <= Qabs q * unit_roundoff + half_smallest.
Proof.
  unfold JS.binary64. destruct (JS.Qeqb q 0) eqn:E.
  - apply Qeq_bool_iff in E. rewrite E.
    pose proof (proj1 half_smallest_small).
    setoid_replace (0 - 0) with 0 by ring. change (Qabs 0) with 0. lra.
  - assert (Hq : ~ q == 0).
    { intro H. apply Qeq_bool_iff in H. unfold JS.Qeqb in E. congruence. }
    set (e := JS.ulp_exponent q).
    pose proof (pow2_pos e) as He.
    pose proof (round_half_even_error (q / 2 ^ e)) as Hm.
    set (m := JS.round_half_even (q / 2 ^ e)) in *.
    assert (Heq : inject_Z m * 2 ^ e - q == (inject_Z m - q / 2 ^ e) * 2 ^ e)
      by (field; lra).
    rewrite Heq, Qabs_Qmult, (Qabs_pos (2 ^ e)) by lra.
    assert (H1 : Qabs (inject_Z m - q / 2 ^ e) * 2 ^ e <= (1 # 2) * 2 ^ e)
      by (apply Qmult_le_compat_r; lra).
    pose proof (ulp_bound q Hq) as Hu. fold e in Hu.
    assert (H52 : 2 ^ (-52) == 2 * unit_roundoff) by reflexivity.
    assert (H1074 : 2 ^ (-1074) == 2 * half_smallest) by reflexivity.
    rewrite H52, H1074 in Hu. unfold unit_roundoff in *.
    set (p := 2 ^ e) in *. set (d := Qabs (inject_Z m - q / p)) in *. lra.
Qed.

(** The same bound with numerals, on both sides. *)
Lemma binary64_near (q : Q) :
  q - (Qabs q * (1 # 9007199254740992) + (1 # 1000000000000000000000000000000))
  <= JS.binary64 q
  <= q + (Qabs q * (1 # 9007199254740992) + (1 # 1000000000000000000000000000000)).
Proof.
  pose proof (binary64_error q) as H.
  pose proof (proj2 half_smallest_small) as Hs.
  unfold unit_roundoff, underflow_slack in *.
  apply Qabs_Qle_condition in H. destruct H as [H1 H2].
  set (b := JS.binary64 q) in *. set (a := Qabs q) in *. set (h := half_smallest) in *.
  split; lra.
Qed.

(** ** The weight and status model *)

Lemma Qabs_cases (q : Q) : (0 <= q /\ Qabs q == q) \/ (q <= 0 /\ Qabs q == - q).
Proof.
  destruct (Qlt_le_dec q 0) as [H|H].
  - right. split; [lra|]. apply Qabs_neg. lra.
  - left. split; [exact H|]. apply Qabs_pos. exact H.
Qed.

Lemma Math_abs_cases (q : Q) :
  (0 <= q /\ JS.Math_abs q = q) \/ (q <= 0 /\ JS.Math_abs q = - q).
Proof.
  unfold JS.Math_abs. destruct (JS.Qltb q 0) eqn:E.
  - apply Qltb_lt in E. right. split; [lra | reflexivity].
  - apply Qltb_ge in E. left. split; [exact E | reflexivity].
Qed.

(** How far the computed midpoint and the computed absolute deviation are
    from the exact ones. *)
Lemma computed_deviation_close (weight : Q) (idealRange : BreedHealthData.Range) :
  let midIdeal :=
    (BreedHealthData.min idealRange + BreedHealthData.max idealRange) / 2 in
  let computed :=
    JS.Math_abs (JS.sub64 (JS.binary64 weight) (midpoint idealRange)) in
  0 <= BreedHealthData.min idealRange ->
  0 <= BreedHealthData.max idealRange ->
  1 # 1000 <= midIdeal ->
  midIdeal * (1 - (1 # 1000000000000000)) <= midpoint idealRange
    <= midIdeal * (1 + (1 # 1000000000000000))
  /\ Qabs (weight - midIdeal)
     - (1 # 1000000000000000) * (Qabs (weight - midIdeal) + midIdeal)
     <= computed
     <= Qabs (weight - midIdeal)
        + (1 # 1000000000000000) * (Qabs (weight - midIdeal) + midIdeal).
Proof.
  intros midIdeal computed Hlo Hhi Hmid. subst computed.
  unfold midpoint, JS.div64, JS.add64, JS.sub64.
  set (lo := BreedHealthData.min idealRange) in *.
  set (hi := BreedHealthData.max idealRange) in *.
  assert (Hm : midIdeal == (lo + hi) * (1 # 2)) by (unfold midIdeal; field).
  pose proof (binary64_near lo) as Blo. pose proof (binary64_near hi) as Bhi.
  rewrite (Qabs_pos lo Hlo) in Blo. rewrite (Qabs_pos hi Hhi) in Bhi.
  set (lo' := JS.binary64 lo) in *. set (hi' := JS.binary64 hi) in *.
  pose proof (binary64_near (lo' + hi')) as Bs.
  rewrite (Qabs_pos (lo' + hi')) in Bs by lra.
  set (s := JS.binary64 (lo' + hi')) in *.
  assert (Hs2 : s / 2 == s * (1 # 2)) by field.
  pose proof (binary64_near (s / 2)) as Bm.
  rewrite (Qabs_pos (s / 2)) in Bm by lra.
  set (mm := JS.binary64 (s / 2)) in *.
  pose proof (binary64_near weight) as Bw.
  set (w' := JS.binary64 weight) in *.
  pose proof (binary64_near (w' - mm)) as Bx.
  set (x := JS.binary64 (w' - mm)) in *.
  split; [lra|].
  destruct (Qabs_cases weight) as [[Sw Ew]|[Sw Ew]];
    destruct (Qabs_cases (w' - mm)) as [[Sd Ed]|[Sd Ed]];
    destruct (Qabs_cases (weight - midIdeal)) as [[Se Ee]|[Se Ee]];
    destruct (Math_abs_cases x) as [[Sx ->]|[Sx ->]];
    split; lra.
Qed.

Lemma div_le_mult (a b c : Q) : 0 < b -> a / b <= c -> a <= c * b.
Proof.
  intros Hb H. apply (Qmult_le_compat_r _ _ b) in H; [|lra].
  assert (E : a / b * b == a) by (field; lra). lra.
Qed.

Lemma div_ge_mult (a b c : Q) : 0 < b -> c <= a / b -> c * b <= a.
Proof.
  intros Hb H. apply (Qmult_le_compat_r _ _ b) in H; [|lra].
  assert (E : a / b * b == a) by (field; lra). lra.
Qed.

(** The comparison [a / b < c] of the code, decided from bounds of the
    exact quotient that stay clear of [c]. *)
Lemma div64_lt_true (a b c bound : Q) :
  0 < b -> 0 <= a -> 0 <= c <= 1 -> 0 <= bound ->
  bound + (1 # 1000000000000) <= c ->
  a <= bound * b ->
  JS.div64_lt a b c = true.
Proof.
  intros Hb Ha Hc Hbound Hclear Hle.
  unfold JS.div64_lt, JS.div64.
  destruct (JS.Qeqb b 0) eqn:E; [apply Qeqb_eq in E; lra|].
  apply Qltb_lt.
  assert (Ht : a / b <= bound) by (apply Qle_shift_div_r; assumption).
  assert (Ht0 : 0 <= a / b) by (apply Qle_shift_div_l; lra).
  pose proof (binary64_near (a / b)) as Bt. rewrite (Qabs_pos _ Ht0) in Bt.
  pose proof (binary64_near c) as Bc. rewrite (Qabs_pos c) in Bc by lra.
  set (t := a / b) in *. set (d := JS.binary64 t) in *. set (c' := JS.binary64 c) in *.
  lra.
Qed.

Lemma div64_lt_false (a b c bound : Q) :
  0 < b -> 0 <= a -> 0 <= c <= 1 ->
  c + (1 # 1000000000000) <= bound ->
  bound * b <= a ->
  JS.div64_lt a b c = false.
Proof.
  intros Hb Ha Hc Hclear Hle.
  unfold JS.div64_lt, JS.div64.
  destruct (JS.Qeqb b 0) eqn:E; [apply Qeqb_eq in E; lra|].
  apply Qltb_ge.
  assert (Ht : bound <= a / b) by (apply Qle_shift_div_l; assumption).
  assert (Ht0 : 0 <= a / b) by lra.
  pose proof (binary64_near (a / b)) as Bt. rewrite (Qabs_pos _ Ht0) in Bt.
  pose proof (binary64_near c) as Bc. rewrite (Qabs_pos c) in Bc by lra.
  set (t := a / b) in *. set (d := JS.binary64 t) in *. set (c' := JS.binary64 c) in *.
  lra.
Qed.

(** Away from the three boundaries the classification by weight is the
    one of the exact deviation. *)
Lemma weightStatus_by_exact_deviation (weight : Q)
  (idealRange : BreedHealthData.Range) :
  0 <= BreedHealthData.min idealRange ->
  0 <= BreedHealthData.max idealRange ->
  1 # 1000 <= (BreedHealthData.min idealRange + BreedHealthData.max idealRange) / 2 ->
  (exactDeviation weight idealRange <= 0.1 - margin ->
   Simulation.weightStatus weight idealRange = thriving)
  /\ (0.1 + margin <= exactDeviation weight idealRange <= 0.2 - margin ->
      Simulation.weightStatus weight idealRange = ok)
  /\ (0.2 + margin <= exactDeviation weight idealRange <= 0.35 - margin ->
      Simulation.weightStatus weight idealRange = risky)
  /\ (0.35 + margin <= exactDeviation weight idealRange ->
      Simulation.weightStatus weight idealRange = unhealthy).
Proof.
  intros Hlo Hhi Hmid.
  destruct (computed_deviation_close weight idealRange Hlo Hhi Hmid) as [Hmm Ha].
  unfold Simulation.weightStatus, exactDeviation, margin. cbv zeta.
  fold (midpoint idealRange).
  set (midIdeal :=
         (BreedHealthData.min idealRange + BreedHealthData.max idealRange) / 2) in *.
  set (mm := midpoint idealRange) in *.
  set (a := JS.Math_abs (JS.sub64 (JS.binary64 weight) mm)) in *.
  pose proof (Qabs_nonneg (weight - midIdeal)) as HA.
  set (A := Qabs (weight - midIdeal)) in *.
  assert (Hmm0 : 0 < mm) by lra.
  assert (Ha0 : 0 <= a).
  { unfold a. destruct (Math_abs_cases (JS.sub64 (JS.binary64 weight) mm))
      as [[S ->]|[S ->]]; lra. }
  assert (Hm0 : 0 < midIdeal) by lra.
  repeat split.
  - intro H. apply div_le_mult in H; [|exact Hm0].
    rewrite (div64_lt_true a mm 0.1 (0.1 - (1 # 2000000000))) by lra.
    reflexivity.
  - intros [H1 H2].
    apply div_ge_mult in H1; [|exact Hm0]. apply div_le_mult in H2; [|exact Hm0].
    rewrite (div64_lt_false a mm 0.1 (0.1 + (1 # 2000000000))) by lra.
    rewrite (div64_lt_true a mm 0.2 (0.2 - (1 # 2000000000))) by lra.
    reflexivity.
  - intros [H1 H2].
    apply div_ge_mult in H1; [|exact Hm0]. apply div_le_mult in H2; [|exact Hm0].
    rewrite (div64_lt_false a mm 0.1 (0.1 + (1 # 2000000000))) by lra.
    rewrite (div64_lt_false a mm 0.2 (0.2 + (1 # 2000000000))) by lra.
    rewrite (div64_lt_true a mm 0.35 (0.35 - (1 # 2000000000))) by lra.
    reflexivity.
  - intro H. apply div_ge_mult in H; [|exact Hm0].
    rewrite (div64_lt_false a mm 0.1 (0.1 + (1 # 2000000000))) by lra.
    rewrite (div64_lt_false a mm 0.2 (0.2 + (1 # 2000000000))) by lra.
    rewrite (div64_lt_false a mm 0.35 (0.35 + (1 # 2000000000))) by lra.
    reflexivity.
Qed.







(** ** Trajectory analysis *)

(** C10: with fewer than two yearly points (points whose age in months is
    divisible by 12), [analyzeTrajectory] returns the fixed default
    trajectory: trend stable, projected status ok at year 10 and at year
    15, no risk factor, no positive factor, average health score 3,
    whatever the profile and the routine. *)
Theorem analyzeTrajectory_default
  (points : list SimulationPoint.t) (catProfile : CatProfile.t)
  (careRoutine : CareRoutine.t) :
  (List.length
     (filter (fun p => (Z.rem (SimulationPoint.ageMonths p) 12 =? 0)%Z) points) < 2)%nat ->
  SimulationEnhancer.analyzeTrajectory points catProfile careRoutine
  = {| HealthTrajectory.trend := Trend.stable;
       HealthTrajectory.projectedStatusAtYear10 := ok;
       HealthTrajectory.projectedStatusAtYear15 := ok;
       HealthTrajectory.riskFactors := [];
       HealthTrajectory.positiveFactors := [];
       HealthTrajectory.averageHealthScore := 3 |}.
Proof.
  intro H. unfold SimulationEnhancer.analyzeTrajectory, SimulationEnhancer.yearlyPointsOf.
  apply Nat.ltb_lt in H. rewrite H. reflexivity.
Qed.

Lemma analyzeTrajectory_default_witness :
  SimulationEnhancer.analyzeTrajectory
    [{| SimulationPoint.ageMonths := 24;
        SimulationPoint.weightKgEstimate := 9;
        SimulationPoint.healthStatus := unhealthy;
        SimulationPoint.notes := "" |};
     {| SimulationPoint.ageMonths := 25;
        SimulationPoint.weightKgEstimate := 9;
        SimulationPoint.healthStatus := unhealthy;
        SimulationPoint.notes := "" |}]
    {| CatProfile.name := Some "Tom";
       CatProfile.ageYears := Some 2%Z;
       CatProfile.ageMonths := Some 0%Z;
       CatProfile.breed := Some "Maine Coon";
       CatProfile.indoorOutdoor := Some IndoorOutdoor.indoor;
       CatProfile.weightKg := Some 9;
       CatProfile.knownConditions := ["asthma"] |}
    {| CareRoutine.foodType := Some FoodType.dry;
       CareRoutine.foodAmountOzPerDay := Some 8;
       CareRoutine.treatsPerDay := Some 9;
       CareRoutine.playMinutesPerDay := Some 0;
       CareRoutine.vetVisitsPerYear := Some 0 |}
  = {| HealthTrajectory.trend := Trend.stable;
       HealthTrajectory.projectedStatusAtYear10 := ok;
       HealthTrajectory.projectedStatusAtYear15 := ok;
       HealthTrajectory.riskFactors := [];
       HealthTrajectory.positiveFactors := [];
       HealthTrajectory.averageHealthScore := 3 |}.
Proof.
  apply analyzeTrajectory_default. simpl. lia.
Defined.

(** ** Enhancement *)

(** C5: when the call to the note service fails (rejected fetch, non-OK
    response, payload without [success] or [notes], or any other
    exception of the [try] block), [enhanceSimulationWithGPT] returns
    exactly the result of [enhanceSimulationLocally] on the same inputs. *)
Theorem enhanceSimulationWithGPT_falls_back
  (result : SimulationResult.t) (catProfile : CatProfile.t)
  (careRoutine : CareRoutine.t) (outcome : SimulationEnhancer.FetchOutcome) :
  CallFailed outcome ->
  SimulationEnhancer.enhanceSimulationWithGPT result catProfile careRoutine outcome
  = SimulationEnhancer.enhanceSimulationLocally result catProfile careRoutine.
Proof.
  intro H. unfold SimulationEnhancer.enhanceSimulationWithGPT.
  destruct H; try reflexivity.
  destruct success; reflexivity.
Qed.

Lemma enhanceSimulationWithGPT_falls_back_witness :
  SimulationEnhancer.enhanceSimulationWithGPT
    {| SimulationResult.points := thrivingThenOk;
       SimulationResult.alerts := [];
       SimulationResult.summary := "";
       SimulationResult.recommendations := [] |}
    exampleProfile exampleRoutine
    (SimulationEnhancer.FetchResolved false SimulationEnhancer.JsonRejected)
  = SimulationEnhancer.enhanceSimulationLocally
      {| SimulationResult.points := thrivingThenOk;
         SimulationResult.alerts := [];
         SimulationResult.summary := "";
         SimulationResult.recommendations := [] |}
      exampleProfile exampleRoutine.
Proof.
  apply enhanceSimulationWithGPT_falls_back.
  apply failed_not_ok.
Defined.

Lemma mergeNote_core (notes : list EnhancedMilestoneNote.t)
  (point : EnhancedSimulationPoint.t) :
  enhancedCoreValues (SimulationEnhancer.mergeNote notes point)
  = enhancedCoreValues point.
Proof.
  unfold SimulationEnhancer.mergeNote.
  destruct (find _ notes); reflexivity.
Qed.

Lemma enhancePoint_core (breedProfile : BreedHealthData.BreedHealthProfile)
  (point : SimulationPoint.t) :
  enhancedCoreValues (SimulationEnhancer.enhancePoint breedProfile point)
  = coreValues point.
Proof. reflexivity. Qed.

Lemma enhanceSimulationLocally_core (result : SimulationResult.t)
  (catProfile : CatProfile.t) (careRoutine : CareRoutine.t) :
  map enhancedCoreValues
    (EnhancedSimulationResult.enhancedPoints
       (SimulationEnhancer.enhanceSimulationLocally result catProfile careRoutine))
  = map coreValues (SimulationResult.points result).
Proof.
  unfold SimulationEnhancer.enhanceSimulationLocally. simpl.
  rewrite map_map. apply map_ext. intro p. apply enhancePoint_core.
Qed.

(** C9: enhancement never alters the simulated values.  The enhanced
    points of [enhanceSimulationLocally], and those of
    [enhanceSimulationWithGPT] however the call to the note service ends,
    are as many as the base points and carry, position by position, the
    same ageMonths, weightKgEstimate and healthStatus; the local
    enhancement keeps the notes too, and both keep the base points. *)
Theorem enhancement_preserves_simulated_values
  (result : SimulationResult.t) (catProfile : CatProfile.t)
  (careRoutine : CareRoutine.t) (outcome : SimulationEnhancer.FetchOutcome) :
  let localEnhanced :=
    SimulationEnhancer.enhanceSimulationLocally result catProfile careRoutine in
  let gptEnhanced :=
    SimulationEnhancer.enhanceSimulationWithGPT result catProfile careRoutine outcome in
  map enhancedCoreValues (EnhancedSimulationResult.enhancedPoints localEnhanced)
  = map coreValues (SimulationResult.points result)
  /\ map EnhancedSimulationPoint.notes (EnhancedSimulationResult.enhancedPoints localEnhanced)
     = map SimulationPoint.notes (SimulationResult.points result)
  /\ map enhancedCoreValues (EnhancedSimulationResult.enhancedPoints gptEnhanced)
     = map coreValues (SimulationResult.points result)
  /\ EnhancedSimulationResult.points localEnhanced = SimulationResult.points result
  /\ EnhancedSimulationResult.points gptEnhanced = SimulationResult.points result.
Proof.
  intros localEnhanced gptEnhanced.
  assert (Hlocal : map enhancedCoreValues
                     (EnhancedSimulationResult.enhancedPoints localEnhanced)
                   = map coreValues (SimulationResult.points result))
    by apply enhanceSimulationLocally_core.
  split; [exact Hlocal|].
  split.
  { subst localEnhanced. unfold SimulationEnhancer.enhanceSimulationLocally. simpl.
    rewrite map_map. reflexivity. }
  assert (Hgpt :
    gptEnhanced = localEnhanced
    \/ exists notes,
         gptEnhanced
         = SimulationEnhancer.withEnhancedPoints localEnhanced
             (map (SimulationEnhancer.mergeNote notes)
                  (EnhancedSimulationResult.enhancedPoints localEnhanced))).
  { subst gptEnhanced. unfold SimulationEnhancer.enhanceSimulationWithGPT.
    fold localEnhanced.
    destruct outcome as [|[|] [|[|[|] [|notes|]]]]; simpl; auto.
    right. exists notes. reflexivity. }
  destruct Hgpt as [Hgpt|[notes Hgpt]]; rewrite Hgpt.
  - repeat split; trivial.
  - simpl. split; [|split; reflexivity].
    rewrite map_map. rewrite <- Hlocal. apply map_ext.
    intro p. apply mergeNote_core.
Qed.

(** ** The summary trajectory *)

Lemma div_gt_nonzero (a b c : Q) :
  ~ b == 0 -> (JS.div_gt a b c = true <-> c < a / b).
Proof.
  intro Hb. unfold JS.div_gt.
  destruct (JS.Qeqb b 0) eqn:E.
  - apply Qeqb_eq in E. contradiction.
  - apply Qltb_lt.
Qed.

Lemma div_gt_true (a b c : Q) :
  ~ b == 0 -> JS.div_gt a b c = true -> c < a / b.
Proof. intros Hb H. apply (div_gt_nonzero a b c Hb). exact H. Qed.

Lemma div_gt_false (a b c : Q) :
  ~ b == 0 -> JS.div_gt a b c = false -> a / b <= c.
Proof.
  intros Hb H. apply Qnot_lt_le. intro Hlt.
  apply (div_gt_nonzero a b c Hb) in Hlt. congruence.
Qed.

Lemma slice_last_nonempty {A : Type} (n : nat) (l : list A) :
  l <> [] -> (0 < n)%nat -> JS.slice_last n l <> [].
Proof.
  intros Hl Hn. unfold JS.slice_last. intro H.
  assert (Hlen : List.length (skipn (List.length l - n) l) = 0%nat) by (rewrite H; reflexivity).
  rewrite length_skipn in Hlen.
  destruct l as [|x l]; [congruence|].
  change (List.length (x :: l)) with (S (List.length l)) in Hlen. lia.
Qed.

Lemma length_as_Q_nonzero {A : Type} (l : list A) :
  l <> [] -> ~ inject_Z (Z.of_nat (List.length l)) == 0.
Proof.
  intros Hl H. destruct l; [congruence|].
  unfold Qeq in H. simpl in H. lia.
Qed.

(** C7, as the code has it: the label compares the average status score
    of the trailing 24 points with strict thresholds.  It is "excellent"
    when the average is above 3.5, "good" when it is above 2.5 and at most
    3.5, "concerning" when it is above 1.5 and at most 2.5, and "needs
    attention" otherwise (also when there is no point at all). *)
Theorem summaryTrajectory_thresholds (points : list SimulationPoint.t) :
  (points <> [] ->
     (3.5 < avgStatus points -> Simulation.summaryTrajectory points = "excellent")
     /\ (2.5 < avgStatus points <= 3.5 -> Simulation.summaryTrajectory points = "good")
     /\ (1.5 < avgStatus points <= 2.5
         -> Simulation.summaryTrajectory points = "concerning")
     /\ (avgStatus points <= 1.5
         -> Simulation.summaryTrajectory points = "needs attention"))
  /\ (points = [] -> Simulation.summaryTrajectory points = "needs attention").
Proof.
  split.
  - intro Hne.
    assert (Hn : ~ inject_Z (Z.of_nat (List.length (JS.slice_last 24 points))) == 0).
    { apply length_as_Q_nonzero. apply slice_last_nonempty; [exact Hne | lia]. }
    unfold Simulation.summaryTrajectory, avgStatus. cbv zeta.
    set (total := Simulation.sumScores (JS.slice_last 24 points)) in *.
    set (n := inject_Z (Z.of_nat (List.length (JS.slice_last 24 points)))) in *.
    pose proof (div_gt_true total n 3.5 Hn) as T1.
    pose proof (div_gt_false total n 3.5 Hn) as F1.
    pose proof (div_gt_true total n 2.5 Hn) as T2.
    pose proof (div_gt_false total n 2.5 Hn) as F2.
    pose proof (div_gt_true total n 1.5 Hn) as T3.
    pose proof (div_gt_false total n 1.5 Hn) as F3.
    destruct (JS.div_gt total n 3.5), (JS.div_gt total n 2.5), (JS.div_gt total n 1.5);
      repeat match goal with
        | H : ?x = ?x -> _ |- _ => specialize (H eq_refl)
        | H : true = false -> _ |- _ => clear H
        | H : false = true -> _ |- _ => clear H
        end;
      repeat split; intros; trivial; exfalso; lra.
  - intros ->. reflexivity.
Qed.

Lemma summaryTrajectory_thresholds_witness :
  Simulation.summaryTrajectory thrivingThenOk = "good".
Proof.
  apply (proj1 (summaryTrajectory_thresholds thrivingThenOk)).
  - discriminate.
  - split; vm_compute; [reflexivity | discriminate].
Defined.

(** An average of exactly 3.5 (a thriving year, then a year of ok) is at
    least 3.5 and the label is "good", not "excellent". *)
Lemma summaryTrajectory_not_excellent_at_threshold :
  ~ (3.5 <= avgStatus thrivingThenOk
     -> Simulation.summaryTrajectory thrivingThenOk = "excellent").
Proof.
  intro H.
  assert (Hle : 3.5 <= avgStatus thrivingThenOk) by (vm_compute; discriminate).
  specialize (H Hle). vm_compute in H. discriminate.
Qed.

(** The summary of [generateSummary] is phrased from that label. *)
Lemma generateSummary_uses_trajectory
  (catProfile : CatProfile.t) (careRoutine : CareRoutine.t)
  (points : list SimulationPoint.t) (alerts : list SimulationAlert.t)
  (idealRange : BreedHealthData.Range) :
  let label := Simulation.summaryTrajectory points in
  fst (Simulation.generateSummary catProfile careRoutine points alerts idealRange)
  = if String.eqb label "excellent" || String.eqb label "good"
    then
      "Based on " ++ catName_of catProfile
        ++ "'s current care routine, the long-term outlook is " ++ label ++ "! "
        ++ "With consistent care, " ++ catName_of catProfile
        ++ " has a great chance at a healthy, happy life."
    else
      catName_of catProfile ++ "'s health trajectory shows some areas for improvement. "
        ++ "With a few adjustments to diet and activity, you can help "
        ++ catName_of catProfile ++ " thrive.".
Proof. reflexivity. Qed.

(** ** Alert generation *)

Lemma insert_by_permutation {A : Type} (key : A -> Q) (x : A) (l : list A) :
  Permutation (JS.insert_by key x l) (x :: l).
Proof.
  induction l as [|y l IH]; simpl.
  - apply Permutation_refl.
  - destruct (JS.Qleb (key x) (key y)).
    + apply Permutation_refl.
    + apply perm_trans with (y :: x :: l).
      * apply perm_skip. exact IH.
      * apply perm_swap.
Qed.

Lemma sort_by_permutation {A : Type} (key : A -> Q) (l : list A) :
  Permutation (JS.sort_by key l) l.
Proof.
  unfold JS.sort_by. induction l as [|x l IH]; simpl.
  - apply perm_nil.
  - apply perm_trans with (x :: fold_right (JS.insert_by key) [] l).
    + apply insert_by_permutation.
    + apply perm_skip. exact IH.
Qed.

Lemma filter_length_permutation {A : Type} (f : A -> bool) (l l' : list A) :
  Permutation l l' -> List.length (filter f l) = List.length (filter f l').
Proof.
  intro H. induction H; simpl.
  - reflexivity.
  - destruct (f x); simpl; congruence.
  - destruct (f x), (f y); reflexivity.
  - congruence.
Qed.

Lemma count_push {A : Type} (f : A -> bool) (l : list A) (b : bool) (x : A) :
  List.length (filter f (if b then (l ++ [x])%list else l))
  = (List.length (filter f l) + (if b && f x then 1 else 0))%nat.
Proof.
  destruct b; simpl; [|lia].
  rewrite filter_app, length_app. simpl. destruct (f x); reflexivity.
Qed.

Lemma riskyAlert_isRisky (catName : string) (point : SimulationPoint.t) :
  isRiskyAlert (Simulation.riskyAlert catName point) = true.
Proof. reflexivity. Qed.

Lemma riskyAlert_isUnhealthy (catName : string) (point : SimulationPoint.t) :
  isUnhealthyAlert (Simulation.riskyAlert catName point) = false.
Proof. reflexivity. Qed.

Lemma unhealthyAlert_isRisky (catName : string) (point : SimulationPoint.t) :
  isRiskyAlert (Simulation.unhealthyAlert catName point) = false.
Proof. reflexivity. Qed.

Lemma unhealthyAlert_isUnhealthy (catName : string) (point : SimulationPoint.t) :
  isUnhealthyAlert (Simulation.unhealthyAlert catName point) = true.
Proof. reflexivity. Qed.

Lemma weightAlert_isRisky (catName : string) (point : SimulationPoint.t) :
  isRiskyAlert (Simulation.weightAlert catName point) = false.
Proof. reflexivity. Qed.

Lemma weightAlert_isUnhealthy (catName : string) (point : SimulationPoint.t) :
  isUnhealthyAlert (Simulation.weightAlert catName point) = false.
Proof. reflexivity. Qed.

Lemma vetAlert_isRisky (catName : string) (point : SimulationPoint.t) :
  isRiskyAlert (Simulation.vetAlert catName point) = false.
Proof. reflexivity. Qed.

Lemma vetAlert_isUnhealthy (catName : string) (point : SimulationPoint.t) :
  isUnhealthyAlert (Simulation.vetAlert catName point) = false.
Proof. reflexivity. Qed.

Create Rewrite HintDb alert_ids.

#[local] Hint Rewrite riskyAlert_isRisky riskyAlert_isUnhealthy
  unhealthyAlert_isRisky unhealthyAlert_isUnhealthy
  weightAlert_isRisky weightAlert_isUnhealthy
  vetAlert_isRisky vetAlert_isUnhealthy
  andb_false_r andb_true_r : alert_ids.

Lemma milestoneAlert_not_status (catName : string) (careRoutine : CareRoutine.t)
  (milestones : list (Z * string)) :
  filter isRiskyAlert (map (Simulation.milestoneAlert catName careRoutine) milestones) = []
  /\ filter isUnhealthyAlert
       (map (Simulation.milestoneAlert catName careRoutine) milestones) = [].
Proof.
  induction milestones as [|m ms [IH1 IH2]]; simpl; split; trivial.
Qed.

Section AlertLoopCounts.

Variable catName : string.
Variable careRoutine : CareRoutine.t.
Variable idealRange : BreedHealthData.Range.

(** What one iteration of the loop adds to the two counts. *)
Lemma alertStep_counts (st : Simulation.AlertLoop) (point : SimulationPoint.t) :
  let st' := Simulation.alertStep catName careRoutine idealRange st point in
  Simulation.previousStatus st' = SimulationPoint.healthStatus point
  /\ List.length (filter isRiskyAlert (Simulation.pushed st'))
     = (List.length (filter isRiskyAlert (Simulation.pushed st))
        + riskyEntries (Simulation.previousStatus st)
            [SimulationPoint.healthStatus point])%nat
  /\ List.length (filter isUnhealthyAlert (Simulation.pushed st'))
     = (List.length (filter isUnhealthyAlert (Simulation.pushed st))
        + unhealthyEntries (Simulation.previousStatus st)
            [SimulationPoint.healthStatus point])%nat.
Proof.
  intro st'. subst st'. unfold Simulation.alertStep. cbv zeta.
  split; [reflexivity|].
  cbn [Simulation.pushed Simulation.previousStatus].
  rewrite !count_push.
  autorewrite with alert_ids.
  destruct (SimulationPoint.healthStatus point), (Simulation.previousStatus st);
    simpl; lia.
Qed.

(** The counts after the whole loop, from any state of its variables. *)
Lemma alertLoop_counts (points : list SimulationPoint.t) :
  forall st : Simulation.AlertLoop,
    let st' :=
      fold_left (Simulation.alertStep catName careRoutine idealRange) points st in
    List.length (filter isRiskyAlert (Simulation.pushed st'))
    = (List.length (filter isRiskyAlert (Simulation.pushed st))
       + riskyEntries (Simulation.previousStatus st)
           (map SimulationPoint.healthStatus points))%nat
    /\ List.length (filter isUnhealthyAlert (Simulation.pushed st'))
       = (List.length (filter isUnhealthyAlert (Simulation.pushed st))
          + unhealthyEntries (Simulation.previousStatus st)
              (map SimulationPoint.healthStatus points))%nat.
Proof.
  induction points as [|p points IH]; intro st; cbv zeta.
  - simpl. split; lia.
  - cbn [fold_left map].
    destruct (alertStep_counts st p) as [Hprev [Hr Hu]].
    destruct (IH (Simulation.alertStep catName careRoutine idealRange st p))
      as [IHr IHu].
    rewrite IHr, IHu, Hr, Hu, Hprev.
    cbn [riskyEntries unhealthyEntries]. split; lia.
Qed.

End AlertLoopCounts.

Lemma filter_permutation {A : Type} (f : A -> bool) (l l' : list A) :
  Permutation l l' -> Permutation (filter f l) (filter f l').
Proof.
  intro H. induction H; simpl.
  - constructor.
  - destruct (f x); [constructor|]; assumption.
  - destruct (f x), (f y); try apply Permutation_refl. constructor.
  - eapply Permutation_trans; eassumption.
Qed.

Lemma filter_push {A : Type} (f : A -> bool) (l : list A) (b : bool) (x : A) :
  filter f (if b then (l ++ [x])%list else l)
  = (filter f l ++ if b && f x then [x] else [])%list.
Proof.
  destruct b; simpl; [|symmetry; apply app_nil_r].
  rewrite filter_app. simpl. destruct (f x); reflexivity.
Qed.

Section AlertLoopEntries.

Variable catName : string.
Variable careRoutine : CareRoutine.t.
Variable idealRange : BreedHealthData.Range.

(** The status alerts one iteration of the loop adds. *)
Lemma alertStep_entries (st : Simulation.AlertLoop) (point : SimulationPoint.t) :
  let st' := Simulation.alertStep catName careRoutine idealRange st point in
  filter isRiskyAlert (Simulation.pushed st')
  = (filter isRiskyAlert (Simulation.pushed st)
     ++ map (Simulation.riskyAlert catName)
          (riskyEntryPoints (Simulation.previousStatus st) [point]))%list
  /\ filter isUnhealthyAlert (Simulation.pushed st')
     = (filter isUnhealthyAlert (Simulation.pushed st)
        ++ map (Simulation.unhealthyAlert catName)
             (unhealthyEntryPoints (Simulation.previousStatus st) [point]))%list.
Proof.
  intro st'. subst st'. unfold Simulation.alertStep. cbv zeta.
  cbn [Simulation.pushed Simulation.previousStatus].
  rewrite !filter_push.
  rewrite !riskyAlert_isRisky, !riskyAlert_isUnhealthy, !unhealthyAlert_isRisky,
    !unhealthyAlert_isUnhealthy, !weightAlert_isRisky, !weightAlert_isUnhealthy,
    !vetAlert_isRisky, !vetAlert_isUnhealthy, !andb_false_r, !andb_true_r.
  cbn [riskyEntryPoints unhealthyEntryPoints].
  destruct (SimulationPoint.healthStatus point), (Simulation.previousStatus st);
    simpl; rewrite ?app_nil_r; split; reflexivity.
Qed.

(** The status alerts of the whole loop, from any state of its variables. *)
Lemma alertLoop_entries (points : list SimulationPoint.t) :
  forall st : Simulation.AlertLoop,
    let st' :=
      fold_left (Simulation.alertStep catName careRoutine idealRange) points st in
    filter isRiskyAlert (Simulation.pushed st')
    = (filter isRiskyAlert (Simulation.pushed st)
       ++ map (Simulation.riskyAlert catName)
            (riskyEntryPoints (Simulation.previousStatus st) points))%list
    /\ filter isUnhealthyAlert (Simulation.pushed st')
       = (filter isUnhealthyAlert (Simulation.pushed st)
          ++ map (Simulation.unhealthyAlert catName)
               (unhealthyEntryPoints (Simulation.previousStatus st) points))%list.
Proof.
  induction points as [|p points IH]; intro st; cbv zeta.
  - simpl. rewrite !app_nil_r. split; reflexivity.
  - cbn [fold_left].
    destruct (alertStep_counts catName careRoutine idealRange st p) as [Hprev _].
    destruct (alertStep_entries st p) as [Hr Hu].
    destruct (IH (Simulation.alertStep catName careRoutine idealRange st p))
      as [IHr IHu].
    rewrite IHr, IHu, Hr, Hu, Hprev.
    cbn [riskyEntryPoints unhealthyEntryPoints].
    rewrite !app_nil_r, !map_app, <- !app_assoc. split; reflexivity.
Qed.

End AlertLoopEntries.

(** C3, as the code has it: [generateAlerts] compares each point with the
    one before it (with "thriving" before the first point).  It emits one
    risky alert, of severity warning and at the month of the point, for
    every point at which the status enters "risky" from thriving or ok,
    and one unhealthy alert, of severity critical and at the month of the
    point, for every point at which it enters "unhealthy" from a better
    status; so a status entered again after a recovery is reported
    again. *)
Theorem generateAlerts_status_transitions
  (points : list SimulationPoint.t) (catProfile : CatProfile.t)
  (careRoutine : CareRoutine.t) (idealRange : BreedHealthData.Range) :
  let alerts := Simulation.generateAlerts points catProfile careRoutine idealRange in
  List.length (filter isRiskyAlert alerts)
  = riskyEntries thriving (map SimulationPoint.healthStatus points)
  /\ List.length (filter isUnhealthyAlert alerts)
     = unhealthyEntries thriving (map SimulationPoint.healthStatus points)
  /\ Permutation (map monthAndSeverity (filter isRiskyAlert alerts))
       (map (raisedAt warning) (riskyEntryPoints thriving points))
  /\ Permutation (map monthAndSeverity (filter isUnhealthyAlert alerts))
       (map (raisedAt critical) (unhealthyEntryPoints thriving points)).
Proof.
  intro alerts. subst alerts. unfold Simulation.generateAlerts.
  assert (Hcounts :
    List.length (filter isRiskyAlert
                   (Simulation.unsortedAlerts points catProfile careRoutine idealRange))
    = riskyEntries thriving (map SimulationPoint.healthStatus points)
    /\ List.length (filter isUnhealthyAlert
                      (Simulation.unsortedAlerts points catProfile careRoutine
                         idealRange))
       = unhealthyEntries thriving (map SimulationPoint.healthStatus points)).
  { unfold Simulation.unsortedAlerts. cbv zeta.
    rewrite !filter_app, !length_app.
    rewrite (proj1 (milestoneAlert_not_status _ _ _)).
    rewrite (proj2 (milestoneAlert_not_status _ _ _)).
    match goal with
    | |- context [fold_left ?f points ?st] =>
        destruct (alertLoop_counts (catName_of catProfile) careRoutine idealRange
                    points st) as [Hr Hu]
    end.
    rewrite Hr, Hu. simpl. split; lia. }
  assert (Hentries :
    filter isRiskyAlert
      (Simulation.unsortedAlerts points catProfile careRoutine idealRange)
    = map (Simulation.riskyAlert (catName_of catProfile))
        (riskyEntryPoints thriving points)
    /\ filter isUnhealthyAlert
         (Simulation.unsortedAlerts points catProfile careRoutine idealRange)
       = map (Simulation.unhealthyAlert (catName_of catProfile))
           (unhealthyEntryPoints thriving points)).
  { unfold Simulation.unsortedAlerts. cbv zeta.
    rewrite !filter_app.
    rewrite (proj1 (milestoneAlert_not_status _ _ _)).
    rewrite (proj2 (milestoneAlert_not_status _ _ _)).
    match goal with
    | |- context [fold_left ?f points ?st] =>
        destruct (alertLoop_entries (catName_of catProfile) careRoutine idealRange
                    points st) as [Hr Hu]
    end.
    rewrite Hr, Hu. simpl. rewrite !app_nil_r. split; reflexivity. }
  destruct Hcounts as [Cr Cu]. destruct Hentries as [Er Eu].
  rewrite !(filter_length_permutation _ _ _ (sort_by_permutation _ _)).
  split; [exact Cr|]. split; [exact Cu|]. split.
  - eapply Permutation_trans.
    + apply Permutation_map, filter_permutation, sort_by_permutation.
    + rewrite Er, map_map. apply Permutation_refl.
  - eapply Permutation_trans.
    + apply Permutation_map, filter_permutation, sort_by_permutation.
    + rewrite Eu, map_map. apply Permutation_refl.
Qed.

(** A cat that is risky, recovers and is risky again gets two risky
    alerts, and likewise for unhealthy: the alerts are not at most one
    per category. *)
Lemma generateAlerts_fires_again_after_recovery :
  ~ ((List.length
        (filter isRiskyAlert
           (Simulation.generateAlerts riskyTwice exampleProfile exampleRoutine
              exampleRange)) <= 1)%nat
     /\ (List.length
           (filter isUnhealthyAlert
              (Simulation.generateAlerts unhealthyTwice exampleProfile exampleRoutine
                 exampleRange)) <= 1)%nat).
Proof.
  intros [H _]. vm_compute in H. lia.
Qed.

(** ** Breed-specific alerts *)

Lemma generateBreedSpecificAlerts_permutation
  (catProfile : CatProfile.t) (careRoutine : CareRoutine.t)
  (points : list SimulationPoint.t) :
  let breedProfile := BreedHealthData.findBreedProfile (CatProfile.breed catProfile) in
  let startAge := nullish (CatProfile.ageYears catProfile) 1%Z in
  Permutation
    (SimulationEnhancer.generateBreedSpecificAlerts catProfile careRoutine points)
    (flat_map
       (SimulationEnhancer.riskAlerts (catName_of catProfile) breedProfile startAge)
       (BreedHealthData.healthRisks breedProfile)
     ++ flat_map
          (SimulationEnhancer.screeningAlerts (catName_of catProfile) startAge)
          (BreedHealthData.screeningSchedule breedProfile))%list.
Proof.
  intros breedProfile startAge.
  unfold SimulationEnhancer.generateBreedSpecificAlerts.
  apply sort_by_permutation.
Qed.

Lemma riskAlert_generated
  (catProfile : CatProfile.t) (careRoutine : CareRoutine.t)
  (points : list SimulationPoint.t) (risk : BreedHealthData.HealthRisk)
  (a : SimulationAlert.t) :
  let breedProfile := BreedHealthData.findBreedProfile (CatProfile.breed catProfile) in
  In risk (BreedHealthData.healthRisks breedProfile) ->
  In a (SimulationEnhancer.riskAlerts (catName_of catProfile) breedProfile
          (nullish (CatProfile.ageYears catProfile) 1%Z) risk) ->
  In a (SimulationEnhancer.generateBreedSpecificAlerts catProfile careRoutine points).
Proof.
  intros breedProfile Hrisk Ha.
  apply Permutation_in
    with (l := (flat_map
                  (SimulationEnhancer.riskAlerts (catName_of catProfile) breedProfile
                     (nullish (CatProfile.ageYears catProfile) 1%Z))
                  (BreedHealthData.healthRisks breedProfile)
                ++ flat_map
                     (SimulationEnhancer.screeningAlerts (catName_of catProfile)
                        (nullish (CatProfile.ageYears catProfile) 1%Z))
                     (BreedHealthData.screeningSchedule breedProfile))%list).
  - apply Permutation_sym. apply generateBreedSpecificAlerts_permutation.
  - apply in_or_app. left. apply in_flat_map. exists risk. split; assumption.
Qed.

Lemma startsWith_prefix (s t : string) : JS.startsWith (s ++ t) s = true.
Proof.
  induction s as [|c s IH]; simpl; [reflexivity|].
  rewrite Ascii.eqb_refl. exact IH.
Qed.

Lemma startsWith_append (p s s' : string) :
  JS.startsWith s s' = true -> JS.startsWith (p ++ s) (p ++ s') = true.
Proof.
  intro H. induction p as [|c p IH]; simpl; [exact H|].
  rewrite Ascii.eqb_refl. exact IH.
Qed.

Lemma preWarningMonth_is_onset (onsetMonth startMonth : Q) :
  startMonth <= onsetMonth ->
  (JS.Math_max (onsetMonth - 12) startMonth == onsetMonth <-> onsetMonth == startMonth).
Proof.
  intro Hle. unfold JS.Math_max.
  destruct (JS.Qltb (onsetMonth - 12) startMonth) eqn:E.
  - split; intro H; lra.
  - apply Qltb_ge in E. split; intro H; lra.
Qed.

(** What each health risk of the resolved breed contributes, in terms of
    the start month the generator uses, 12 * (ageYears ?? 1): an onset
    alert at the onset month when that month is not before the start,
    and a pre-warning a year earlier, clamped to the start, unless the
    onset month is the start itself. *)
Lemma riskAlerts_per_risk
  (catProfile : CatProfile.t) (careRoutine : CareRoutine.t)
  (points : list SimulationPoint.t) (risk : BreedHealthData.HealthRisk) :
  let breedProfile := BreedHealthData.findBreedProfile (CatProfile.breed catProfile) in
  let catName := catName_of catProfile in
  let startAge := nullish (CatProfile.ageYears catProfile) 1%Z in
  let startMonth := inject_Z startAge * 12 in
  let onsetMonth := BreedHealthData.typicalOnsetYears risk * 12 in
  let preWarningMonth := JS.Math_max (onsetMonth - 12) startMonth in
  let alerts :=
    SimulationEnhancer.generateBreedSpecificAlerts catProfile careRoutine points in
  let onset := SimulationEnhancer.onsetAlert breedProfile risk onsetMonth in
  let preWarning :=
    SimulationEnhancer.preWarningAlert catName breedProfile risk preWarningMonth in
  In risk (BreedHealthData.healthRisks breedProfile) ->
  startMonth <= onsetMonth ->
  (In onset alerts
   /\ isOnsetFor risk onset = true
   /\ SimulationAlert.ageMonths onset = onsetMonth
   /\ (SimulationAlert.severity onset = critical
       <-> BreedHealthData.riskLevel risk = BreedHealthData.high)
   /\ (SimulationAlert.severity onset = warning
       <-> BreedHealthData.riskLevel risk <> BreedHealthData.high))
  /\ (~ onsetMonth == startMonth ->
      In preWarning alerts
      /\ isPreWarningFor risk preWarning = true
      /\ SimulationAlert.ageMonths preWarning = preWarningMonth
      /\ (startMonth <= onsetMonth - 12 -> preWarningMonth == onsetMonth - 12)
      /\ (onsetMonth - 12 <= startMonth -> preWarningMonth == startMonth)
      /\ SimulationEnhancer.riskAlerts catName breedProfile startAge risk
         = [preWarning; onset])
  /\ (onsetMonth == startMonth ->
      SimulationEnhancer.riskAlerts catName breedProfile startAge risk = [onset])
  /\ Permutation alerts
       (flat_map (SimulationEnhancer.riskAlerts catName breedProfile startAge)
          (BreedHealthData.healthRisks breedProfile)
        ++ flat_map (SimulationEnhancer.screeningAlerts catName startAge)
             (BreedHealthData.screeningSchedule breedProfile))%list.
Proof.
  intros breedProfile catName startAge startMonth onsetMonth preWarningMonth
         alerts onset preWarning Hrisk Hle.
  assert (Hstart : JS.Qleb startMonth onsetMonth = true) by (apply Qleb_le; exact Hle).
  assert (Hcontrib :
    SimulationEnhancer.riskAlerts catName breedProfile startAge risk
    = ((if negb (JS.Qeqb preWarningMonth onsetMonth) then [preWarning] else [])
       ++ [onset])%list).
  { unfold SimulationEnhancer.riskAlerts. cbv zeta.
    fold startMonth onsetMonth. rewrite Hstart. reflexivity. }
  split; [|split; [|split]].
  - split.
    + apply riskAlert_generated with (risk := risk); [exact Hrisk|].
      fold breedProfile catName startAge. rewrite Hcontrib.
      apply in_or_app. right. left. reflexivity.
    + split.
      * unfold isOnsetFor, onset, SimulationEnhancer.onsetAlert.
        cbn [SimulationAlert.id].
        apply startsWith_append, startsWith_append, startsWith_prefix.
      * split; [reflexivity|].
        unfold onset, SimulationEnhancer.onsetAlert. cbn [SimulationAlert.severity].
        destruct (BreedHealthData.riskLevel risk); split; split;
          intros; try reflexivity; try discriminate; congruence.
  - intro Hne.
    assert (Hneq : JS.Qeqb preWarningMonth onsetMonth = false).
    { destruct (JS.Qeqb preWarningMonth onsetMonth) eqn:E; trivial.
      apply Qeqb_eq in E. exfalso. apply Hne.
      apply (preWarningMonth_is_onset onsetMonth startMonth Hle). exact E. }
    rewrite Hneq in Hcontrib. simpl in Hcontrib.
    split.
    + apply riskAlert_generated with (risk := risk); [exact Hrisk|].
      fold breedProfile catName startAge. rewrite Hcontrib. left. reflexivity.
    + split.
      * unfold isPreWarningFor, preWarning, SimulationEnhancer.preWarningAlert.
        cbn [SimulationAlert.id].
        apply startsWith_append, startsWith_append, startsWith_prefix.
      * split; [reflexivity|].
        split; [|split; [|exact Hcontrib]].
        -- intro H. subst preWarningMonth. unfold JS.Math_max.
           destruct (JS.Qltb (onsetMonth - 12) startMonth) eqn:E.
           ++ apply Qltb_lt in E. lra.
           ++ reflexivity.
        -- intro H. subst preWarningMonth. unfold JS.Math_max.
           destruct (JS.Qltb (onsetMonth - 12) startMonth) eqn:E.
           ++ reflexivity.
           ++ apply Qltb_ge in E. lra.
  - intro Heq.
    assert (Heqb : JS.Qeqb preWarningMonth onsetMonth = true).
    { apply Qeqb_eq. apply (preWarningMonth_is_onset onsetMonth startMonth Hle).
      exact Heq. }
    rewrite Heqb in Hcontrib. exact Hcontrib.
  - apply generateBreedSpecificAlerts_permutation.
Qed.

(** C8, as the code has it by design, for a cat whose age is a whole
    number of years (ageMonths null or 0), so that the start month of the
    generator is the first simulated month: for every health risk of the
    resolved breed whose onset month (typicalOnsetYears * 12) is not
    before the simulation start, the breed-specific alerts contain an
    onset alert at the exact onset month, critical exactly when the risk
    level is high and a warning otherwise; and, unless the onset month is
    the simulation start itself, a pre-warning alert one year before the
    onset, clamped to the simulation start.  When the onset month is the
    simulation start the risk contributes the onset alert alone.  The
    alerts returned are those contributions and the screening alerts,
    reordered by age. *)
Theorem generateBreedSpecificAlerts_per_risk
  (catProfile : CatProfile.t) (careRoutine : CareRoutine.t)
  (points : list SimulationPoint.t) (risk : BreedHealthData.HealthRisk) :
  let breedProfile := BreedHealthData.findBreedProfile (CatProfile.breed catProfile) in
  let catName := catName_of catProfile in
  let startAge := nullish (CatProfile.ageYears catProfile) 1%Z in
  let startMonth := inject_Z (SimulationEntryPoints.startAge catProfile) in
  let onsetMonth := BreedHealthData.typicalOnsetYears risk * 12 in
  let preWarningMonth := JS.Math_max (onsetMonth - 12) startMonth in
  let alerts :=
    SimulationEnhancer.generateBreedSpecificAlerts catProfile careRoutine points in
  let onset := SimulationEnhancer.onsetAlert breedProfile risk onsetMonth in
  let preWarning :=
    SimulationEnhancer.preWarningAlert catName breedProfile risk preWarningMonth in
  nullish (CatProfile.ageMonths catProfile) 0%Z = 0%Z ->
  In risk (BreedHealthData.healthRisks breedProfile) ->
  startMonth <= onsetMonth ->
  (In onset alerts
   /\ isOnsetFor risk onset = true
   /\ SimulationAlert.ageMonths onset = onsetMonth
   /\ (SimulationAlert.severity onset = critical
       <-> BreedHealthData.riskLevel risk = BreedHealthData.high)
   /\ (SimulationAlert.severity onset = warning
       <-> BreedHealthData.riskLevel risk <> BreedHealthData.high))
  /\ (~ onsetMonth == startMonth ->
      In preWarning alerts
      /\ isPreWarningFor risk preWarning = true
      /\ SimulationAlert.ageMonths preWarning = preWarningMonth
      /\ (startMonth <= onsetMonth - 12 -> preWarningMonth == onsetMonth - 12)
      /\ (onsetMonth - 12 <= startMonth -> preWarningMonth == startMonth)
      /\ SimulationEnhancer.riskAlerts catName breedProfile startAge risk
         = [preWarning; onset])
  /\ (onsetMonth == startMonth ->
      SimulationEnhancer.riskAlerts catName breedProfile startAge risk = [onset])
  /\ Permutation alerts
       (flat_map (SimulationEnhancer.riskAlerts catName breedProfile startAge)
          (BreedHealthData.healthRisks breedProfile)
        ++ flat_map (SimulationEnhancer.screeningAlerts catName startAge)
             (BreedHealthData.screeningSchedule breedProfile))%list.
Proof.
  intros breedProfile catName startAge startMonth onsetMonth preWarningMonth
         alerts onset preWarning Hwhole.
  subst preWarning preWarningMonth startMonth.
  unfold SimulationEntryPoints.startAge. rewrite Hwhole, Z.add_0_r.
  fold startAge. change (inject_Z (startAge * 12)) with (inject_Z startAge * 12).
  apply riskAlerts_per_risk.
Qed.

(** The start month of the generator leaves the months of the age out:
    for a Maine Coon aged three years and six months, whose first
    simulated month is 42, the pre-warning of hypertrophic cardiomyopathy
    is placed at month 36. *)
Lemma preWarning_before_first_simulated_month :
  SimulationEntryPoints.startAge maineCoonAgedThreeAndHalf = 42%Z
  /\ existsb
       (fun a => isPreWarningFor maineCoonHCM a
                 && JS.Qeqb (SimulationAlert.ageMonths a) 36)
       (SimulationEnhancer.generateBreedSpecificAlerts maineCoonAgedThreeAndHalf
          exampleRoutine (pointsWithStatuses 42 [thriving]))
     = true.
Proof. split; vm_compute; reflexivity. Qed.

Lemma generateBreedSpecificAlerts_per_risk_witness :
  hasAlertPair exampleProfile exampleRoutine thrivingThenOk maineCoonHCM.
Proof.
  destruct (generateBreedSpecificAlerts_per_risk exampleProfile exampleRoutine
              thrivingThenOk maineCoonHCM) as [[Hin [Hon _]] [Hpre _]].
  - reflexivity.
  - left. reflexivity.
  - vm_compute. discriminate.
  - destruct Hpre as [Hpin [Hpid _]].
    + intro H. vm_compute in H. discriminate.
    + eexists. eexists. split; [exact Hpin|]. split; [exact Hin|].
      split; [exact Hpid | exact Hon].
Defined.

(** For a Maine Coon aged exactly four years, hypertrophic cardiomyopathy
    (onset at four years, month 48, the first simulated month) gets its
    onset alert and no pre-warning alert. *)
Lemma no_preWarning_when_onset_is_start :
  ~ (In maineCoonHCM
        (BreedHealthData.healthRisks
           (BreedHealthData.findBreedProfile (CatProfile.breed maineCoonAgedFour)))
     -> 48 <= BreedHealthData.typicalOnsetYears maineCoonHCM * 12 <= 240
     -> hasAlertPair maineCoonAgedFour exampleRoutine
          (pointsWithStatuses 48 [thriving]) maineCoonHCM).
Proof.
  intro H.
  destruct H as [preWarning [onset [Hin [_ [Hid _]]]]].
  - left. reflexivity.
  - split; vm_compute; discriminate.
  - assert (Hnone :
      forallb (fun a => negb (isPreWarningFor maineCoonHCM a))
        (SimulationEnhancer.generateBreedSpecificAlerts maineCoonAgedFour
           exampleRoutine (pointsWithStatuses 48 [thriving])) = true)
      by (vm_compute; reflexivity).
    rewrite forallb_forall in Hnone. specialize (Hnone preWarning Hin).
    rewrite Hid in Hnone. discriminate.
Qed.

(** ** The trajectory simulator *)

Lemma monthsFrom_cons (start : Z) (n : nat) :
  monthsFrom start (S n) = start :: monthsFrom (start + 1) n.
Proof.
  unfold monthsFrom. simpl. f_equal.
  - lia.
  - rewrite <- seq_shift, map_map. apply map_ext. intro i. lia.
Qed.

Lemma simulateMonth_age (catName : string) (careRoutine : CareRoutine.t)
  (hasKnownConditions : bool) (idealRange : BreedHealthData.Range)
  (calorieProxy : Q) (startAgeMonths month : Z) (rnd currentWeight : Q) :
  SimulationPoint.ageMonths
    (snd (Simulation.simulateMonth catName careRoutine hasKnownConditions idealRange
            calorieProxy startAgeMonths month rnd currentWeight))
  = month.
Proof. reflexivity. Qed.

Section MonthlyLoop.

Variable step : Z -> Q -> Q -> Q * SimulationPoint.t.
Variable random : nat -> Q.
Variable endAgeMonths : Z.

Hypothesis step_age :
  forall month rnd w, SimulationPoint.ageMonths (snd (step month rnd w)) = month.

Hypothesis step_floor :
  forall month rnd w,
    1.5 <= fst (step month rnd w)
    /\ 1.5 <= SimulationPoint.weightKgEstimate (snd (step month rnd w)).

(** The loop makes one iteration per month up to [endAgeMonths]. *)
Lemma monthlyLoop_ages :
  forall (fuel : nat) (month : Z) (calls : nat) (currentWeight : Q),
    Z.of_nat fuel = (endAgeMonths - month + 1)%Z ->
    map SimulationPoint.ageMonths
      (Simulation.monthlyLoop step random endAgeMonths fuel month calls currentWeight)
    = monthsFrom month fuel.
Proof.
  induction fuel as [|fuel IH]; intros month calls w Hfuel.
  - reflexivity.
  - rewrite monthsFrom_cons. cbn [Simulation.monthlyLoop].
    assert (Hle : (month <=? endAgeMonths)%Z = true) by (apply Z.leb_le; lia).
    rewrite Hle.
    pose proof (step_age month (random calls) w) as Hage.
    destruct (step month (random calls) w) as [w' point]. simpl in Hage.
    cbn [map]. rewrite Hage. f_equal.
    apply IH. lia.
Qed.

(** Every point the loop pushes is at or above the floor. *)
Lemma monthlyLoop_floor :
  forall (fuel : nat) (month : Z) (calls : nat) (currentWeight : Q),
    Forall (fun p => 1.5 <= SimulationPoint.weightKgEstimate p)
      (Simulation.monthlyLoop step random endAgeMonths fuel month calls currentWeight).
Proof.
  induction fuel as [|fuel IH]; intros month calls w.
  - constructor.
  - cbn [Simulation.monthlyLoop].
    destruct (month <=? endAgeMonths)%Z; [|constructor].
    pose proof (step_floor month (random calls) w) as [_ Hpoint].
    destruct (step month (random calls) w) as [w' point].
    constructor; [exact Hpoint | apply IH].
Qed.

End MonthlyLoop.

(** The only breeds without an ideal weight range are those whose
    normalised name is a property inherited from [Object.prototype]. *)
Lemma getIdealWeightRange_undefined (breed : option string) :
  Simulation.getIdealWeightRange breed = None ->
  exists b,
    breed = Some b
    /\ In (JS.trim (JS.toLowerCase b)) JS.object_prototype_keys.
Proof.
  unfold Simulation.getIdealWeightRange.
  destruct (negb _); [discriminate|].
  destruct breed as [[|c b]|]; try discriminate.
  unfold JS.get_property.
  destruct (JS.own_property _ _); [discriminate|].
  destruct (existsb _ JS.object_prototype_keys) eqn:E; [|discriminate].
  intros _. exists (String c b). split; [reflexivity|].
  apply existsb_exists in E. destruct E as [k [Hin Hk]].
  apply String.eqb_eq in Hk. rewrite Hk. exact Hin.
Qed.

(** One point per month: for every profile that has an ideal weight
    range and every start not after the end, the run returns, and its
    points are those of the months from start to end, in order. *)
Lemma runSimulation_one_point_per_month (config : SimulationConfig.t)
  (random : nat -> Q) :
  Simulation.getIdealWeightRange
    (CatProfile.breed (SimulationConfig.catProfile config)) <> None ->
  (SimulationConfig.startAgeMonths config <= SimulationConfig.endAgeMonths config)%Z ->
  exists result,
    Simulation.runSimulation config random = JS.Returned result
    /\ Z.of_nat (List.length (SimulationResult.points result))
       = (SimulationConfig.endAgeMonths config
          - SimulationConfig.startAgeMonths config + 1)%Z
    /\ map SimulationPoint.ageMonths (SimulationResult.points result)
       = monthsFrom (SimulationConfig.startAgeMonths config)
           (Z.to_nat (SimulationConfig.endAgeMonths config
                      - SimulationConfig.startAgeMonths config + 1)).
Proof.
  intros Hrange Hle. unfold Simulation.runSimulation. cbv zeta.
  destruct (Simulation.getIdealWeightRange _) as [idealRange|]; [|congruence].
  destruct (Simulation.generateSummary _ _ _ _ _) as [summary recommendations] eqn:Es.
  eexists. split; [reflexivity|].
  cbn [SimulationResult.points].
  match goal with
  | |- context [Simulation.monthlyLoop ?step _ _ _ _ _ ?w] =>
      pose proof (monthlyLoop_ages step random
                    (SimulationConfig.endAgeMonths config)
                    (fun m r w' => eq_refl)
                    (Simulation.monthlyLoop_fuel
                       (SimulationConfig.startAgeMonths config)
                       (SimulationConfig.endAgeMonths config))
                    (SimulationConfig.startAgeMonths config) O w) as Hages
  end.
  unfold Simulation.monthlyLoop_fuel in *.
  specialize (Hages ltac:(lia)).
  split; [|exact Hages].
  rewrite <- (length_map SimulationPoint.ageMonths), Hages.
  unfold monthsFrom. rewrite length_map, length_seq. lia.
Qed.

Example runSimulation_four_months :
  map SimulationPoint.ageMonths
    (Simulation.points_of (Simulation.runSimulation fourMonthsConfig (fun _ => 1 # 2)))
  = [12; 13; 14; 15]%Z.
Proof. vm_compute. reflexivity. Qed.

(** C1 at the failing input: for the breed "constructor" the lookup
    [FALLBACK_BREED_SIZES[normalizedBreed]] finds the constructor
    inherited from [Object.prototype] instead of falling back to
    "default", the ideal weight range is undefined, and [runSimulation]
    throws instead of returning its 229 points. *)
Theorem runSimulation_throws_on_inherited_key (random : nat -> Q) :
  BreedHealthData.findBreedProfile (Some "constructor")
  = BreedHealthData.domesticShorthair
  /\ JS.get_property Simulation.FALLBACK_BREED_SIZES "constructor" = JS.Inherited
  /\ Simulation.getIdealWeightRange (Some "constructor") = None
  /\ Simulation.runSimulation constructorConfig random
     = JS.Threw "TypeError: Cannot read properties of undefined (reading 'min')"
  /\ Simulation.points_of (Simulation.runSimulation constructorConfig random) = [].
Proof.
  repeat split; vm_compute; reflexivity.
Qed.

Lemma database_roomForFloor :
  forall profile,
    In profile BreedHealthData.BREED_HEALTH_DATABASE ->
    roomForFloor (BreedHealthData.idealWeight profile) = true.
Proof.
  apply forallb_forall. vm_compute. reflexivity.
Qed.

Lemma getIdealWeightRange_roomForFloor (breed : option string)
  (idealRange : BreedHealthData.Range) :
  Simulation.getIdealWeightRange breed = Some idealRange ->
  1.5 <= BreedHealthData.max idealRange
  /\ 1.5 <= BreedHealthData.min idealRange * 0.8.
Proof.
  intro H.
  assert (Hroom : roomForFloor idealRange = true).
  { unfold Simulation.getIdealWeightRange in H.
    destruct (negb _).
    - injection H as <-. apply database_roomForFloor.
      apply findBreedProfile_in_database.
    - destruct breed as [[|c b]|];
        try (injection H as <-; vm_compute; reflexivity).
      destruct (JS.get_property _ _) as [size| |];
        try discriminate; injection H as <-;
        try destruct size; vm_compute; reflexivity. }
  unfold roomForFloor in Hroom. apply andb_true_iff in Hroom.
  destruct Hroom as [H1 H2]. split; apply Qleb_le; assumption.
Qed.

Lemma rounded_weight_floor (w : Q) :
  1.5 <= w -> 1.5 <= inject_Z (JS.Math_round (w * 100)) / 100.
Proof.
  intro H. unfold JS.Math_round.
  assert (Hfloor : (150 <= Qfloor (w * 100 + (1 # 2)))%Z).
  { rewrite <- (Qfloor_Z 150). apply Qfloor_resp_le.
    change (inject_Z 150) with (150 # 1). lra. }
  assert (HQ : 150 # 1 <= inject_Z (Qfloor (w * 100 + (1 # 2)))).
  { change (150 # 1) with (inject_Z 150). rewrite <- Zle_Qle. exact Hfloor. }
  apply Qle_shift_div_l; [reflexivity|].
  eapply Qle_trans; [|exact HQ]. vm_compute. discriminate.
Qed.

(** One month of simulation keeps the weight, and the rounded estimate
    of the point, at or above 1.5 kg. *)
Lemma simulateMonth_floor (catName : string) (careRoutine : CareRoutine.t)
  (hasKnownConditions : bool) (idealRange : BreedHealthData.Range)
  (calorieProxy : Q) (startAgeMonths month : Z) (rnd currentWeight : Q) :
  1.5 <= BreedHealthData.max idealRange ->
  1.5 <= BreedHealthData.min idealRange * 0.8 ->
  let next :=
    Simulation.simulateMonth catName careRoutine hasKnownConditions idealRange
      calorieProxy startAgeMonths month rnd currentWeight in
  1.5 <= fst next /\ 1.5 <= SimulationPoint.weightKgEstimate (snd next).
Proof.
  intros Hmax Hmin next.
  assert (Hw : 1.5 <= fst next).
  { subst next. unfold Simulation.simulateMonth. cbv zeta. cbn [fst].
    pose proof (Math_max_lub_l 1.5
                  (currentWeight + calorieProxy * 0.02 + (rnd - 0.5) * 0.05)) as H1.
    destruct (month <? 12)%Z.
    - apply Math_min_glb; [lra | exact Hmax].
    - destruct (month >? Simulation.LIFE_STAGES.senior_end)%Z.
      + eapply Qle_trans; [exact Hmin | apply Math_max_lub_r].
      + exact H1. }
  split; [exact Hw|].
  subst next. unfold Simulation.simulateMonth in *. cbv zeta in *.
  cbn [fst snd SimulationPoint.weightKgEstimate] in *.
  apply rounded_weight_floor. exact Hw.
Qed.

(** C2: whatever the profile, the routine, the age range and the values
    drawn by [Math.random()], every point returned by [runSimulation] has
    a weight estimate of at least 1.5 kg: the floor survives the juvenile
    clamp toward [idealRange.max], the senior decline toward
    [0.8 * idealRange.min] and the rounding to two decimals. *)
Theorem runSimulation_weight_floor (config : SimulationConfig.t) (random : nat -> Q) :
  Forall (fun p => 1.5 <= SimulationPoint.weightKgEstimate p)
    (Simulation.points_of (Simulation.runSimulation config random)).
Proof.
  unfold Simulation.runSimulation. cbv zeta.
  destruct (Simulation.getIdealWeightRange _) as [idealRange|] eqn:Er;
    [|constructor].
  destruct (getIdealWeightRange_roomForFloor _ _ Er) as [Hmax Hmin].
  destruct (Simulation.generateSummary _ _ _ _ _) as [summary recommendations].
  cbn [Simulation.points_of SimulationResult.points].
  apply monthlyLoop_floor.
  intros month rnd w. apply simulateMonth_floor; assumption.
Qed.

(** * Further properties of the code *)

(** ** Sorting, indexed filtering and searching *)

Section SortBy.

Context {A : Type}.
Variable key : A -> Q.

Let le_key (a b : A) : Prop := key a <= key b.

Lemma insert_by_sorted (x : A) (l : list A) :
  StronglySorted le_key l -> StronglySorted le_key (JS.insert_by key x l).
Proof.
  induction l as [|y l IH]; intro Hs; simpl.
  - constructor; constructor.
  - inversion Hs as [|y' l' Hl Hy]; subst.
    destruct (JS.Qleb (key x) (key y)) eqn:E.
    + apply Qleb_le in E. constructor; [exact Hs|].
      constructor; [exact E|].
      apply Forall_impl with (P := le_key y); [|exact Hy].
      intros z Hz. unfold le_key in *. eapply Qle_trans; eassumption.
    + constructor; [apply IH; exact Hl|].
      apply (Permutation_Forall (Permutation_sym (insert_by_permutation key x l))).
      constructor; [|exact Hy].
      unfold le_key. unfold JS.Qleb in E.
      destruct (Qlt_le_dec (key y) (key x)) as [Hlt|Hle].
      * apply Qlt_le_weak, Hlt.
      * apply Qle_bool_iff in Hle. congruence.
Qed.

Lemma sort_by_sorted (l : list A) : StronglySorted le_key (JS.sort_by key l).
Proof.
  unfold JS.sort_by. induction l as [|x l IH]; simpl.
  - constructor.
  - apply insert_by_sorted. exact IH.
Qed.

End SortBy.

Lemma find_index_from {A : Type} (p : A -> bool) (l : list A) :
  JS.find_index p l = findIndexFrom p 0 l.
Proof.
  unfold JS.find_index. generalize 0%nat.
  induction l as [|x l IH]; intro i; simpl; [reflexivity|].
  destruct (p x); [reflexivity | apply IH].
Qed.

Lemma filter_indexed_from {A : Type} (p : nat -> A -> bool) (l : list A) :
  JS.filter_indexed p l = filterIndexedFrom p 0 l.
Proof.
  unfold JS.filter_indexed. generalize 0%nat.
  induction l as [|x l IH]; intro i; simpl; [reflexivity|].
  destruct (p i x); rewrite IH; reflexivity.
Qed.

Lemma findIndexFrom_app {A : Type} (p : A -> bool) (pre : list A) (x : A)
  (rest : list A) (i : nat) :
  p x = true ->
  findIndexFrom p i (pre ++ x :: rest)
  = if existsb p pre then findIndexFrom p i pre else Some (i + List.length pre)%nat.
Proof.
  intro Hx. revert i. induction pre as [|y pre IH]; intro i; simpl.
  - rewrite Hx. f_equal. lia.
  - destruct (p y); simpl; [reflexivity|].
    rewrite IH. destruct (existsb p pre); [reflexivity|]. f_equal. lia.
Qed.

Lemma findIndexFrom_bound {A : Type} (p : A -> bool) (l : list A) (i j : nat) :
  findIndexFrom p i l = Some j -> (i <= j < i + List.length l)%nat.
Proof.
  revert i. induction l as [|x l IH]; intros i H; simpl in H; [discriminate|].
  destruct (p x).
  - injection H as <-. simpl. lia.
  - apply IH in H. simpl. lia.
Qed.

Lemma filterIndexedFrom_sublist {A : Type} (R : A -> A -> Prop)
  (p : nat -> A -> bool) (l : list A) :
  forall i,
    (forall P : A -> Prop, Forall P l -> Forall P (filterIndexedFrom p i l))
    /\ (StronglySorted R l -> StronglySorted R (filterIndexedFrom p i l)).
Proof.
  induction l as [|x l IH]; intro i; simpl.
  - split; intros; trivial.
  - destruct (IH (S i)) as [IHf IHs]. split.
    + intros P HP. inversion HP; subst.
      destruct (p i x); [constructor; trivial|]; apply IHf; assumption.
    + intro Hs. inversion Hs; subst.
      destruct (p i x); [|apply IHs; assumption].
      constructor; [apply IHs; assumption | apply IHf; assumption].
Qed.

(** ** Alerts come out in order of age *)

(** X1: the alerts of [generateAlerts] are sorted by non-decreasing age,
    whatever the points. *)
Theorem generateAlerts_sorted
  (points : list SimulationPoint.t) (catProfile : CatProfile.t)
  (careRoutine : CareRoutine.t) (idealRange : BreedHealthData.Range) :
  ageOrdered (Simulation.generateAlerts points catProfile careRoutine idealRange).
Proof.
  unfold ageOrdered, Simulation.generateAlerts. apply sort_by_sorted.
Qed.

(** X2: the breed-specific alerts are sorted by non-decreasing age, and
    so are the merged alerts of the local enhancement, after the removal
    of duplicates, whatever order the base alerts came in. *)
Theorem enhanced_alerts_sorted
  (result : SimulationResult.t) (catProfile : CatProfile.t)
  (careRoutine : CareRoutine.t) :
  ageOrdered
    (SimulationEnhancer.generateBreedSpecificAlerts catProfile careRoutine
       (SimulationResult.points result))
  /\ ageOrdered
       (EnhancedSimulationResult.alerts
          (SimulationEnhancer.enhanceSimulationLocally result catProfile careRoutine)).
Proof.
  split.
  - unfold ageOrdered, SimulationEnhancer.generateBreedSpecificAlerts.
    apply sort_by_sorted.
  - unfold ageOrdered, SimulationEnhancer.enhanceSimulationLocally.
    cbn [EnhancedSimulationResult.alerts].
    unfold SimulationEnhancer.dedupAlerts. rewrite filter_indexed_from.
    apply filterIndexedFrom_sublist. apply sort_by_sorted.
Qed.

(** ** Removal of duplicate alerts *)

Lemma sameAlert_refl (a : SimulationAlert.t) : SimulationEnhancer.sameAlert a a = true.
Proof.
  unfold SimulationEnhancer.sameAlert. apply andb_true_iff. split.
  - apply Qeqb_eq. reflexivity.
  - apply String.eqb_refl.
Qed.

Lemma sameAlert_sym (a b : SimulationAlert.t) :
  SimulationEnhancer.sameAlert a b = SimulationEnhancer.sameAlert b a.
Proof.
  unfold SimulationEnhancer.sameAlert. rewrite String.eqb_sym. f_equal.
  unfold JS.Qeqb.
  destruct (Qeq_bool (SimulationAlert.ageMonths a) (SimulationAlert.ageMonths b)) eqn:E1;
    destruct (Qeq_bool (SimulationAlert.ageMonths b) (SimulationAlert.ageMonths a)) eqn:E2;
    trivial.
  - apply Qeq_bool_iff in E1. symmetry in E1. apply Qeq_bool_iff in E1. congruence.
  - apply Qeq_bool_iff in E2. symmetry in E2. apply Qeq_bool_iff in E2. congruence.
Qed.

Lemma sameAlert_trans (a b c : SimulationAlert.t) :
  SimulationEnhancer.sameAlert a b = true ->
  SimulationEnhancer.sameAlert b c = true ->
  SimulationEnhancer.sameAlert a c = true.
Proof.
  unfold SimulationEnhancer.sameAlert. intros H1 H2.
  apply andb_true_iff in H1. apply andb_true_iff in H2.
  destruct H1 as [Q1 S1], H2 as [Q2 S2].
  apply andb_true_iff. split.
  - apply Qeqb_eq in Q1. apply Qeqb_eq in Q2. apply Qeqb_eq.
    rewrite Q1. exact Q2.
  - apply String.eqb_eq in S1. apply String.eqb_eq in S2. apply String.eqb_eq.
    congruence.
Qed.

(** The indexed filter of [dedupAlerts] keeps an alert exactly when no
    alert before it is of the same kind. *)
Lemma dedup_from (pre rest : list SimulationAlert.t) :
  filterIndexedFrom
    (fun index alert =>
       match JS.find_index (fun a => SimulationEnhancer.sameAlert a alert)
               (pre ++ rest) with
       | Some i => Nat.eqb index i
       | None => false
       end)
    (List.length pre) rest
  = firstOfEachKind pre rest.
Proof.
  revert pre. induction rest as [|x rest IH]; intro pre; [reflexivity|].
  cbn [filterIndexedFrom firstOfEachKind].
  rewrite find_index_from.
  rewrite (findIndexFrom_app (fun a => SimulationEnhancer.sameAlert a x) pre x rest 0
             (sameAlert_refl x)).
  assert (Hnext :
    filterIndexedFrom
      (fun index alert =>
         match JS.find_index (fun a => SimulationEnhancer.sameAlert a alert)
                 (pre ++ x :: rest) with
         | Some i => Nat.eqb index i
         | None => false
         end)
      (S (List.length pre)) rest
    = firstOfEachKind (pre ++ [x]) rest).
  { specialize (IH (pre ++ [x])%list).
    rewrite length_app in IH. simpl in IH.
    rewrite Nat.add_1_r in IH. rewrite <- app_assoc in IH. exact IH. }
  rewrite Hnext.
  destruct (existsb (fun a => SimulationEnhancer.sameAlert a x) pre) eqn:E.
  - destruct (findIndexFrom _ 0 pre) as [j|] eqn:Ej; [|reflexivity].
    apply findIndexFrom_bound in Ej.
    assert (Hneq : Nat.eqb (List.length pre) j = false) by (apply Nat.eqb_neq; lia).
    rewrite Hneq. reflexivity.
  - simpl. rewrite Nat.eqb_refl. reflexivity.
Qed.

Lemma dedupAlerts_firstOfEachKind (self : list SimulationAlert.t) :
  SimulationEnhancer.dedupAlerts self = firstOfEachKind [] self.
Proof.
  unfold SimulationEnhancer.dedupAlerts. rewrite filter_indexed_from.
  exact (dedup_from [] self).
Qed.

Lemma firstOfEachKind_unseen (seen alerts : list SimulationAlert.t)
  (a : SimulationAlert.t) :
  In a (firstOfEachKind seen alerts) ->
  In a alerts /\ existsb (fun b => SimulationEnhancer.sameAlert b a) seen = false.
Proof.
  revert seen. induction alerts as [|x rest IH]; intros seen H; simpl in H; [contradiction|].
  assert (Htail : In a (firstOfEachKind (seen ++ [x]) rest) ->
                  In a (x :: rest)
                  /\ existsb (fun b => SimulationEnhancer.sameAlert b a) seen = false).
  { intro Ht. apply IH in Ht. destruct Ht as [Hin Hex]. split; [now right|].
    rewrite existsb_app in Hex. apply orb_false_iff in Hex. apply Hex. }
  destruct (existsb (fun b => SimulationEnhancer.sameAlert b x) seen) eqn:E.
  - apply Htail, H.
  - destruct H as [<-|H]; [|apply Htail, H].
    split; [now left | exact E].
Qed.

Lemma firstOfEachKind_distinct (seen alerts : list SimulationAlert.t) :
  ForallOrdPairs (fun a b => SimulationEnhancer.sameAlert a b = false)
    (firstOfEachKind seen alerts).
Proof.
  revert seen. induction alerts as [|x rest IH]; intro seen; simpl; [constructor|].
  destruct (existsb _ seen); [apply IH|].
  constructor; [|apply IH].
  apply Forall_forall. intros y Hy.
  apply firstOfEachKind_unseen in Hy. destruct Hy as [_ Hex].
  rewrite existsb_app in Hex. apply orb_false_iff in Hex.
  destruct Hex as [_ Hx]. simpl in Hx. rewrite orb_false_r in Hx. exact Hx.
Qed.

Lemma firstOfEachKind_represents (seen alerts : list SimulationAlert.t)
  (a : SimulationAlert.t) :
  In a alerts ->
  existsb (fun b => SimulationEnhancer.sameAlert b a) seen = true
  \/ exists b, In b (firstOfEachKind seen alerts)
               /\ SimulationEnhancer.sameAlert b a = true.
Proof.
  revert seen. induction alerts as [|x rest IH]; intros seen H; [contradiction|].
  simpl.
  assert (Htail :
    existsb (fun b => SimulationEnhancer.sameAlert b a) (seen ++ [x]) = true
    \/ (exists b, In b (firstOfEachKind (seen ++ [x]) rest)
                  /\ SimulationEnhancer.sameAlert b a = true)).
  { destruct H as [<-|H].
    - left. rewrite existsb_app. simpl. rewrite sameAlert_refl.
      rewrite orb_true_r. reflexivity.
    - apply IH. exact H. }
  destruct (existsb (fun b => SimulationEnhancer.sameAlert b x) seen) eqn:E.
  - destruct Htail as [Hs|Hb]; [|right; exact Hb].
    rewrite existsb_app in Hs. apply orb_true_iff in Hs.
    destruct Hs as [Hs|Hs]; [left; exact Hs|].
    simpl in Hs. rewrite orb_false_r in Hs.
    left. apply existsb_exists in E. destruct E as [s [Hin Hsx]].
    apply existsb_exists. exists s. split; [exact Hin|].
    eapply sameAlert_trans; eassumption.
  - destruct Htail as [Hs|[b [Hb Hsame]]].
    + rewrite existsb_app in Hs. apply orb_true_iff in Hs.
      destruct Hs as [Hs|Hs]; [left; exact Hs|].
      simpl in Hs. rewrite orb_false_r in Hs.
      right. exists x. split; [now left | exact Hs].
    + right. exists b. split; [now right | exact Hsame].
Qed.

(** X3: the removal of duplicates keeps, in order, the first alert of
    every kind (same age and same first 30 characters of the message):
    the alerts kept are alerts of the input, no two of them are of the
    same kind, and every alert of the input has an alert of its kind
    among them. *)
Theorem dedupAlerts_first_of_each_kind (self : list SimulationAlert.t) :
  SimulationEnhancer.dedupAlerts self = firstOfEachKind [] self
  /\ incl (SimulationEnhancer.dedupAlerts self) self
  /\ ForallOrdPairs (fun a b => SimulationEnhancer.sameAlert a b = false)
       (SimulationEnhancer.dedupAlerts self)
  /\ (forall a,
        In a self ->
        exists b, In b (SimulationEnhancer.dedupAlerts self)
                  /\ SimulationEnhancer.sameAlert b a = true).
Proof.
  rewrite dedupAlerts_firstOfEachKind.
  split; [reflexivity|]. split; [|split].
  - intros a Ha. apply firstOfEachKind_unseen in Ha. apply Ha.
  - apply firstOfEachKind_distinct.
  - intros a Ha.
    destruct (firstOfEachKind_represents [] self a Ha) as [H|H];
      [discriminate | exact H].
Qed.

(** ** Weight, vet and milestone alerts *)

Lemma in_push {A : Type} (a x : A) (l : list A) (b : bool) :
  In a l -> In a (if b then (l ++ [x])%list else l).
Proof. intro H. destruct b; [apply in_or_app; now left | exact H]. Qed.

Lemma in_pushed {A : Type} (x : A) (l : list A) :
  In x (if true then (l ++ [x])%list else l).
Proof. apply in_or_app. right. now left. Qed.

Section OtherAlerts.

Variable catName : string.
Variable careRoutine : CareRoutine.t.
Variable idealRange : BreedHealthData.Range.

Let step := Simulation.alertStep catName careRoutine idealRange.

Lemma alert_kinds (point : SimulationPoint.t) :
  (isWeightAlert (Simulation.riskyAlert catName point) = false
   /\ isWeightAlert (Simulation.unhealthyAlert catName point) = false
   /\ isWeightAlert (Simulation.weightAlert catName point) = true
   /\ isWeightAlert (Simulation.vetAlert catName point) = false)
  /\ (isVetAlert (Simulation.riskyAlert catName point) = false
      /\ isVetAlert (Simulation.unhealthyAlert catName point) = false
      /\ isVetAlert (Simulation.weightAlert catName point) = false
      /\ isVetAlert (Simulation.vetAlert catName point) = true)
  /\ (isMilestoneAlert (Simulation.riskyAlert catName point) = false
      /\ isMilestoneAlert (Simulation.unhealthyAlert catName point) = false
      /\ isMilestoneAlert (Simulation.weightAlert catName point) = false
      /\ isMilestoneAlert (Simulation.vetAlert catName point) = false).
Proof. repeat split. Qed.

(** One iteration: the flags, the counts, and what is pushed. *)
Lemma alertStep_other (st : Simulation.AlertLoop) (point : SimulationPoint.t) :
  let weightFires :=
    negb (Simulation.hasWarnedAboutWeight st) && overweightPoint idealRange point in
  let vetFires :=
    negb (Simulation.hasWarnedAboutVet st) && seniorPoint point
    && noYearlyVet careRoutine in
  Simulation.hasWarnedAboutWeight (step st point)
  = Simulation.hasWarnedAboutWeight st || weightFires
  /\ Simulation.hasWarnedAboutVet (step st point)
     = Simulation.hasWarnedAboutVet st || vetFires
  /\ List.length (filter isWeightAlert (Simulation.pushed (step st point)))
     = (List.length (filter isWeightAlert (Simulation.pushed st))
        + if weightFires then 1 else 0)%nat
  /\ List.length (filter isVetAlert (Simulation.pushed (step st point)))
     = (List.length (filter isVetAlert (Simulation.pushed st))
        + if vetFires then 1 else 0)%nat
  /\ List.length (filter isMilestoneAlert (Simulation.pushed (step st point)))
     = List.length (filter isMilestoneAlert (Simulation.pushed st))
  /\ incl (Simulation.pushed st) (Simulation.pushed (step st point))
  /\ (weightFires = true
      -> In (Simulation.weightAlert catName point) (Simulation.pushed (step st point)))
  /\ (vetFires = true
      -> In (Simulation.vetAlert catName point) (Simulation.pushed (step st point))).
Proof.
  intros weightFires vetFires.
  destruct (alert_kinds point) as [[W1 [W2 [W3 W4]]] [[V1 [V2 [V3 V4]]] [M1 [M2 [M3 M4]]]]].
  unfold step, Simulation.alertStep, Simulation.LIFE_STAGES.adult_end, JS.mul64.
  cbv zeta.
  cbn [Simulation.pushed Simulation.hasWarnedAboutWeight Simulation.hasWarnedAboutVet].
  fold (overweightPoint idealRange point) (seniorPoint point) (noYearlyVet careRoutine).
  fold weightFires. fold vetFires.
  split; [reflexivity|]. split; [reflexivity|].
  rewrite !count_push, W1, W2, W3, W4, V1, V2, V3, V4, M1, M2, M3, M4.
  rewrite !andb_false_r, !andb_true_r.
  split; [lia|]. split; [lia|]. split; [lia|].
  split; [|split].
  - intros a Ha. repeat apply in_push. exact Ha.
  - intro Hw. rewrite Hw. apply in_push. apply in_pushed.
  - intro Hv. rewrite Hv. apply in_pushed.
Qed.

Lemma alertLoop_other (points : list SimulationPoint.t) :
  forall st : Simulation.AlertLoop,
    let st' := fold_left step points st in
    let weightFires :=
      negb (Simulation.hasWarnedAboutWeight st)
      && existsb (overweightPoint idealRange) points in
    let vetFires :=
      negb (Simulation.hasWarnedAboutVet st) && existsb seniorPoint points
      && noYearlyVet careRoutine in
    List.length (filter isWeightAlert (Simulation.pushed st'))
    = (List.length (filter isWeightAlert (Simulation.pushed st))
       + if weightFires then 1 else 0)%nat
    /\ List.length (filter isVetAlert (Simulation.pushed st'))
       = (List.length (filter isVetAlert (Simulation.pushed st))
          + if vetFires then 1 else 0)%nat
    /\ List.length (filter isMilestoneAlert (Simulation.pushed st'))
       = List.length (filter isMilestoneAlert (Simulation.pushed st))
    /\ incl (Simulation.pushed st) (Simulation.pushed st')
    /\ (forall p,
          Simulation.hasWarnedAboutWeight st = false ->
          find (overweightPoint idealRange) points = Some p ->
          In (Simulation.weightAlert catName p) (Simulation.pushed st'))
    /\ (forall p,
          Simulation.hasWarnedAboutVet st = false ->
          noYearlyVet careRoutine = true ->
          find seniorPoint points = Some p ->
          In (Simulation.vetAlert catName p) (Simulation.pushed st')).
Proof.
  induction points as [|x points IH]; intro st; cbv zeta.
  - simpl. rewrite !andb_false_r. simpl.
    repeat split; try lia; try discriminate. intros a Ha. exact Ha.
  - cbn [fold_left existsb find].
    destruct (alertStep_other st x) as [Hw [Hv [Cw [Cv [Cm [Hincl [Pw Pv]]]]]]].
    destruct (IH (step st x)) as [IHw [IHv [IHm [IHincl [IHPw IHPv]]]]].
    rewrite IHw, IHv, IHm, Cw, Cv, Cm, Hw, Hv.
    split; [|split; [|split; [reflexivity|split; [|split]]]].
    + destruct (Simulation.hasWarnedAboutWeight st),
               (overweightPoint idealRange x),
               (existsb (overweightPoint idealRange) points); simpl; lia.
    + destruct (Simulation.hasWarnedAboutVet st), (seniorPoint x),
               (existsb seniorPoint points), (noYearlyVet careRoutine); simpl; lia.
    + intros a Ha. apply IHincl, Hincl, Ha.
    + intros p Hflag Hfind.
      destruct (overweightPoint idealRange x) eqn:Ex.
      * injection Hfind as <-. apply IHincl, Pw.
        rewrite Hflag. reflexivity.
      * apply IHPw; [|exact Hfind]. rewrite Hw, Hflag. reflexivity.
    + intros p Hflag Hno Hfind.
      destruct (seniorPoint x) eqn:Ex.
      * injection Hfind as <-. apply IHincl, Pv.
        rewrite Hflag, Hno. reflexivity.
      * apply IHPv; [|exact Hno|exact Hfind]. rewrite Hv, Hflag. reflexivity.
Qed.

End OtherAlerts.

Lemma milestoneAlert_kinds (catName : string) (careRoutine : CareRoutine.t)
  (milestones : list (Z * string)) :
  filter isWeightAlert (map (Simulation.milestoneAlert catName careRoutine) milestones) = []
  /\ filter isVetAlert (map (Simulation.milestoneAlert catName careRoutine) milestones) = []
  /\ filter isMilestoneAlert
       (map (Simulation.milestoneAlert catName careRoutine) milestones)
     = map (Simulation.milestoneAlert catName careRoutine) milestones.
Proof.
  induction milestones as [|m ms [IH1 [IH2 IH3]]]; simpl; repeat split; trivial.
  f_equal. exact IH3.
Qed.

(** X4: [generateAlerts] emits the weight alert at most once: exactly
    once when some point weighs more than the ideal maximum times 1.15
    (the product as binary64 computes it), and then for the first such
    point; never otherwise. *)
Theorem generateAlerts_weight_alert_once
  (points : list SimulationPoint.t) (catProfile : CatProfile.t)
  (careRoutine : CareRoutine.t) (idealRange : BreedHealthData.Range) :
  let alerts := Simulation.generateAlerts points catProfile careRoutine idealRange in
  List.length (filter isWeightAlert alerts)
  = (if existsb (overweightPoint idealRange) points then 1 else 0)%nat
  /\ (forall p,
        find (overweightPoint idealRange) points = Some p ->
        In (Simulation.weightAlert (catName_of catProfile) p) alerts).
Proof.
  intro alerts. subst alerts. unfold Simulation.generateAlerts.
  rewrite (filter_length_permutation _ _ _ (sort_by_permutation _ _)).
  unfold Simulation.unsortedAlerts. cbv zeta.
  match goal with
  | |- context [fold_left ?f points ?st] =>
      destruct (alertLoop_other (catName_of catProfile) careRoutine idealRange
                  points st) as [Hw [_ [_ [_ [Pw _]]]]]
  end.
  split.
  - rewrite filter_app, length_app.
    rewrite (proj1 (milestoneAlert_kinds _ _ _)). rewrite Hw. simpl. lia.
  - intros p Hfind.
    apply (Permutation_in _ (Permutation_sym (sort_by_permutation _ _))).
    apply in_or_app. left. apply Pw; [reflexivity | exact Hfind].
Qed.

(** X5: [generateAlerts] emits the senior vet alert at most once: exactly
    once when the routine has less than one vet visit a year and some
    point is at least 120 months old, and then for the first such point;
    never otherwise. *)
Theorem generateAlerts_vet_alert_once
  (points : list SimulationPoint.t) (catProfile : CatProfile.t)
  (careRoutine : CareRoutine.t) (idealRange : BreedHealthData.Range) :
  let alerts := Simulation.generateAlerts points catProfile careRoutine idealRange in
  List.length (filter isVetAlert alerts)
  = (if noYearlyVet careRoutine && existsb seniorPoint points then 1 else 0)%nat
  /\ (forall p,
        noYearlyVet careRoutine = true ->
        find seniorPoint points = Some p ->
        In (Simulation.vetAlert (catName_of catProfile) p) alerts).
Proof.
  intro alerts. subst alerts. unfold Simulation.generateAlerts.
  rewrite (filter_length_permutation _ _ _ (sort_by_permutation _ _)).
  unfold Simulation.unsortedAlerts. cbv zeta.
  match goal with
  | |- context [fold_left ?f points ?st] =>
      destruct (alertLoop_other (catName_of catProfile) careRoutine idealRange
                  points st) as [_ [Hv [_ [_ [_ Pv]]]]]
  end.
  split.
  - rewrite filter_app, length_app.
    rewrite (proj1 (proj2 (milestoneAlert_kinds _ _ _))). rewrite Hv.
    cbn [Simulation.hasWarnedAboutVet Simulation.pushed negb andb filter List.length].
    rewrite (andb_comm (noYearlyVet careRoutine)). lia.
  - intros p Hno Hfind.
    apply (Permutation_in _ (Permutation_sym (sort_by_permutation _ _))).
    apply in_or_app. left. apply Pv; [reflexivity | exact Hno | exact Hfind].
Qed.

Lemma generateAlerts_weight_alert_once_witness :
  In (Simulation.weightAlert "Tom"
        {| SimulationPoint.ageMonths := 24;
           SimulationPoint.weightKgEstimate := 8.05;
           SimulationPoint.healthStatus := thriving;
           SimulationPoint.notes := "" |})
     (Simulation.generateAlerts bengalAt805 exampleProfile exampleRoutine
        (BreedHealthData.idealWeight BreedHealthData.bengal)).
Proof.
  apply (proj2 (generateAlerts_weight_alert_once bengalAt805 exampleProfile
                  exampleRoutine
                  (BreedHealthData.idealWeight BreedHealthData.bengal))).
  vm_compute. reflexivity.
Defined.

Lemma generateAlerts_vet_alert_once_witness :
  In (Simulation.vetAlert "Tom"
        {| SimulationPoint.ageMonths := 120;
           SimulationPoint.weightKgEstimate := 4.5;
           SimulationPoint.healthStatus := ok;
           SimulationPoint.notes := "" |})
     (Simulation.generateAlerts (pointsWithStatuses 119 [ok; ok; ok]) exampleProfile
        {| CareRoutine.foodType := None;
           CareRoutine.foodAmountOzPerDay := None;
           CareRoutine.treatsPerDay := None;
           CareRoutine.playMinutesPerDay := None;
           CareRoutine.vetVisitsPerYear := None |}
        exampleRange).
Proof.
  apply (proj2 (generateAlerts_vet_alert_once (pointsWithStatuses 119 [ok; ok; ok])
                  exampleProfile
                  {| CareRoutine.foodType := None;
                     CareRoutine.foodAmountOzPerDay := None;
                     CareRoutine.treatsPerDay := None;
                     CareRoutine.playMinutesPerDay := None;
                     CareRoutine.vetVisitsPerYear := None |}
                  exampleRange)).
  - vm_compute. reflexivity.
  - vm_compute. reflexivity.
Defined.

Lemma count_positive_of_in {A : Type} (f : A -> bool) (a : A) (l : list A) :
  In a l -> f a = true -> (0 < List.length (filter f l))%nat.
Proof.
  intros Hin Hf.
  assert (H : In a (filter f l)) by (apply filter_In; split; assumption).
  destruct (filter f l); [contradiction | simpl; lia].
Qed.

(** A milestone whose month is among the points gets its alert. *)
Lemma milestoneAlert_of_point
  (points : list SimulationPoint.t) (catProfile : CatProfile.t)
  (careRoutine : CareRoutine.t) (idealRange : BreedHealthData.Range)
  (milestone : Z * string) (p : SimulationPoint.t) :
  In milestone Simulation.milestoneMonths ->
  In p points ->
  SimulationPoint.ageMonths p = fst milestone ->
  In (Simulation.milestoneAlert (catName_of catProfile) careRoutine milestone)
     (Simulation.generateAlerts points catProfile careRoutine idealRange).
Proof.
  intros Hmile Hp Hage. unfold Simulation.generateAlerts.
  apply (Permutation_in _ (Permutation_sym (sort_by_permutation _ _))).
  unfold Simulation.unsortedAlerts. cbv zeta.
  apply in_or_app. right. apply in_map. apply filter_In.
  split; [exact Hmile|].
  destruct (find _ points) eqn:E; trivial.
  apply (find_none _ _ E) in Hp. rewrite Hage, Z.eqb_refl in Hp. discriminate.
Qed.

(** X6: [generateAlerts] emits the alert of a life-stage milestone (12,
    84, 120, 180 months) exactly when some point has that age; there are
    never more than four milestone alerts. *)
Theorem generateAlerts_milestones
  (points : list SimulationPoint.t) (catProfile : CatProfile.t)
  (careRoutine : CareRoutine.t) (idealRange : BreedHealthData.Range)
  (milestone : Z * string) :
  let alerts := Simulation.generateAlerts points catProfile careRoutine idealRange in
  (List.length (filter isMilestoneAlert alerts) <= 4)%nat
  /\ (In milestone Simulation.milestoneMonths ->
      ((exists p, In p points /\ SimulationPoint.ageMonths p = fst milestone)
       <-> In (Simulation.milestoneAlert (catName_of catProfile) careRoutine milestone)
              alerts)).
Proof.
  intro alerts. subst alerts. unfold Simulation.generateAlerts.
  rewrite (filter_length_permutation _ _ _ (sort_by_permutation _ _)).
  unfold Simulation.unsortedAlerts. cbv zeta.
  match goal with
  | |- context [fold_left ?f points ?st] =>
      destruct (alertLoop_other (catName_of catProfile) careRoutine idealRange
                  points st) as [_ [_ [Hm _]]];
      set (loop := fold_left f points st) in *
  end.
  cbn [Simulation.pushed filter List.length] in Hm.
  set (present :=
         filter
           (fun m : Z * string =>
              match find (fun p => (SimulationPoint.ageMonths p =? fst m)%Z) points with
              | Some _ => true
              | None => false
              end)
           Simulation.milestoneMonths).
  split.
  - rewrite filter_app, length_app, Hm.
    rewrite (proj2 (proj2 (milestoneAlert_kinds _ _ _))), length_map.
    pose proof (filter_length_le
                  (fun m : Z * string =>
                     match find (fun p => (SimulationPoint.ageMonths p =? fst m)%Z)
                             points with
                     | Some _ => true
                     | None => false
                     end)
                  Simulation.milestoneMonths) as Hle.
    fold present in Hle. simpl in Hle. simpl. lia.
  - intro Hmile. split.
    + intros [p [Hp Hage]].
      apply (Permutation_in _ (Permutation_sym (sort_by_permutation _ _))).
      apply in_or_app. right. apply in_map. unfold present. apply filter_In.
      split; [exact Hmile|].
      destruct (find _ points) eqn:E; trivial.
      apply (find_none _ _ E) in Hp. rewrite Hage, Z.eqb_refl in Hp. discriminate.
    + intro Hin.
      apply (Permutation_in _ (sort_by_permutation _ _)) in Hin.
      apply in_app_or in Hin. destruct Hin as [Hin|Hin].
      * exfalso.
        pose proof (count_positive_of_in isMilestoneAlert _ _ Hin eq_refl) as Hpos.
        lia.
      * apply in_map_iff in Hin. destruct Hin as [m' [Heq Hm']].
        unfold present in Hm'. apply filter_In in Hm'. destruct Hm' as [_ Hfound].
        assert (Hsame : fst m' = fst milestone).
        { apply (f_equal SimulationAlert.ageMonths) in Heq.
          unfold Simulation.milestoneAlert in Heq. cbn [SimulationAlert.ageMonths] in Heq.
          unfold inject_Z in Heq. injection Heq as Heq. exact Heq. }
        destruct (find _ points) as [p|] eqn:E; [|discriminate].
        apply find_some in E. destruct E as [Hp Hage].
        exists p. split; [exact Hp|]. apply Z.eqb_eq in Hage. congruence.
Qed.

Lemma generateAlerts_milestones_witness :
  In (Simulation.milestoneAlert "Tom" exampleRoutine
        (120%Z, "turns 10 - entering senior years."))
     (Simulation.generateAlerts (pointsWithStatuses 119 [ok; ok; ok]) exampleProfile
        exampleRoutine exampleRange).
Proof.
  apply (proj2 (generateAlerts_milestones (pointsWithStatuses 119 [ok; ok; ok])
                  exampleProfile exampleRoutine exampleRange
                  (120%Z, "turns 10 - entering senior years."))).
  - right. right. left. reflexivity.
  - eexists. split; [right; left; reflexivity | reflexivity].
Defined.

(** ** Whole runs of the simulator *)

Lemma monthlyLoop_Forall (P : SimulationPoint.t -> Prop)
  (step : Z -> Q -> Q -> Q * SimulationPoint.t) (random : nat -> Q)
  (endAgeMonths : Z) :
  (forall month rnd w, P (snd (step month rnd w))) ->
  forall (fuel : nat) (month : Z) (calls : nat) (currentWeight : Q),
    Forall P (Simulation.monthlyLoop step random endAgeMonths fuel month calls
                currentWeight).
Proof.
  intro Hstep. induction fuel as [|fuel IH]; intros month calls w.
  - constructor.
  - cbn [Simulation.monthlyLoop].
    destruct (month <=? endAgeMonths)%Z; [|constructor].
    pose proof (Hstep month (random calls) w) as Hp.
    destruct (step month (random calls) w) as [w' point].
    constructor; [exact Hp | apply IH].
Qed.

(** What a run returns when the breed has an ideal weight range. *)
Lemma runSimulation_returns (config : SimulationConfig.t) (random : nat -> Q)
  (idealRange : BreedHealthData.Range) :
  Simulation.getIdealWeightRange
    (CatProfile.breed (SimulationConfig.catProfile config)) = Some idealRange ->
  exists result step w,
    Simulation.runSimulation config random = JS.Returned result
    /\ SimulationResult.points result
       = Simulation.monthlyLoop step random (SimulationConfig.endAgeMonths config)
           (Simulation.monthlyLoop_fuel (SimulationConfig.startAgeMonths config)
              (SimulationConfig.endAgeMonths config))
           (SimulationConfig.startAgeMonths config) O w
    /\ (exists calorieProxy,
          step
          = Simulation.simulateMonth
              (catName_of (SimulationConfig.catProfile config))
              (SimulationConfig.careRoutine config)
              (0 <? List.length
                      (CatProfile.knownConditions (SimulationConfig.catProfile config)))%nat
              idealRange calorieProxy (SimulationConfig.startAgeMonths config))
    /\ SimulationResult.alerts result
       = Simulation.generateAlerts (SimulationResult.points result)
           (SimulationConfig.catProfile config) (SimulationConfig.careRoutine config)
           idealRange
    /\ (SimulationResult.summary result, SimulationResult.recommendations result)
       = Simulation.generateSummary (SimulationConfig.catProfile config)
           (SimulationConfig.careRoutine config) (SimulationResult.points result)
           (SimulationResult.alerts result) idealRange.
Proof.
  intro Hr. unfold Simulation.runSimulation. cbv zeta. rewrite Hr.
  destruct (Simulation.generateSummary _ _ _ _ _) as [summary recommendations] eqn:Es.
  eexists. eexists. eexists.
  split; [reflexivity|].
  cbn [SimulationResult.points SimulationResult.alerts SimulationResult.summary
       SimulationResult.recommendations].
  split; [reflexivity|]. split; [eexists; reflexivity|].
  split; [reflexivity|]. symmetry. exact Es.
Qed.

Lemma generateNotes_nonempty (ageMonths : Z) (weight : Q) (status : HealthStatus)
  (idealRange : BreedHealthData.Range) (catName : string) :
  Simulation.generateNotes ageMonths weight status idealRange catName <> "".
Proof.
  unfold Simulation.generateNotes. cbv zeta.
  destruct status;
    try destruct (JS.Qltb (BreedHealthData.max idealRange) weight);
    try destruct (JS.Qltb weight (BreedHealthData.min idealRange));
    simpl; discriminate.
Qed.

(** X7: in every run, a point has notes exactly when its month is a
    multiple of 12 or is the start month; every other point has the empty
    string. *)
Theorem runSimulation_notes_at_year_milestones
  (config : SimulationConfig.t) (random : nat -> Q) :
  Forall
    (fun p =>
       SimulationPoint.notes p = ""
       <-> (Z.rem (SimulationPoint.ageMonths p) 12 <> 0
            /\ SimulationPoint.ageMonths p <> SimulationConfig.startAgeMonths config)%Z)
    (Simulation.points_of (Simulation.runSimulation config random)).
Proof.
  destruct (Simulation.getIdealWeightRange
              (CatProfile.breed (SimulationConfig.catProfile config)))
    as [idealRange|] eqn:Hr.
  - destruct (runSimulation_returns config random idealRange Hr)
      as [result [step [w [Hrun [Hpoints [[proxy Hstep] _]]]]]].
    rewrite Hrun. cbn [Simulation.points_of]. rewrite Hpoints.
    apply monthlyLoop_Forall. intros month rnd w'. rewrite Hstep.
    unfold Simulation.simulateMonth. cbv zeta.
    cbn [snd SimulationPoint.notes SimulationPoint.ageMonths].
    destruct (Z.rem month 12 =? 0)%Z eqn:E12;
      destruct (month =? SimulationConfig.startAgeMonths config)%Z eqn:Es;
      cbn [orb].
    + apply Z.eqb_eq in E12. split; [intro H | intros [H1 _]; contradiction].
      exfalso. exact (generateNotes_nonempty _ _ _ _ _ H).
    + apply Z.eqb_eq in E12. split; [intro H | intros [H1 _]; contradiction].
      exfalso. exact (generateNotes_nonempty _ _ _ _ _ H).
    + apply Z.eqb_eq in Es. split; [intro H | intros [_ H2]; contradiction].
      exfalso. exact (generateNotes_nonempty _ _ _ _ _ H).
    + apply Z.eqb_neq in E12. apply Z.eqb_neq in Es.
      split; [intros _; split; assumption | reflexivity].
  - unfold Simulation.runSimulation. cbv zeta. rewrite Hr. constructor.
Qed.

Lemma in_monthsFrom (start m : Z) (n : nat) :
  (start <= m < start + Z.of_nat n)%Z -> In m (monthsFrom start n).
Proof.
  intro H. unfold monthsFrom. apply in_map_iff.
  exists (Z.to_nat (m - start)). split; [lia|].
  apply in_seq. lia.
Qed.

(** X8: a run over a breed with an ideal weight range whose months
    include a life-stage milestone (12, 84, 120 or 180) returns the alert
    of that milestone among its alerts. *)
Theorem runSimulation_milestone_alert
  (config : SimulationConfig.t) (random : nat -> Q) (milestone : Z * string) :
  Simulation.getIdealWeightRange
    (CatProfile.breed (SimulationConfig.catProfile config)) <> None ->
  In milestone Simulation.milestoneMonths ->
  (SimulationConfig.startAgeMonths config <= fst milestone
   <= SimulationConfig.endAgeMonths config)%Z ->
  exists result,
    Simulation.runSimulation config random = JS.Returned result
    /\ In (Simulation.milestoneAlert
             (catName_of (SimulationConfig.catProfile config))
             (SimulationConfig.careRoutine config) milestone)
          (SimulationResult.alerts result).
Proof.
  intros Hrange Hmile Hin.
  destruct (runSimulation_one_point_per_month config random Hrange ltac:(lia))
    as [result [Hrun [_ Hages]]].
  exists result. split; [exact Hrun|].
  destruct (Simulation.getIdealWeightRange _) as [idealRange|] eqn:Hr; [|congruence].
  destruct (runSimulation_returns config random idealRange Hr)
    as [result' [_ [_ [Hrun' [_ [_ [Halerts _]]]]]]].
  assert (result' = result) by congruence. subst result'.
  rewrite Halerts.
  assert (Hm : In (fst milestone)
                 (map SimulationPoint.ageMonths (SimulationResult.points result))).
  { rewrite Hages. apply in_monthsFrom. lia. }
  apply in_map_iff in Hm. destruct Hm as [p [Hage Hp]].
  exact (milestoneAlert_of_point _ _ _ _ milestone p Hmile Hp Hage).
Qed.

Lemma runSimulation_milestone_alert_witness :
  exists result,
    Simulation.runSimulation fourMonthsConfig (fun _ => 1 # 2) = JS.Returned result
    /\ In (Simulation.milestoneAlert "Tom" exampleRoutine
             (12%Z, "reaches 1 year old - no longer a kitten!"))
          (SimulationResult.alerts result).
Proof.
  apply (runSimulation_milestone_alert fourMonthsConfig (fun _ => 1 # 2)
           (12%Z, "reaches 1 year old - no longer a kitten!")).
  - vm_compute. discriminate.
  - left. reflexivity.
  - vm_compute. split; discriminate.
Defined.

Lemma Math_min_le_r (a b : Q) : JS.Math_min a b <= b.
Proof.
  unfold JS.Math_min. destruct (JS.Qltb b a) eqn:E.
  - apply Qle_refl.
  - apply Qltb_ge in E. exact E.
Qed.

(** Rounding to two decimals moves a weight by at most half a hundredth. *)
Lemma rounded_weight_close (w : Q) :
  w - 0.005 <= inject_Z (JS.Math_round (w * 100)) / 100 <= w + 0.005.
Proof.
  unfold JS.Math_round.
  pose proof (Qfloor_le (w * 100 + (1 # 2))) as Hlo.
  pose proof (Qlt_floor (w * 100 + (1 # 2))) as Hhi.
  rewrite inject_Z_plus in Hhi.
  change (inject_Z 1) with 1 in Hhi.
  revert Hlo Hhi. generalize (inject_Z (Qfloor (w * 100 + (1 # 2)))). intros f Hlo Hhi.
  split.
  - apply Qle_shift_div_l; [reflexivity | lra].
  - apply Qle_shift_div_r; [reflexivity | lra].
Qed.

Lemma simulateMonth_age_adjustments (catName : string) (careRoutine : CareRoutine.t)
  (hasKnownConditions : bool) (idealRange : BreedHealthData.Range)
  (calorieProxy : Q) (startAgeMonths month : Z) (rnd currentWeight : Q) :
  let point :=
    snd (Simulation.simulateMonth catName careRoutine hasKnownConditions idealRange
           calorieProxy startAgeMonths month rnd currentWeight) in
  ((SimulationPoint.ageMonths point < 12)%Z ->
     SimulationPoint.weightKgEstimate point <= BreedHealthData.max idealRange + 0.005)
  /\ ((180 < SimulationPoint.ageMonths point)%Z ->
      BreedHealthData.min idealRange * 0.8 - 0.005
      <= SimulationPoint.weightKgEstimate point).
Proof.
  intro point. subst point. unfold Simulation.simulateMonth. cbv zeta.
  cbn [snd SimulationPoint.ageMonths SimulationPoint.weightKgEstimate].
  unfold Simulation.LIFE_STAGES.senior_end.
  split; intro Hage.
  - assert (E : (month <? 12)%Z = true) by (apply Z.ltb_lt; exact Hage).
    rewrite E.
    match goal with
    | |- inject_Z (JS.Math_round (?w * 100)) / 100 <= _ =>
        pose proof (rounded_weight_close w) as [_ Hr];
        assert (Hw : w <= BreedHealthData.max idealRange) by apply Math_min_le_r
    end.
    lra.
  - assert (E : (month <? 12)%Z = false) by (apply Z.ltb_ge; lia).
    assert (E' : (month >? 180)%Z = true) by (apply Z.gtb_lt; lia).
    rewrite E, E'.
    match goal with
    | |- _ <= inject_Z (JS.Math_round (?w * 100)) / 100 =>
        pose proof (rounded_weight_close w) as [Hr _];
        assert (Hw : BreedHealthData.min idealRange * 0.8 <= w)
          by apply Math_max_lub_r
    end.
    lra.
Qed.

(** A weight that is not above the ideal maximum by more than the
    rounding is under the threshold of the weight alert. *)
Lemma not_overweight_near_max (idealRange : BreedHealthData.Range)
  (p : SimulationPoint.t) :
  1.5 <= BreedHealthData.max idealRange ->
  SimulationPoint.weightKgEstimate p <= BreedHealthData.max idealRange + 0.005 ->
  overweightPoint idealRange p = false.
Proof.
  intros Hmax Hw. unfold overweightPoint. apply Qltb_ge.
  set (factor := JS.binary64 1.15). vm_compute in factor. subst factor.
  pose proof (binary64_near (BreedHealthData.max idealRange)) as Bmax.
  rewrite (Qabs_pos (BreedHealthData.max idealRange)) in Bmax by lra.
  set (hi := BreedHealthData.max idealRange) in *.
  set (hi' := JS.binary64 hi) in *.
  match goal with
  | |- _ <= JS.binary64 ?product =>
      pose proof (binary64_near product) as Bp;
      rewrite (Qabs_pos product) in Bp by lra;
      set (threshold := JS.binary64 product) in *
  end.
  pose proof (binary64_near (SimulationPoint.weightKgEstimate p)) as Bw.
  set (w := SimulationPoint.weightKgEstimate p) in *.
  set (w' := JS.binary64 w) in *.
  destruct (Qabs_cases w) as [[Sw Ew]|[Sw Ew]]; lra.
Qed.

(** X9: in every run, a point younger than 12 months weighs at most the
    ideal maximum (up to the rounding, half a hundredth of a kg), so it
    is never above the 115% that triggers the weight alert, and a point
    older than 180 months weighs at least 80% of the ideal minimum (up to
    the rounding). *)
Theorem runSimulation_age_adjustments
  (config : SimulationConfig.t) (random : nat -> Q)
  (idealRange : BreedHealthData.Range) :
  Simulation.getIdealWeightRange
    (CatProfile.breed (SimulationConfig.catProfile config)) = Some idealRange ->
  Forall
    (fun p =>
       ((SimulationPoint.ageMonths p < 12)%Z ->
          SimulationPoint.weightKgEstimate p <= BreedHealthData.max idealRange + 0.005
          /\ overweightPoint idealRange p = false)
       /\ ((180 < SimulationPoint.ageMonths p)%Z ->
           BreedHealthData.min idealRange * 0.8 - 0.005
           <= SimulationPoint.weightKgEstimate p))
    (Simulation.points_of (Simulation.runSimulation config random)).
Proof.
  intro Hr.
  destruct (getIdealWeightRange_roomForFloor _ _ Hr) as [Hmax _].
  destruct (runSimulation_returns config random idealRange Hr)
    as [result [step [w [Hrun [Hpoints [[proxy Hstep] _]]]]]].
  rewrite Hrun. cbn [Simulation.points_of]. rewrite Hpoints.
  apply monthlyLoop_Forall. intros month rnd w'. rewrite Hstep.
  destruct (simulateMonth_age_adjustments
              (catName_of (SimulationConfig.catProfile config))
              (SimulationConfig.careRoutine config)
              (0 <? List.length
                      (CatProfile.knownConditions (SimulationConfig.catProfile config)))%nat
              idealRange proxy (SimulationConfig.startAgeMonths config) month rnd w')
    as [Hk Hs].
  split; [|exact Hs].
  intro Hage. specialize (Hk Hage). split; [exact Hk|].
  apply not_overweight_near_max; assumption.
Qed.

Lemma runSimulation_age_adjustments_witness :
  (map SimulationPoint.ageMonths
     (Simulation.points_of (Simulation.runSimulation kittenConfig (fun _ => 1 # 2)))
   = [10%Z; 11%Z]
   /\ Forall
        (fun p =>
           SimulationPoint.weightKgEstimate p <= 10 + 0.005
           /\ overweightPoint
                {| BreedHealthData.min := 5.5; BreedHealthData.max := 10 |} p = false)
        (Simulation.points_of
           (Simulation.runSimulation kittenConfig (fun _ => 1 # 2))))
  /\ (map SimulationPoint.ageMonths
        (Simulation.points_of
           (Simulation.runSimulation geriatricConfig (fun _ => 1 # 2)))
      = [181%Z; 182%Z]
      /\ Forall
           (fun p => 5.5 * 0.8 - 0.005 <= SimulationPoint.weightKgEstimate p)
           (Simulation.points_of
              (Simulation.runSimulation geriatricConfig (fun _ => 1 # 2)))).
Proof.
  pose proof (runSimulation_age_adjustments kittenConfig (fun _ => 1 # 2)
                {| BreedHealthData.min := 5.5; BreedHealthData.max := 10 |} eq_refl)
    as Hkitten.
  pose proof (runSimulation_age_adjustments geriatricConfig (fun _ => 1 # 2)
                {| BreedHealthData.min := 5.5; BreedHealthData.max := 10 |} eq_refl)
    as Hold.
  assert (Ak : forallb (fun p => (SimulationPoint.ageMonths p <? 12)%Z)
                 (Simulation.points_of
                    (Simulation.runSimulation kittenConfig (fun _ => 1 # 2))) = true)
    by (vm_compute; reflexivity).
  assert (Ao : forallb (fun p => (180 <? SimulationPoint.ageMonths p)%Z)
                 (Simulation.points_of
                    (Simulation.runSimulation geriatricConfig (fun _ => 1 # 2))) = true)
    by (vm_compute; reflexivity).
  rewrite forallb_forall in Ak, Ao. rewrite Forall_forall in Hkitten, Hold.
  split; (split; [vm_compute; reflexivity|]); apply Forall_forall; intros p Hp.
  - apply (Hkitten p Hp). apply Z.ltb_lt. exact (Ak p Hp).
  - apply (Hold p Hp). apply Z.ltb_lt. exact (Ao p Hp).
Defined.

Lemma map_filter_compose {A B : Type} (f : A -> B) (g : B -> bool) (l : list A) :
  map f (filter (fun x => g (f x)) l) = filter g (map f l).
Proof.
  induction l as [|x l IH]; simpl; [reflexivity|].
  destruct (g (f x)); simpl; rewrite IH; reflexivity.
Qed.

(** X10: for a cat whose breed has an ideal weight range and whose age is
    at most 240 months, [runQuickSimulation] returns, in order, the
    points of exactly the months from the cat's age to 240 that are
    multiples of 12. *)
Theorem runQuickSimulation_yearly_points
  (catProfile : CatProfile.t) (careRoutine : CareRoutine.t) (random : nat -> Q) :
  Simulation.getIdealWeightRange (CatProfile.breed catProfile) <> None ->
  (SimulationEntryPoints.startAge catProfile <= 240)%Z ->
  exists points,
    SimulationEntryPoints.runQuickSimulation catProfile careRoutine random
    = JS.Returned points
    /\ map SimulationPoint.ageMonths points
       = filter (fun m => (Z.rem m 12 =? 0)%Z)
           (monthsFrom (SimulationEntryPoints.startAge catProfile)
              (Z.to_nat (240 - SimulationEntryPoints.startAge catProfile + 1))).
Proof.
  intros Hrange Hle.
  destruct (runSimulation_one_point_per_month
              (SimulationEntryPoints.configOf catProfile careRoutine) random
              Hrange Hle) as [result [Hrun [_ Hages]]].
  unfold SimulationEntryPoints.runQuickSimulation. rewrite Hrun.
  cbn [SimulationEntryPoints.mapCompletion].
  eexists. split; [reflexivity|].
  rewrite (map_filter_compose SimulationPoint.ageMonths
             (fun m => (Z.rem m 12 =? 0)%Z)).
  rewrite Hages. reflexivity.
Qed.

Lemma runQuickSimulation_yearly_points_witness :
  exists points,
    SimulationEntryPoints.runQuickSimulation
      {| CatProfile.name := Some "Tom";
         CatProfile.ageYears := Some 19%Z;
         CatProfile.ageMonths := Some 10%Z;
         CatProfile.breed := Some "Maine Coon";
         CatProfile.indoorOutdoor := None;
         CatProfile.weightKg := None;
         CatProfile.knownConditions := [] |}
      exampleRoutine (fun _ => 1 # 2)
    = JS.Returned points
    /\ map SimulationPoint.ageMonths points = [240%Z].
Proof.
  apply (runQuickSimulation_yearly_points
           {| CatProfile.name := Some "Tom";
              CatProfile.ageYears := Some 19%Z;
              CatProfile.ageMonths := Some 10%Z;
              CatProfile.breed := Some "Maine Coon";
              CatProfile.indoorOutdoor := None;
              CatProfile.weightKg := None;
              CatProfile.knownConditions := [] |}
           exampleRoutine (fun _ => 1 # 2)).
  - vm_compute. discriminate.
  - vm_compute. discriminate.
Defined.

(** ** Summary and recommendations *)

Lemma padding_count (recs : list string) (a b : string) :
  let padded :=
    firstn 5
      (Simulation.push_if (List.length
                             (Simulation.push_if (List.length recs <? 3)%nat [a] recs)
                           <? 3)%nat [b]
         (Simulation.push_if (List.length recs <? 3)%nat [a] recs)) in
  (2 <= List.length padded <= 5)%nat
  /\ (List.length padded = 2%nat -> padded = [a; b]).
Proof.
  intro padded. subst padded.
  destruct recs as [|x [|y [|z [|u [|v rest]]]]]; cbn.
  - split; [lia | reflexivity].
  - split; [lia | discriminate].
  - split; [lia | discriminate].
  - split; [lia | discriminate].
  - split; [lia | discriminate].
  - split; [lia | discriminate].
Qed.

(** X11: [generateSummary] returns between 2 and 5 recommendations; it
    returns only 2 exactly when no rule fired, and these are the two
    generic filler sentences (the padding adds at most two entries, so
    it reaches 3 only when at least one rule fired). *)
Theorem generateSummary_recommendation_count
  (catProfile : CatProfile.t) (careRoutine : CareRoutine.t)
  (points : list SimulationPoint.t) (alerts : list SimulationAlert.t)
  (idealRange : BreedHealthData.Range) :
  let recommendations :=
    snd (Simulation.generateSummary catProfile careRoutine points alerts idealRange) in
  (2 <= List.length recommendations <= 5)%nat
  /\ (List.length recommendations = 2%nat ->
      recommendations
      = ["Continue providing fresh water and a clean litter box for "
           ++ catName_of catProfile ++ "'s comfort.";
         "Keep up the love and attention - it's the most important part of cat care!"]).
Proof.
  intro recommendations. subst recommendations.
  unfold Simulation.generateSummary. cbv zeta. cbn [snd].
  apply padding_count.
Qed.

Lemma generateSummary_recommendation_count_witness :
  snd (Simulation.generateSummary exampleProfile
         {| CareRoutine.foodType := Some FoodType.wet;
            CareRoutine.foodAmountOzPerDay := None;
            CareRoutine.treatsPerDay := Some 2;
            CareRoutine.playMinutesPerDay := Some 20;
            CareRoutine.vetVisitsPerYear := Some 2 |}
         thrivingThenOk [] exampleRange)
  = ["Continue providing fresh water and a clean litter box for "
       ++ catName_of exampleProfile ++ "'s comfort.";
     "Keep up the love and attention - it's the most important part of cat care!"].
Proof.
  apply (proj2 (generateSummary_recommendation_count exampleProfile
                  {| CareRoutine.foodType := Some FoodType.wet;
                     CareRoutine.foodAmountOzPerDay := None;
                     CareRoutine.treatsPerDay := Some 2;
                     CareRoutine.playMinutesPerDay := Some 20;
                     CareRoutine.vetVisitsPerYear := Some 2 |}
                  thrivingThenOk [] exampleRange)).
  vm_compute. reflexivity.
Defined.

(** ** What the local enhancement adds to the texts *)

Lemma startsWith_refl (s : string) : JS.startsWith s s = true.
Proof.
  induction s as [|c s IH]; simpl; [reflexivity|].
  rewrite Ascii.eqb_refl. exact IH.
Qed.

Lemma startsWith_app_l (s t p : string) :
  JS.startsWith s p = true -> JS.startsWith (s ++ t) p = true.
Proof.
  revert s. induction p as [|c p IH]; intros s H; simpl; [reflexivity|].
  destruct s as [|d s]; simpl in *; [discriminate|].
  apply andb_true_iff in H. destruct H as [Hc Hp].
  rewrite Hc. simpl. apply IH. exact Hp.
Qed.

Lemma generateEnhancedSummary_extends (originalSummary : string)
  (trajectory : HealthTrajectory.t)
  (breedProfile : option BreedHealthData.BreedHealthProfile)
  (catProfile : CatProfile.t) :
  JS.startsWith
    (SimulationEnhancer.generateEnhancedSummary originalSummary trajectory breedProfile
       catProfile)
    originalSummary = true.
Proof.
  unfold SimulationEnhancer.generateEnhancedSummary. cbv zeta.
  assert (Htrend :
    JS.startsWith
      match HealthTrajectory.trend trajectory with
      | Trend.declining =>
          originalSummary
            ++ " The health trajectory shows some decline over time - small changes now can make a big difference."
      | Trend.improving =>
          originalSummary
            ++ " Great news - the health trajectory is improving with current care!"
      | Trend.stable => originalSummary
      end originalSummary = true).
  { destruct (HealthTrajectory.trend trajectory);
      try apply startsWith_prefix; apply startsWith_refl. }
  destruct breedProfile as [breedProfile|]; [|exact Htrend].
  destruct (negb _); [|exact Htrend].
  apply startsWith_app_l. exact Htrend.
Qed.

Lemma riskFactorStep_extends (catName : string) (recs : list string) (risk : string) :
  exists extra, SimulationEnhancer.riskFactorStep catName recs risk = (recs ++ extra)%list.
Proof.
  unfold SimulationEnhancer.riskFactorStep. cbv zeta.
  repeat match goal with
    | |- context [if ?b then _ else _] => destruct b
    end;
    rewrite <- ?app_assoc; eexists; try reflexivity.
  symmetry. apply app_nil_r.
Qed.

Lemma upcomingRiskStep_extends (breedProfile : BreedHealthData.BreedHealthProfile)
  (recs : list string) (risk : BreedHealthData.HealthRisk) :
  exists extra,
    SimulationEnhancer.upcomingRiskStep breedProfile recs risk = (recs ++ extra)%list.
Proof.
  unfold SimulationEnhancer.upcomingRiskStep.
  destruct (BreedHealthData.riskLevel risk);
    try (exists []; symmetry; apply app_nil_r).
  destruct (negb _); [eexists; reflexivity|].
  exists []. symmetry. apply app_nil_r.
Qed.

Lemma fold_left_extends {A : Type} (f : list string -> A -> list string) :
  (forall recs x, exists extra, f recs x = (recs ++ extra)%list) ->
  forall (l : list A) (recs : list string),
    exists extra, fold_left f l recs = (recs ++ extra)%list.
Proof.
  intro Hf. induction l as [|x l IH]; intro recs; simpl.
  - exists []. symmetry. apply app_nil_r.
  - destruct (Hf recs x) as [e1 H1]. rewrite H1.
    destruct (IH (recs ++ e1)%list) as [e2 H2]. rewrite H2.
    exists (e1 ++ e2)%list. apply eq_sym, app_assoc.
Qed.

Lemma generateEnhancedRecommendations_extends (originalRecs : list string)
  (trajectory : HealthTrajectory.t)
  (breedProfile : option BreedHealthData.BreedHealthProfile)
  (catProfile : CatProfile.t) (careRoutine : CareRoutine.t) :
  exists extra,
    SimulationEnhancer.generateEnhancedRecommendations originalRecs trajectory
      breedProfile catProfile careRoutine
    = firstn 6 (originalRecs ++ extra)%list.
Proof.
  unfold SimulationEnhancer.generateEnhancedRecommendations. cbv zeta.
  destruct (fold_left_extends _ (riskFactorStep_extends (catName_of catProfile))
              (HealthTrajectory.riskFactors trajectory) originalRecs) as [e1 H1].
  rewrite H1.
  destruct breedProfile as [breedProfile|]; [|eexists; reflexivity].
  match goal with
  | |- context [fold_left (SimulationEnhancer.upcomingRiskStep breedProfile) ?l _] =>
      destruct (fold_left_extends _ (upcomingRiskStep_extends breedProfile) l
                  (originalRecs ++ e1)%list) as [e2 H2]
  end.
  rewrite H2.
  destruct (BreedHealthData.getAgeSpecificAdvice _ _) as [ageAdvice|].
  - destruct (find _ (BreedHealthData.advice ageAdvice)) as [[|c newAdvice]|].
    + exists (e1 ++ e2)%list. rewrite app_assoc. reflexivity.
    + exists (e1 ++ e2 ++ [String c newAdvice])%list.
      rewrite !app_assoc. reflexivity.
    + exists (e1 ++ e2)%list. rewrite app_assoc. reflexivity.
  - exists (e1 ++ e2)%list. rewrite app_assoc. reflexivity.
Qed.

(** X12: the local enhancement only extends the texts of the base
    result: the enhanced summary starts with the base summary, and the
    enhanced recommendations are the base recommendations followed by
    added ones, cut to the first six, so they are never more than six and
    a base list of at most six entries is kept whole, in order, at the
    front. *)
Theorem enhanceSimulationLocally_extends_texts
  (result : SimulationResult.t) (catProfile : CatProfile.t)
  (careRoutine : CareRoutine.t) :
  let enhanced :=
    SimulationEnhancer.enhanceSimulationLocally result catProfile careRoutine in
  JS.startsWith (EnhancedSimulationResult.summary enhanced)
    (SimulationResult.summary result) = true
  /\ (exists extra,
        EnhancedSimulationResult.recommendations enhanced
        = firstn 6 (SimulationResult.recommendations result ++ extra)%list)
  /\ (List.length (EnhancedSimulationResult.recommendations enhanced) <= 6)%nat
  /\ ((List.length (SimulationResult.recommendations result) <= 6)%nat ->
      firstn (List.length (SimulationResult.recommendations result))
        (EnhancedSimulationResult.recommendations enhanced)
      = SimulationResult.recommendations result).
Proof.
  intro enhanced. subst enhanced.
  unfold SimulationEnhancer.enhanceSimulationLocally. cbv zeta.
  cbn [EnhancedSimulationResult.summary EnhancedSimulationResult.recommendations].
  split; [apply generateEnhancedSummary_extends|].
  destruct (generateEnhancedRecommendations_extends
              (SimulationResult.recommendations result)
              (SimulationEnhancer.analyzeTrajectory (SimulationResult.points result)
                 catProfile careRoutine)
              (Some (BreedHealthData.findBreedProfile (CatProfile.breed catProfile)))
              catProfile careRoutine) as [extra Hextra].
  rewrite Hextra.
  split; [exists extra; reflexivity|].
  split; [apply firstn_le_length|].
  intro Hlen. rewrite firstn_firstn.
  rewrite Nat.min_l by exact Hlen.
  rewrite firstn_app, firstn_all, Nat.sub_diag. simpl. apply app_nil_r.
Qed.

Lemma enhanceSimulationLocally_extends_texts_witness :
  firstn 1
    (EnhancedSimulationResult.recommendations
       (SimulationEnhancer.enhanceSimulationLocally
          {| SimulationResult.points := thrivingThenOk;
             SimulationResult.alerts := [];
             SimulationResult.summary := "Fine.";
             SimulationResult.recommendations := ["Keep going."] |}
          exampleProfile exampleRoutine))
  = ["Keep going."].
Proof.
  apply (proj2 (proj2 (proj2
           (enhanceSimulationLocally_extends_texts
              {| SimulationResult.points := thrivingThenOk;
                 SimulationResult.alerts := [];
                 SimulationResult.summary := "Fine.";
                 SimulationResult.recommendations := ["Keep going."] |}
              exampleProfile exampleRoutine)))).
  simpl. lia.
Defined.

(** ** More on the weight and status model *)

(** X13: the adjustments of [determineHealthStatus] (vet visits, age,
    known conditions) never produce "unhealthy" on their own: the result
    is unhealthy exactly when the weight classification is, and the
    result is at most two steps worse than the weight classification. *)
Theorem determineHealthStatus_unhealthy_only_by_weight
  (weight : Q) (idealRange : BreedHealthData.Range) (vetVisitsPerYear : option Q)
  (ageMonths : Z) (hasKnownConditions : bool) :
  let status :=
    Simulation.determineHealthStatus weight idealRange vetVisitsPerYear ageMonths
      hasKnownConditions in
  (status = unhealthy <-> Simulation.weightStatus weight idealRange = unhealthy)
  /\ (severityRank status
      <= severityRank (Simulation.weightStatus weight idealRange) + 2)%nat.
Proof.
  intro status. subst status. unfold Simulation.determineHealthStatus. cbv zeta.
  destruct (Simulation.weightStatus weight idealRange);
    destruct (JS.Qeqb (nullish vetVisitsPerYear 0) 0 && (ageMonths >? 24)%Z);
    destruct (ageMonths >? Simulation.LIFE_STAGES.senior_end)%Z;
    destruct (JS.Qltb (nullish vetVisitsPerYear 0) 1);
    destruct hasKnownConditions;
    destruct (JS.Qltb (nullish vetVisitsPerYear 0) 2);
    simpl; (split; [split; intro H; first [reflexivity | discriminate H] | lia]).
Qed.

Lemma determineHealthStatus_unhealthy_only_by_weight_witness :
  Simulation.weightStatus 9 exampleRange = unhealthy.
Proof.
  apply (proj1 (proj1 (determineHealthStatus_unhealthy_only_by_weight 9 exampleRange
                         (Some 0) 200 true))).
  vm_compute. reflexivity.
Defined.

(** No adjustment of the status lifts an unhealthy weight classification. *)
Lemma determineHealthStatus_keeps_unhealthy
  (weight : Q) (idealRange : BreedHealthData.Range) (vetVisitsPerYear : option Q)
  (ageMonths : Z) (hasKnownConditions : bool) :
  Simulation.weightStatus weight idealRange = unhealthy ->
  Simulation.determineHealthStatus weight idealRange vetVisitsPerYear ageMonths
    hasKnownConditions = unhealthy.
Proof.
  intro Hw. unfold Simulation.determineHealthStatus. cbv zeta. rewrite Hw.
  destruct (JS.Qeqb (nullish vetVisitsPerYear 0) 0 && (ageMonths >? 24)%Z);
    destruct (ageMonths >? Simulation.LIFE_STAGES.senior_end)%Z;
    destruct (JS.Qltb (nullish vetVisitsPerYear 0) 1);
    destruct hasKnownConditions;
    destruct (JS.Qltb (nullish vetVisitsPerYear 0) 2);
    reflexivity.
Qed.

(** X14: with an ideal range of at least a gram (0.001 <= min <= max), a
    weight above 135% of the ideal maximum, or below 65% of the ideal
    minimum, by more than rounding can undo (one part in a thousand
    million of the deviation) is classified "unhealthy" whatever the vet
    visits, the age and the known conditions. *)
Theorem determineHealthStatus_far_from_range
  (weight : Q) (idealRange : BreedHealthData.Range) (vetVisitsPerYear : option Q)
  (ageMonths : Z) (hasKnownConditions : bool) :
  1 # 1000 <= BreedHealthData.min idealRange ->
  BreedHealthData.min idealRange <= BreedHealthData.max idealRange ->
  (1.35 + margin) * BreedHealthData.max idealRange <= weight
  \/ weight <= (0.65 - margin) * BreedHealthData.min idealRange ->
  Simulation.determineHealthStatus weight idealRange vetVisitsPerYear ageMonths
    hasKnownConditions = unhealthy.
Proof.
  intros Hmin Hle Hfar.
  apply determineHealthStatus_keeps_unhealthy.
  set (midIdeal := (BreedHealthData.min idealRange + BreedHealthData.max idealRange) / 2).
  assert (Hmid : midIdeal
                 == (BreedHealthData.min idealRange + BreedHealthData.max idealRange)
                    * (1 # 2)).
  { unfold midIdeal. field. }
  apply weightStatus_by_exact_deviation; fold midIdeal; try lra.
  unfold exactDeviation. cbv zeta. fold midIdeal.
  apply Qle_shift_div_l; [lra|].
  unfold margin in *.
  destruct (Qabs_cases (weight - midIdeal)) as [[S E]|[S E]];
    destruct Hfar as [H|H]; lra.
Qed.

Lemma determineHealthStatus_far_from_range_witness :
  Simulation.determineHealthStatus 8.25 exampleRange (Some 2) 30 false = unhealthy.
Proof.
  apply determineHealthStatus_far_from_range.
  - vm_compute. discriminate.
  - vm_compute. discriminate.
  - left. vm_compute. discriminate.
Defined.



(** ** Queries on the breed registry *)

Lemma no_entry_matches_blank :
  find (BreedHealthData.matches "") BreedHealthData.BREED_HEALTH_DATABASE = None.
Proof. vm_compute. reflexivity. Qed.

(** X16: the lookup depends only on the lower-cased, trimmed name: two
    names with the same normal form resolve to the same profile (so
    letter case and surrounding white space do not matter, and a blank
    name resolves like the empty one, to Domestic Shorthair). *)
Theorem findBreedProfile_normalised (name name' : string) :
  JS.trim (JS.toLowerCase name) = JS.trim (JS.toLowerCase name') ->
  BreedHealthData.findBreedProfile (Some name)
  = BreedHealthData.findBreedProfile (Some name').
Proof.
  intro H.
  assert (Hfind : forall s,
            BreedHealthData.findBreedProfile (Some s)
            = match find (BreedHealthData.matches (JS.trim (JS.toLowerCase s)))
                      BreedHealthData.BREED_HEALTH_DATABASE with
              | Some profile => profile
              | None => BreedHealthData.domesticShorthair
              end).
  { intros [|c s]; [|reflexivity].
    change (JS.trim (JS.toLowerCase "")) with "".
    rewrite no_entry_matches_blank. reflexivity. }
  rewrite (Hfind name), (Hfind name'), H. reflexivity.
Qed.

Lemma findBreedProfile_normalised_witness :
  BreedHealthData.findBreedProfile (Some "  MAINE-Coon ")
  = BreedHealthData.findBreedProfile (Some "maine-coon").
Proof.
  apply findBreedProfile_normalised. vm_compute. reflexivity.
Defined.

(** X17: every entry of the database is found under its own breed name,
    except Tabby: "Tabby" resolves to Domestic Shorthair, which comes
    first in the database and lists "tabby" among its aliases. *)
Theorem findBreedProfile_finds_every_breed
  (profile : BreedHealthData.BreedHealthProfile) :
  In profile BreedHealthData.BREED_HEALTH_DATABASE ->
  (BreedHealthData.breed profile <> "Tabby" ->
   BreedHealthData.findBreedProfile (Some (BreedHealthData.breed profile)) = profile)
  /\ (BreedHealthData.breed profile = "Tabby" ->
      BreedHealthData.findBreedProfile (Some (BreedHealthData.breed profile))
      = BreedHealthData.domesticShorthair).
Proof.
  intro Hin. unfold BreedHealthData.BREED_HEALTH_DATABASE in Hin.
  cbn [In] in Hin.
  repeat (destruct Hin as [<-|Hin]; [split; intro H; first
            [ vm_compute; reflexivity
            | exfalso; apply H; reflexivity
            | vm_compute in H; discriminate H ] |]).
  contradiction.
Qed.

Lemma findBreedProfile_finds_every_breed_witness :
  BreedHealthData.findBreedProfile (Some "Ragdoll") = BreedHealthData.ragdoll.
Proof.
  apply (proj1 (findBreedProfile_finds_every_breed BreedHealthData.ragdoll
                  (or_intror (or_introl eq_refl)))).
  discriminate.
Defined.

(** X18: [getHealthRisksForAge] returns, in the order of the profile,
    exactly the risks whose typical onset is at most two years ahead, so
    the risks attached to an age are also attached to every later age. *)
Theorem getHealthRisksForAge_grows
  (profile : BreedHealthData.BreedHealthProfile) (age age' : Q)
  (risk : BreedHealthData.HealthRisk) :
  (In risk (BreedHealthData.getHealthRisksForAge profile age)
   <-> In risk (BreedHealthData.healthRisks profile)
       /\ BreedHealthData.typicalOnsetYears risk <= age + 2)
  /\ (age <= age' ->
      In risk (BreedHealthData.getHealthRisksForAge profile age) ->
      In risk (BreedHealthData.getHealthRisksForAge profile age')).
Proof.
  unfold BreedHealthData.getHealthRisksForAge.
  assert (Hiff : forall a,
            In risk (filter (fun r => JS.Qleb (BreedHealthData.typicalOnsetYears r) (a + 2))
                       (BreedHealthData.healthRisks profile))
            <-> In risk (BreedHealthData.healthRisks profile)
                /\ BreedHealthData.typicalOnsetYears risk <= a + 2).
  { intro a. rewrite filter_In, Qleb_le. reflexivity. }
  split; [apply Hiff|].
  intros Hle Hin. apply Hiff in Hin. apply Hiff.
  destruct Hin as [Hin Honset]. split; [exact Hin | lra].
Qed.

Lemma getHealthRisksForAge_grows_witness :
  In maineCoonHCM
     (BreedHealthData.getHealthRisksForAge BreedHealthData.maineCoon 9).
Proof.
  apply (proj2 (getHealthRisksForAge_grows BreedHealthData.maineCoon 2 9 maineCoonHCM)).
  - vm_compute. discriminate.
  - left. reflexivity.
Defined.

Section AgeBands.

Variable age : Q.

Let containing (band : BreedHealthData.AgeSpecificAdvice) : bool :=
  JS.Qleb (fst (BreedHealthData.ageRange band)) age
  && JS.Qltb age (snd (BreedHealthData.ageRange band)).

Lemma bands_cover (bands : list BreedHealthData.AgeSpecificAdvice) :
  forall lower,
    bandsFrom lower bands = true ->
    lower <= lastUpper lower bands
    /\ (age < lower -> find containing bands = None)
    /\ (lastUpper lower bands <= age -> lower <= age -> find containing bands = None)
    /\ (lower <= age < lastUpper lower bands ->
        exists band,
          find containing bands = Some band
          /\ In band bands
          /\ fst (BreedHealthData.ageRange band) <= age
             < snd (BreedHealthData.ageRange band)).
Proof.
  induction bands as [|band rest IH]; intros lower Hb; simpl in *.
  - split; [apply Qle_refl|]. repeat split; trivial. intros [H1 H2]. lra.
  - apply andb_true_iff in Hb. destruct Hb as [Hb Hrest].
    apply andb_true_iff in Hb. destruct Hb as [Hlo Hne].
    apply Qeqb_eq in Hlo. apply Qltb_lt in Hne.
    destruct (IH _ Hrest) as [Hup [Hbelow [Habove Hin]]].
    split; [lra|].
    destruct (containing band) eqn:E; unfold containing in E.
    + apply andb_true_iff in E. destruct E as [E1 E2].
      apply Qleb_le in E1. apply Qltb_lt in E2.
      split; [intro; lra|]. split; [intros; lra|].
      intros _. exists band.
      split; [reflexivity|]. split; [now left|]. split; assumption.
    + apply andb_false_iff in E. destruct E as [E1|E2].
      * assert (Hlt : age < fst (BreedHealthData.ageRange band)).
        { apply Qnot_le_lt. intro Hle. apply Qleb_le in Hle. congruence. }
        split; [intro; apply Hbelow; lra|]. split; [intros; lra|]. intros; lra.
      * apply Qltb_ge in E2.
        split; [intro; lra|]. split; [intros; apply Habove; lra|].
        intros [H1 H2]. destruct Hin as [b [Hf [Hb Hr]]]; [lra|].
        exists b. split; [exact Hf|]. split; [now right | exact Hr].
Qed.

End AgeBands.

Lemma database_bands :
  forall profile,
    In profile BreedHealthData.BREED_HEALTH_DATABASE ->
    bandsFrom 0 (BreedHealthData.ageSpecificAdvice profile)
    && JS.Qleb 14 (lastUpper 0 (BreedHealthData.ageSpecificAdvice profile))
    && JS.Qleb (lastUpper 0 (BreedHealthData.ageSpecificAdvice profile)) 20 = true.
Proof.
  apply forallb_forall. vm_compute. reflexivity.
Qed.

(** X19: for every profile of the database the advice bands follow one
    another from age 0 to the end of the last band, which lies between
    14 and 20 years.  [getAgeSpecificAdvice] returns the band that
    contains the age for every age from 0 up to that end, and no advice
    for a negative age or an age at or past that end (so never at 20 or
    more). *)
Theorem getAgeSpecificAdvice_coverage
  (profile : BreedHealthData.BreedHealthProfile) (age : Q) :
  In profile BreedHealthData.BREED_HEALTH_DATABASE ->
  let upper := lastUpper 0 (BreedHealthData.ageSpecificAdvice profile) in
  14 <= upper <= 20
  /\ (0 <= age < upper ->
      exists band,
        BreedHealthData.getAgeSpecificAdvice profile age = Some band
        /\ In band (BreedHealthData.ageSpecificAdvice profile)
        /\ fst (BreedHealthData.ageRange band) <= age
           < snd (BreedHealthData.ageRange band))
  /\ (age < 0 \/ upper <= age ->
      BreedHealthData.getAgeSpecificAdvice profile age = None).
Proof.
  intros Hin upper.
  pose proof (database_bands profile Hin) as Hdb.
  apply andb_true_iff in Hdb. destruct Hdb as [Hdb H20].
  apply andb_true_iff in Hdb. destruct Hdb as [Hbands H14].
  apply Qleb_le in H14. apply Qleb_le in H20.
  destruct (bands_cover age _ 0 Hbands) as [_ [Hbelow [Habove Hcover]]].
  split; [split; assumption|].
  unfold BreedHealthData.getAgeSpecificAdvice.
  split; [exact Hcover|].
  intros [Hneg|Hpast]; [apply Hbelow; exact Hneg|].
  apply Habove; [exact Hpast|]. fold upper in H14. lra.
Qed.

Lemma getAgeSpecificAdvice_coverage_witness :
  BreedHealthData.getAgeSpecificAdvice BreedHealthData.maineCoon 20 = None.
Proof.
  apply (getAgeSpecificAdvice_coverage BreedHealthData.maineCoon 20
           (or_introl eq_refl)).
  right. vm_compute. discriminate.
Defined.

(** The first element of a filtered, sorted list: a least element among
    those that pass the filter, or nothing when none passes. *)
Lemma hd_sort_filter {A : Type} (key : A -> Q) (f : A -> bool) (l : list A) :
  match hd_error (JS.sort_by key (filter f l)) with
  | Some s =>
      In s l /\ f s = true
      /\ (forall s', In s' l -> f s' = true -> key s <= key s')
  | None => forall s', In s' l -> f s' = false
  end.
Proof.
  pose proof (sort_by_permutation key (filter f l)) as Hperm.
  pose proof (sort_by_sorted key (filter f l)) as Hsorted.
  destruct (JS.sort_by key (filter f l)) as [|s rest]; cbn [hd_error].
  - intros s' Hin. destruct (f s') eqn:E; trivial.
    assert (Hf : In s' (filter f l)) by (apply filter_In; split; assumption).
    apply (Permutation_in _ (Permutation_sym Hperm)) in Hf. contradiction.
  - assert (Hs : In s (filter f l))
      by (apply (Permutation_in _ Hperm); now left).
    apply filter_In in Hs. destruct Hs as [Hin Hf].
    split; [exact Hin|]. split; [exact Hf|].
    intros s' Hin' Hf'.
    assert (Hs' : In s' (s :: rest)).
    { apply (Permutation_in _ (Permutation_sym Hperm)).
      apply filter_In. split; assumption. }
    inversion Hsorted as [|s0 rest0 _ Hhd]; subst.
    destruct Hs' as [<-|Hs']; [apply Qle_refl|].
    rewrite Forall_forall in Hhd. apply Hhd. exact Hs'.
Qed.

(** X20: [getScreeningsForAge] returns a latest screening milestone at or
    before the age (none when every milestone is later), and
    [getUpcomingScreenings] an earliest milestone after the age (none
    when every milestone is at or before it). *)
Theorem screening_milestones_around_age
  (profile : BreedHealthData.BreedHealthProfile) (age : Q) :
  match BreedHealthData.getScreeningsForAge profile age with
  | Some s =>
      In s (BreedHealthData.screeningSchedule profile)
      /\ BreedHealthData.ageYears s <= age
      /\ (forall s',
            In s' (BreedHealthData.screeningSchedule profile) ->
            BreedHealthData.ageYears s' <= age ->
            BreedHealthData.ageYears s' <= BreedHealthData.ageYears s)
  | None =>
      forall s',
        In s' (BreedHealthData.screeningSchedule profile) ->
        age < BreedHealthData.ageYears s'
  end
  /\ match BreedHealthData.getUpcomingScreenings profile age with
     | Some s =>
         In s (BreedHealthData.screeningSchedule profile)
         /\ age < BreedHealthData.ageYears s
         /\ (forall s',
               In s' (BreedHealthData.screeningSchedule profile) ->
               age < BreedHealthData.ageYears s' ->
               BreedHealthData.ageYears s <= BreedHealthData.ageYears s')
     | None =>
         forall s',
           In s' (BreedHealthData.screeningSchedule profile) ->
           BreedHealthData.ageYears s' <= age
     end.
Proof.
  split.
  - unfold BreedHealthData.getScreeningsForAge. cbv zeta.
    pose proof (hd_sort_filter (fun s => - BreedHealthData.ageYears s)
                  (fun s => JS.Qleb (BreedHealthData.ageYears s) age)
                  (BreedHealthData.screeningSchedule profile)) as H.
    destruct (hd_error _) as [s|].
    + destruct H as [Hin [Hf Hmax]]. apply Qleb_le in Hf.
      split; [exact Hin|]. split; [exact Hf|].
      intros s' Hin' Hle. apply Qleb_le in Hle.
      specialize (Hmax s' Hin' Hle). cbv beta in Hmax. lra.
    + intros s' Hin'. specialize (H s' Hin'). cbv beta in H.
      apply Qnot_le_lt. intro Hle. apply Qleb_le in Hle. congruence.
  - unfold BreedHealthData.getUpcomingScreenings. cbv zeta.
    pose proof (hd_sort_filter BreedHealthData.ageYears
                  (fun s => JS.Qltb age (BreedHealthData.ageYears s))
                  (BreedHealthData.screeningSchedule profile)) as H.
    destruct (hd_error _) as [s|].
    + destruct H as [Hin [Hf Hmin]]. apply Qltb_lt in Hf.
      split; [exact Hin|]. split; [exact Hf|].
      intros s' Hin' Hlt. apply Qltb_lt in Hlt. exact (Hmin s' Hin' Hlt).
    + intros s' Hin'. specialize (H s' Hin'). cbv beta in H.
      apply Qltb_ge in H. exact H.
Qed.

(** ** Trajectory analysis, continued *)

Lemma sum_scores_bounds (l : list SimulationPoint.t) :
  forall acc,
    acc + inject_Z (Z.of_nat (List.length l))
    <= fold_left
         (fun sum p =>
            sum + SimulationEnhancer.statusScores (SimulationPoint.healthStatus p))
         l acc
    <= acc + 4 * inject_Z (Z.of_nat (List.length l)).
Proof.
  induction l as [|p l IH]; intro acc.
  - simpl. unfold inject_Z. lra.
  - cbn [fold_left List.length]. rewrite Nat2Z.inj_succ, <- Z.add_1_r, inject_Z_plus.
    specialize (IH (acc + SimulationEnhancer.statusScores (SimulationPoint.healthStatus p))).
    change (inject_Z 1) with 1.
    assert (Hs : 1 <= SimulationEnhancer.statusScores (SimulationPoint.healthStatus p) <= 4).
    { destruct (SimulationPoint.healthStatus p); simpl; lra. }
    lra.
Qed.

Lemma meanScore_bounds (l : list SimulationPoint.t) :
  l <> [] -> 1 <= SimulationEnhancer.meanScore l <= 4.
Proof.
  intro Hne. unfold SimulationEnhancer.meanScore.
  pose proof (sum_scores_bounds l 0) as [Hlo Hhi].
  assert (Hn : 0 < inject_Z (Z.of_nat (List.length l))).
  { destruct l as [|x l]; [congruence|].
    rewrite <- (Zlt_Qlt 0). simpl. lia. }
  split.
  - apply Qle_shift_div_l; [exact Hn | lra].
  - apply Qle_shift_div_r; [exact Hn | lra].
Qed.

(** X21: whatever the points, the profile and the routine, the average
    health score of [analyzeTrajectory] lies between 1 and 4. *)
Theorem analyzeTrajectory_average_in_range
  (points : list SimulationPoint.t) (catProfile : CatProfile.t)
  (careRoutine : CareRoutine.t) :
  1 <= HealthTrajectory.averageHealthScore
         (SimulationEnhancer.analyzeTrajectory points catProfile careRoutine)
    <= 4.
Proof.
  unfold SimulationEnhancer.analyzeTrajectory. cbv zeta.
  destruct (List.length (SimulationEnhancer.yearlyPointsOf points) <? 2)%nat eqn:E.
  - cbn [HealthTrajectory.averageHealthScore]. lra.
  - destruct (SimulationEnhancer.careFactors catProfile careRoutine)
      as [riskFactors positiveFactors].
    cbn [HealthTrajectory.averageHealthScore].
    apply meanScore_bounds.
    apply Nat.ltb_ge in E. intro H. rewrite H in E. simpl in E. lia.
Qed.

(** X22: [extrapolateStatus] never projects a better status for a lower
    average score, nor for year 15 or later than for an earlier year, nor
    for a declining trend than for a stable one, nor for a stable trend
    than for an improving one. *)
Theorem extrapolateStatus_monotone
  (avgScore avgScore' : Q) (trend : Trend.t) (targetYear targetYear' : Z) :
  (avgScore <= avgScore' ->
   (severityRank (SimulationEnhancer.extrapolateStatus avgScore' trend targetYear)
    <= severityRank (SimulationEnhancer.extrapolateStatus avgScore trend targetYear))%nat)
  /\ ((targetYear <= targetYear')%Z ->
      (severityRank (SimulationEnhancer.extrapolateStatus avgScore trend targetYear)
       <= severityRank (SimulationEnhancer.extrapolateStatus avgScore trend targetYear'))%nat)
  /\ (severityRank (SimulationEnhancer.extrapolateStatus avgScore Trend.improving targetYear)
      <= severityRank (SimulationEnhancer.extrapolateStatus avgScore Trend.stable targetYear)
      <= severityRank
           (SimulationEnhancer.extrapolateStatus avgScore Trend.declining targetYear))%nat.
Proof.
  assert (Hbucket : forall a b : Q, a <= b ->
    (severityRank
       (if JS.Qleb 3.5 b then thriving
        else if JS.Qleb 2.5 b then ok
        else if JS.Qleb 1.5 b then risky else unhealthy)
     <= severityRank
          (if JS.Qleb 3.5 a then thriving
           else if JS.Qleb 2.5 a then ok
           else if JS.Qleb 1.5 a then risky else unhealthy))%nat).
  { intros a b Hab.
    destruct (JS.Qleb 3.5 b) eqn:B1; destruct (JS.Qleb 2.5 b) eqn:B2;
      destruct (JS.Qleb 1.5 b) eqn:B3;
      destruct (JS.Qleb 3.5 a) eqn:A1; destruct (JS.Qleb 2.5 a) eqn:A2;
      destruct (JS.Qleb 1.5 a) eqn:A3; simpl; try lia; exfalso;
      repeat match goal with
        | H : JS.Qleb _ _ = true |- _ => apply Qleb_le in H
        | H : JS.Qleb ?x ?y = false |- _ =>
            assert (y < x)
              by (apply Qnot_le_lt; intro Hc; apply Qleb_le in Hc; congruence);
            clear H
        end; lra. }
  unfold SimulationEnhancer.extrapolateStatus. cbv zeta.
  split; [|split].
  - intro Hle. apply Hbucket.
    destruct trend; destruct (15 <=? targetYear)%Z; lra.
  - intro Hle.
    destruct (15 <=? targetYear)%Z eqn:E1; destruct (15 <=? targetYear')%Z eqn:E2;
      try (apply Hbucket; destruct trend; lra).
    apply Z.leb_le in E1. apply Z.leb_gt in E2. lia.
  - split; apply Hbucket; destruct (15 <=? targetYear)%Z; lra.
Qed.

Lemma extrapolateStatus_monotone_witness :
  (severityRank (SimulationEnhancer.extrapolateStatus 3.6 Trend.stable 10)
   <= severityRank (SimulationEnhancer.extrapolateStatus 3.6 Trend.stable 15))%nat.
Proof.
  apply (proj1 (proj2 (extrapolateStatus_monotone 3.6 3.6 Trend.stable 10 15))).
  lia.
Defined.

(** ** The progressive timeline *)

Lemma generateYearRecommendations_year (year : Z) (catProfile : CatProfile.t)
  (careRoutine : CareRoutine.t) (trajectory : HealthTrajectory.t)
  (breedProfile : option BreedHealthData.BreedHealthProfile) (catName : string) :
  Forall (fun r => ProgressiveRecommendation.ageYears r = year)
    (SimulationEnhancer.generateYearRecommendations year catProfile careRoutine
       trajectory breedProfile catName).
Proof.
  unfold SimulationEnhancer.generateYearRecommendations. cbv zeta.
  assert (Hrisks : forall risks : list BreedHealthData.HealthRisk,
    Forall (fun r => ProgressiveRecommendation.ageYears r = year)
      (flat_map
         (fun risk =>
            if JS.Qeqb (BreedHealthData.typicalOnsetYears risk) (inject_Z year) then
              [SimulationEnhancer.mkRec year Category.monitoring
                 ("Begin " ++ BreedHealthData.condition risk ++ " monitoring")
                 (BreedHealthData.monitoringAdvice risk)
                 match BreedHealthData.riskLevel risk with
                 | BreedHealthData.high => Priority.high
                 | _ => Priority.medium
                 end]
            else [])
         risks)).
  { intro risks. apply Forall_flat_map. apply Forall_forall. intros risk _.
    destruct (JS.Qeqb _ _); repeat constructor. }
  repeat lazymatch goal with
    | |- Forall _ (if ?b then _ else _) => destruct b
    | |- Forall _ (match ?x with _ => _ end) => destruct x
    | |- Forall _ (_ ++ _)%list => apply Forall_app; split
    | |- Forall _ [] => constructor
    | |- Forall _ (_ :: _) => constructor; [reflexivity|]
    | |- Forall _ (flat_map _ _) => apply Hrisks
    end.
Qed.

Lemma StronglySorted_app {A : Type} (R : A -> A -> Prop) (l1 l2 : list A) :
  StronglySorted R l1 -> StronglySorted R l2 ->
  (forall x y, In x l1 -> In y l2 -> R x y) ->
  StronglySorted R (l1 ++ l2).
Proof.
  intros H1 H2 H12. induction H1 as [|x l1 Hs IH Hx]; simpl; [exact H2|].
  constructor.
  - apply IH. intros a b Ha Hb. apply H12; [now right | exact Hb].
  - apply Forall_app. split; [exact Hx|].
    apply Forall_forall. intros y Hy. apply H12; [now left | exact Hy].
Qed.

Lemma timelineLoop_years (body : Z -> list ProgressiveRecommendation.t) :
  (forall year, Forall (fun r => ProgressiveRecommendation.ageYears r = year) (body year)) ->
  forall (fuel : nat) (year : Z),
    Forall (fun r => (year <= ProgressiveRecommendation.ageYears r <= 20)%Z)
      (SimulationEnhancer.timelineLoop body fuel year)
    /\ StronglySorted
         (fun a b =>
            (ProgressiveRecommendation.ageYears a
             <= ProgressiveRecommendation.ageYears b)%Z)
         (SimulationEnhancer.timelineLoop body fuel year).
Proof.
  intro Hbody. induction fuel as [|fuel IH]; intro year; simpl.
  - split; constructor.
  - destruct (year <=? 20)%Z eqn:E; [|split; constructor].
    apply Z.leb_le in E.
    destruct (IH (year + 1)%Z) as [IHf IHs].
    pose proof (Hbody year) as Hy. rewrite Forall_forall in Hy, IHf.
    split.
    + apply Forall_app. split; apply Forall_forall; intros r Hr.
      * rewrite (Hy r Hr). lia.
      * specialize (IHf r Hr). lia.
    + apply StronglySorted_app; [|exact IHs|].
      * clear IHf IHs. induction (body year) as [|r l IHl]; constructor.
        -- apply IHl. intros x Hx. apply Hy. now right.
        -- apply Forall_forall. intros x Hx.
           rewrite (Hy r (or_introl eq_refl)), (Hy x (or_intror Hx)). lia.
      * intros x y Hx Hy'. rewrite (Hy x Hx). specialize (IHf y Hy'). lia.
Qed.

(** X23: the progressive timeline lists recommendations for the years
    from max(1, current age in years) to 20 only, in non-decreasing order
    of year, and is empty for a cat older than 20 years. *)
Theorem generateProgressiveTimeline_years
  (catProfile : CatProfile.t) (careRoutine : CareRoutine.t)
  (trajectory : HealthTrajectory.t)
  (breedProfile : option BreedHealthData.BreedHealthProfile) :
  let timeline :=
    SimulationEnhancer.generateProgressiveTimeline catProfile careRoutine trajectory
      breedProfile in
  let firstYear := (Z.max 1 (nullish (CatProfile.ageYears catProfile) 1))%Z in
  Forall (fun r => (firstYear <= ProgressiveRecommendation.ageYears r <= 20)%Z) timeline
  /\ StronglySorted
       (fun a b =>
          (ProgressiveRecommendation.ageYears a
           <= ProgressiveRecommendation.ageYears b)%Z)
       timeline
  /\ ((20 < firstYear)%Z -> timeline = []).
Proof.
  intros timeline firstYear. subst timeline.
  unfold SimulationEnhancer.generateProgressiveTimeline. cbv zeta. fold firstYear.
  destruct (timelineLoop_years
              (fun year =>
                 SimulationEnhancer.generateYearRecommendations year catProfile
                   careRoutine trajectory breedProfile (catName_of catProfile))
              (fun year => generateYearRecommendations_year year _ _ _ _ _)
              (Z.to_nat (20 - firstYear + 1)) firstYear) as [Hf Hs].
  split; [exact Hf|]. split; [exact Hs|].
  intro Hold. replace (Z.to_nat (20 - firstYear + 1)) with O by lia. reflexivity.
Qed.

Lemma generateProgressiveTimeline_years_witness :
  SimulationEnhancer.generateProgressiveTimeline
    {| CatProfile.name := None;
       CatProfile.ageYears := Some 21%Z;
       CatProfile.ageMonths := None;
       CatProfile.breed := None;
       CatProfile.indoorOutdoor := None;
       CatProfile.weightKg := None;
       CatProfile.knownConditions := [] |}
    exampleRoutine
    (SimulationEnhancer.analyzeTrajectory [] exampleProfile exampleRoutine)
    None
  = [].
Proof.
  apply (proj2 (proj2 (generateProgressiveTimeline_years
                         {| CatProfile.name := None;
                            CatProfile.ageYears := Some 21%Z;
                            CatProfile.ageMonths := None;
                            CatProfile.breed := None;
                            CatProfile.indoorOutdoor := None;
                            CatProfile.weightKg := None;
                            CatProfile.knownConditions := [] |}
                         exampleRoutine
                         (SimulationEnhancer.analyzeTrajectory [] exampleProfile
                            exampleRoutine)
                         None))).
  vm_compute. reflexivity.
Defined.

(** ** External notes are additive *)

Lemma mergeNote_merged (notes : list EnhancedMilestoneNote.t)
  (point : EnhancedSimulationPoint.t) :
  noteMerged notes point (SimulationEnhancer.mergeNote notes point).
Proof.
  unfold noteMerged, SimulationEnhancer.mergeNote. cbv zeta.
  destruct (find _ notes) as [note|] eqn:E; [|now left].
  right. apply find_some in E. destruct E as [Hin Hyear].
  exists note. split; [exact Hin|]. split; [apply Qeqb_eq; exact Hyear|].
  repeat split.
Qed.

Lemma Forall2_map_right {A B : Type} (R : A -> B -> Prop) (f : A -> B) (l : list A) :
  (forall x, R x (f x)) -> Forall2 R l (map f l).
Proof.
  intro H. induction l as [|x l IH]; simpl; constructor; [apply H | exact IH].
Qed.

Lemma find_first {A : Type} (f : A -> bool) (l : list A) (x : A) :
  find f l = Some x ->
  exists earlier later,
    l = (earlier ++ x :: later)%list
    /\ (forall y, In y earlier -> f y = false)
    /\ f x = true.
Proof.
  induction l as [|a l IH]; simpl; [discriminate|].
  destruct (f a) eqn:E.
  - intro H. injection H as <-. exists [], l. repeat split; [contradiction | exact E].
  - intro H. destruct (IH H) as [earlier [later [-> [Hearly Hx]]]].
    exists (a :: earlier), later. repeat split; [|exact Hx].
    intros y [<-|Hy]; [exact E | apply Hearly, Hy].
Qed.

Lemma mergeNote_firstNoteTaken (notes : list EnhancedMilestoneNote.t)
  (point : EnhancedSimulationPoint.t) :
  firstNoteTaken notes point (SimulationEnhancer.mergeNote notes point).
Proof.
  unfold firstNoteTaken, SimulationEnhancer.mergeNote. cbv zeta.
  destruct (find _ notes) as [note|] eqn:E.
  - right. destruct (find_first _ _ _ E) as [earlier [later [Hsplit [Hearly Hnote]]]].
    exists earlier, note, later. split; [exact Hsplit|]. split.
    + intros n Hn Hyear. apply Qeqb_eq in Hyear.
      rewrite (Hearly n Hn) in Hyear. discriminate.
    + split; [apply Qeqb_eq; exact Hnote|]. repeat split.
  - left. split; [|reflexivity].
    intros note Hin Hyear. apply Qeqb_eq in Hyear.
    pose proof (find_none _ _ E note Hin) as Hnone. cbv beta in Hnone.
    rewrite Hyear in Hnone. discriminate.
Qed.

(** X24: the external notes are additive only.  However the call to the
    note service ends, [enhanceSimulationWithGPT] returns the alerts,
    summary, recommendations, trajectory, breed profile and progressive
    timeline of the local enhancement; and when notes are received, each
    enhanced point with no supplied note of its year is left as it is,
    and each other point gets, from the first supplied note of its year,
    the personalized note as its notes and the note as its enhanced note,
    keeping its breed health risks and its simulated values. *)
Theorem enhanceSimulationWithGPT_additive
  (result : SimulationResult.t) (catProfile : CatProfile.t)
  (careRoutine : CareRoutine.t) (outcome : SimulationEnhancer.FetchOutcome)
  (notes : list EnhancedMilestoneNote.t) :
  let localEnhanced :=
    SimulationEnhancer.enhanceSimulationLocally result catProfile careRoutine in
  let gptEnhanced :=
    SimulationEnhancer.enhanceSimulationWithGPT result catProfile careRoutine outcome in
  (EnhancedSimulationResult.alerts gptEnhanced
   = EnhancedSimulationResult.alerts localEnhanced
   /\ EnhancedSimulationResult.summary gptEnhanced
      = EnhancedSimulationResult.summary localEnhanced
   /\ EnhancedSimulationResult.recommendations gptEnhanced
      = EnhancedSimulationResult.recommendations localEnhanced
   /\ EnhancedSimulationResult.trajectory gptEnhanced
      = EnhancedSimulationResult.trajectory localEnhanced
   /\ EnhancedSimulationResult.breedProfile gptEnhanced
      = EnhancedSimulationResult.breedProfile localEnhanced
   /\ EnhancedSimulationResult.progressiveTimeline gptEnhanced
      = EnhancedSimulationResult.progressiveTimeline localEnhanced
   /\ EnhancedSimulationResult.isEnhanced gptEnhanced = true)
  /\ (outcome = notesReceived notes ->
      Forall2 (noteMerged notes)
        (EnhancedSimulationResult.enhancedPoints localEnhanced)
        (EnhancedSimulationResult.enhancedPoints gptEnhanced)
      /\ Forall2 (firstNoteTaken notes)
           (EnhancedSimulationResult.enhancedPoints localEnhanced)
           (EnhancedSimulationResult.enhancedPoints gptEnhanced)).
Proof.
  intros localEnhanced gptEnhanced. split.
  - subst gptEnhanced. unfold SimulationEnhancer.enhanceSimulationWithGPT.
    fold localEnhanced.
    destruct outcome as [|[|] [|[|[|] [|notes'|]]]]; cbn; repeat split.
  - intros ->. subst gptEnhanced.
    unfold SimulationEnhancer.enhanceSimulationWithGPT. fold localEnhanced.
    cbn. split; apply Forall2_map_right; intro p;
      [apply mergeNote_merged | apply mergeNote_firstNoteTaken].
Qed.

(** With the note for the age of two, every point of the third year
    takes the note. *)
Lemma enhanceSimulationWithGPT_additive_witness :
  Forall2 (firstNoteTaken [yearTwoNote])
    (EnhancedSimulationResult.enhancedPoints
       (SimulationEnhancer.enhanceSimulationLocally thirdYearResult exampleProfile
          exampleRoutine))
    (EnhancedSimulationResult.enhancedPoints
       (SimulationEnhancer.enhanceSimulationWithGPT thirdYearResult exampleProfile
          exampleRoutine (notesReceived [yearTwoNote])))
  /\ map EnhancedSimulationPoint.notes
       (EnhancedSimulationResult.enhancedPoints
          (SimulationEnhancer.enhanceSimulationLocally thirdYearResult exampleProfile
             exampleRoutine))
     = [""; ""; ""]
  /\ map EnhancedSimulationPoint.notes
       (EnhancedSimulationResult.enhancedPoints
          (SimulationEnhancer.enhanceSimulationWithGPT thirdYearResult exampleProfile
             exampleRoutine (notesReceived [yearTwoNote])))
     = ["Tom is settling into adult life."; "Tom is settling into adult life.";
        "Tom is settling into adult life."].
Proof.
  split; [|split; vm_compute; reflexivity].
  apply (proj2 (enhanceSimulationWithGPT_additive thirdYearResult exampleProfile
                  exampleRoutine (notesReceived [yearTwoNote]) [yearTwoNote])).
  reflexivity.
Defined.

(** ** Phone numbers *)

Lemma keep_all_chars (p : ascii -> bool) (s : string) :
  Notifications.all_chars p (Notifications.keep p s) = true.
Proof.
  induction s as [|c s IH]; simpl; [reflexivity|].
  destruct (p c) eqn:E; simpl; [rewrite E|]; exact IH.
Qed.

Lemma keep_unchanged (p : ascii -> bool) (s : string) :
  Notifications.all_chars p s = true -> Notifications.keep p s = s.
Proof.
  induction s as [|c s IH]; simpl; [reflexivity|].
  intro H. apply andb_true_iff in H. destruct H as [Hc Hs].
  rewrite Hc, (IH Hs). reflexivity.
Qed.

Lemma all_chars_impl (p q : ascii -> bool) (s : string) :
  (forall c, p c = true -> q c = true) ->
  Notifications.all_chars p s = true -> Notifications.all_chars q s = true.
Proof.
  intro Hpq. induction s as [|c s IH]; simpl; [reflexivity|].
  intro H. apply andb_true_iff in H. destruct H as [Hc Hs].
  rewrite (Hpq c Hc), (IH Hs). reflexivity.
Qed.

Lemma digit_facts (c : ascii) :
  Notifications.is_digit c = true ->
  JS.is_space c = false /\ Ascii.eqb "+" c = false.
Proof.
  destruct c as [[] [] [] [] [] [] [] []]; vm_compute; intro H;
    first [discriminate H | split; reflexivity].
Qed.

Lemma substring_whole (s : string) : String.substring 0 (String.length s) s = s.
Proof.
  induction s as [|c s IH]; simpl; [reflexivity|]. rewrite IH. reflexivity.
Qed.

Lemma normalizePhoneNumber_shape (phone : string) :
  JS.startsWith (Notifications.normalizePhoneNumber phone) "+" = true
  /\ Notifications.all_chars (fun c => Notifications.is_digit c || Ascii.eqb c "+")
       (Notifications.normalizePhoneNumber phone) = true.
Proof.
  unfold Notifications.normalizePhoneNumber. cbv zeta.
  pose proof (keep_all_chars (fun c => Notifications.is_digit c || Ascii.eqb c "+") phone)
    as Hall.
  set (kept := Notifications.keep _ phone) in *.
  destruct (JS.startsWith kept "+") eqn:E; [split; assumption|].
  split; [reflexivity|].
  destruct (JS.startsWith kept "1" && (String.length kept =? 11)%nat); [|exact Hall].
  destruct kept as [|c rest]; [reflexivity|].
  cbn [String.length]. rewrite Nat.sub_succ, Nat.sub_0_r.
  cbn [String.substring append]. rewrite substring_whole.
  cbn [Notifications.all_chars] in *. apply andb_true_iff in Hall.
  destruct Hall as [_ Hrest]. exact Hrest.
Qed.

Lemma valid_with_us_prefix (digits : string) :
  Notifications.all_chars Notifications.is_digit digits = true ->
  (9 <= String.length digits <= 14)%nat ->
  Notifications.isValidPhoneNumber ("+1" ++ digits) = true.
Proof.
  intros Hd Hlen. unfold Notifications.isValidPhoneNumber.
  rewrite keep_unchanged.
  - cbn [append]. cbn iota beta.
    change (Notifications.is_digit "1") with true.
    change (Ascii.eqb "1" "0") with false.
    rewrite Hd. cbn [negb andb].
    apply andb_true_iff. split; apply Nat.leb_le; lia.
  - cbn [append Notifications.all_chars].
    change (JS.is_space "+") with false. change (JS.is_space "1") with false.
    cbn [negb andb].
    apply (all_chars_impl Notifications.is_digit); [|exact Hd].
    intros c Hc. destruct (digit_facts c Hc) as [Hsp _]. rewrite Hsp. reflexivity.
Qed.

(** X25: [normalizePhoneNumber] always returns a plus sign followed by
    digits and plus signs only, and normalizing twice changes nothing
    more.  A number written with exactly ten digits (and any
    punctuation, no plus sign), or with eleven digits of which the first
    is 1, normalizes to a number that [isValidPhoneNumber] accepts. *)
Theorem normalizePhoneNumber_valid (phone : string) :
  let kept :=
    Notifications.keep (fun c => Notifications.is_digit c || Ascii.eqb c "+") phone in
  JS.startsWith (Notifications.normalizePhoneNumber phone) "+" = true
  /\ Notifications.normalizePhoneNumber (Notifications.normalizePhoneNumber phone)
     = Notifications.normalizePhoneNumber phone
  /\ (Notifications.all_chars Notifications.is_digit kept = true ->
      String.length kept = 10%nat
      \/ (String.length kept = 11%nat /\ JS.startsWith kept "1" = true) ->
      Notifications.isValidPhoneNumber (Notifications.normalizePhoneNumber phone) = true).
Proof.
  intro kept.
  destruct (normalizePhoneNumber_shape phone) as [Hplus Hall].
  split; [exact Hplus|]. split.
  - unfold Notifications.normalizePhoneNumber at 1. cbv zeta.
    rewrite (keep_unchanged _ _ Hall), Hplus. reflexivity.
  - intros Hdigits Hlen.
    unfold Notifications.normalizePhoneNumber. cbv zeta. fold kept.
    destruct kept as [|c rest] eqn:Ek; [simpl in Hlen; lia|].
    pose proof Hdigits as Hall'.
    cbn [Notifications.all_chars] in Hdigits. apply andb_true_iff in Hdigits.
    destruct Hdigits as [Hc Hrest].
    destruct (digit_facts c Hc) as [_ Hnotplus].
    cbn [JS.startsWith]. rewrite Hnotplus. cbn [andb].
    destruct Hlen as [H10|[H11 H1]].
    + rewrite H10. rewrite andb_false_r.
      apply valid_with_us_prefix; [exact Hall' | lia].
    + cbn [JS.startsWith] in H1. rewrite andb_true_r in H1.
      assert (Econd : (String.length (String c rest) =? 11)%nat = true)
        by (rewrite H11; reflexivity).
      rewrite H1, Econd. cbn [andb].
      cbn [String.length] in *. rewrite Nat.sub_succ, Nat.sub_0_r.
      cbn [String.substring]. rewrite substring_whole.
      apply valid_with_us_prefix; [exact Hrest | lia].
Qed.

Lemma normalizePhoneNumber_valid_witness :
  Notifications.isValidPhoneNumber
    (Notifications.normalizePhoneNumber "(555) 123-4567") = true.
Proof.
  apply (proj2 (proj2 (normalizePhoneNumber_valid "(555) 123-4567"))).
  - vm_compute. reflexivity.
  - left. vm_compute. reflexivity.
Defined.

(** ** Where alerts are placed *)

Section AlertAges.

Variable catName : string.
Variable careRoutine : CareRoutine.t.
Variable idealRange : BreedHealthData.Range.
Variable points : list SimulationPoint.t.

Let atPoint (a : SimulationAlert.t) : Prop :=
  exists p, In p points
            /\ SimulationAlert.ageMonths a = inject_Z (SimulationPoint.ageMonths p).

Lemma alertStep_atPoint (st : Simulation.AlertLoop) (point : SimulationPoint.t) :
  In point points ->
  Forall atPoint (Simulation.pushed st) ->
  Forall atPoint
    (Simulation.pushed (Simulation.alertStep catName careRoutine idealRange st point)).
Proof.
  intros Hin Hst. unfold Simulation.alertStep. cbv zeta. cbn [Simulation.pushed].
  assert (Hnew : forall a,
            SimulationAlert.ageMonths a = inject_Z (SimulationPoint.ageMonths point) ->
            atPoint a).
  { intros a Ha. exists point. split; assumption. }
  repeat lazymatch goal with
    | |- Forall _ (if ?b then _ else _) => destruct b
    | |- Forall _ (_ ++ [_])%list =>
        apply Forall_app; split; [|constructor; [apply Hnew; reflexivity | constructor]]
    end;
    exact Hst.
Qed.

Lemma alertLoop_atPoint (visited : list SimulationPoint.t) :
  incl visited points ->
  forall st,
    Forall atPoint (Simulation.pushed st) ->
    Forall atPoint
      (Simulation.pushed
         (fold_left (Simulation.alertStep catName careRoutine idealRange) visited st)).
Proof.
  induction visited as [|p visited IH]; intros Hincl st Hst; [exact Hst|].
  cbn [fold_left]. apply IH.
  - intros x Hx. apply Hincl. now right.
  - apply alertStep_atPoint; [apply Hincl; now left | exact Hst].
Qed.

End AlertAges.

(** X26: every alert of [generateAlerts] is placed at the age of one of
    the points it was given: no alert for a month that was not
    simulated. *)
Theorem generateAlerts_at_simulated_months
  (points : list SimulationPoint.t) (catProfile : CatProfile.t)
  (careRoutine : CareRoutine.t) (idealRange : BreedHealthData.Range) :
  Forall
    (fun a =>
       exists p, In p points
                 /\ SimulationAlert.ageMonths a
                    = inject_Z (SimulationPoint.ageMonths p))
    (Simulation.generateAlerts points catProfile careRoutine idealRange).
Proof.
  unfold Simulation.generateAlerts.
  apply (Permutation_Forall (Permutation_sym (sort_by_permutation _ _))).
  unfold Simulation.unsortedAlerts. cbv zeta.
  apply Forall_app. split.
  - apply (alertLoop_atPoint (catName_of catProfile) careRoutine idealRange points
             points (incl_refl points)).
    constructor.
  - apply Forall_forall. intros a Ha. apply in_map_iff in Ha.
    destruct Ha as [m [<- Hm]]. apply filter_In in Hm. destruct Hm as [_ Hfound].
    destruct (find _ points) as [p|] eqn:E; [|discriminate].
    apply find_some in E. destruct E as [Hp Hage]. apply Z.eqb_eq in Hage.
    exists p. split; [exact Hp|].
    unfold Simulation.milestoneAlert. cbn [SimulationAlert.ageMonths].
    rewrite Hage. reflexivity.
Qed.

(** X27: no breed-specific alert is placed before the start month
    12 * (ageYears ?? 1): risks and screenings of the past are left out
    and a pre-warning is never earlier than the start. *)
Theorem generateBreedSpecificAlerts_not_before_start
  (catProfile : CatProfile.t) (careRoutine : CareRoutine.t)
  (points : list SimulationPoint.t) :
  Forall
    (fun a =>
       inject_Z (nullish (CatProfile.ageYears catProfile) 1%Z) * 12
       <= SimulationAlert.ageMonths a)
    (SimulationEnhancer.generateBreedSpecificAlerts catProfile careRoutine points).
Proof.
  unfold SimulationEnhancer.generateBreedSpecificAlerts. cbv zeta.
  apply (Permutation_Forall (Permutation_sym (sort_by_permutation _ _))).
  apply Forall_app. split; apply Forall_flat_map; apply Forall_forall; intros x _.
  - unfold SimulationEnhancer.riskAlerts. cbv zeta.
    destruct (JS.Qleb _ _) eqn:E; [|constructor].
    apply Qleb_le in E.
    apply Forall_app. split.
    + destruct (negb _); constructor; [|constructor].
      cbn [SimulationEnhancer.preWarningAlert SimulationAlert.ageMonths].
      apply Math_max_lub_r.
    + constructor; [exact E | constructor].
  - unfold SimulationEnhancer.screeningAlerts. cbv zeta.
    destruct (JS.Qleb _ _) eqn:E; constructor; [|constructor].
    apply Qleb_le in E. exact E.
Qed.

(** ** Trend of a constant status *)

Lemma sum_scores_constant (s : HealthStatus) (l : list SimulationPoint.t) :
  Forall (fun p => SimulationPoint.healthStatus p = s) l ->
  forall acc,
    fold_left
      (fun sum p =>
         sum + SimulationEnhancer.statusScores (SimulationPoint.healthStatus p))
      l acc
    == acc + SimulationEnhancer.statusScores s * inject_Z (Z.of_nat (List.length l)).
Proof.
  intro H. induction H as [|p l Hp Hl IH]; intro acc.
  - simpl. unfold inject_Z. ring.
  - cbn [fold_left List.length]. rewrite IH, Hp.
    rewrite Nat2Z.inj_succ, <- Z.add_1_r, inject_Z_plus.
    change (inject_Z 1) with 1. ring.
Qed.

Lemma meanScore_constant (s : HealthStatus) (l : list SimulationPoint.t) :
  l <> [] ->
  Forall (fun p => SimulationPoint.healthStatus p = s) l ->
  SimulationEnhancer.meanScore l == SimulationEnhancer.statusScores s.
Proof.
  intros Hne H. unfold SimulationEnhancer.meanScore.
  rewrite (sum_scores_constant s l H 0).
  field. apply length_as_Q_nonzero. exact Hne.
Qed.

(** X28: when there are at least two yearly points and all of them have
    the same status, [analyzeTrajectory] reports the trend "stable" and
    the score of that status as the average health score. *)
Theorem analyzeTrajectory_constant_status
  (points : list SimulationPoint.t) (catProfile : CatProfile.t)
  (careRoutine : CareRoutine.t) (status : HealthStatus) :
  (2 <= List.length (SimulationEnhancer.yearlyPointsOf points))%nat ->
  Forall (fun p => SimulationPoint.healthStatus p = status)
    (SimulationEnhancer.yearlyPointsOf points) ->
  let trajectory := SimulationEnhancer.analyzeTrajectory points catProfile careRoutine in
  HealthTrajectory.trend trajectory = Trend.stable
  /\ HealthTrajectory.averageHealthScore trajectory
     == SimulationEnhancer.statusScores status.
Proof.
  intros Hlen Hall trajectory. subst trajectory.
  unfold SimulationEnhancer.analyzeTrajectory. cbv zeta.
  set (yearly := SimulationEnhancer.yearlyPointsOf points) in *.
  assert (E : (List.length yearly <? 2)%nat = false) by (apply Nat.ltb_ge; exact Hlen).
  rewrite E.
  destruct (SimulationEnhancer.careFactors catProfile careRoutine)
    as [riskFactors positiveFactors].
  cbn [HealthTrajectory.trend HealthTrajectory.averageHealthScore].
  assert (Hmid : (1 <= Nat.div (List.length yearly) 2 < List.length yearly)%nat).
  { pose proof (Nat.div_mod_eq (List.length yearly) 2) as Hdm.
    pose proof (Nat.mod_upper_bound (List.length yearly) 2 ltac:(lia)) as Hm.
    lia. }
  assert (Hfirst : SimulationEnhancer.meanScore
                     (firstn (Nat.div (List.length yearly) 2) yearly)
                   == SimulationEnhancer.statusScores status).
  { apply meanScore_constant.
    - intro H. apply (f_equal (@List.length _)) in H.
      rewrite length_firstn in H. cbn [List.length] in H. lia.
    - apply Forall_forall. intros p Hp. rewrite Forall_forall in Hall.
      apply Hall. rewrite <- (firstn_skipn (Nat.div (List.length yearly) 2) yearly).
      apply in_or_app. left. exact Hp. }
  assert (Hsecond : SimulationEnhancer.meanScore
                      (skipn (Nat.div (List.length yearly) 2) yearly)
                    == SimulationEnhancer.statusScores status).
  { apply meanScore_constant.
    - intro H. apply (f_equal (@List.length _)) in H.
      rewrite length_skipn in H. cbn [List.length] in H. lia.
    - apply Forall_forall. intros p Hp. rewrite Forall_forall in Hall.
      apply Hall. rewrite <- (firstn_skipn (Nat.div (List.length yearly) 2) yearly).
      apply in_or_app. right. exact Hp. }
  split.
  - destruct (JS.Qltb (_ + 0.3) _) eqn:E1.
    + apply Qltb_lt in E1. rewrite Hfirst, Hsecond in E1. lra.
    + destruct (JS.Qltb _ (_ - 0.3)) eqn:E2; [|reflexivity].
      apply Qltb_lt in E2. rewrite Hfirst, Hsecond in E2. lra.
  - apply meanScore_constant; [|exact Hall].
    intro H. rewrite H in Hlen. simpl in Hlen. lia.
Qed.

Lemma analyzeTrajectory_constant_status_witness :
  HealthTrajectory.trend
    (SimulationEnhancer.analyzeTrajectory (pointsWithStatuses 24 (repeat risky 13))
       exampleProfile exampleRoutine)
  = Trend.stable.
Proof.
  apply (proj1 (analyzeTrajectory_constant_status
                  (pointsWithStatuses 24 (repeat risky 13)) exampleProfile
                  exampleRoutine risky
                  ltac:(vm_compute; lia)
                  ltac:(vm_compute; repeat constructor))).
Defined.

(** ** Ages beyond the tables of the registry *)

Lemma database_tablesEndEarly :
  forall profile,
    In profile BreedHealthData.BREED_HEALTH_DATABASE -> tablesEndEarly profile = true.
Proof.
  apply forallb_forall. vm_compute. reflexivity.
Qed.

Lemma Qeqb_false_of_lt (a b : Q) : a < b -> JS.Qeqb a b = false.
Proof.
  intro H. destruct (JS.Qeqb a b) eqn:E; trivial.
  apply Qeqb_eq in E. rewrite E in H. exfalso. exact (Qlt_irrefl _ H).
Qed.

Lemma getAgeSpecificAdvice_beyond
  (profile : BreedHealthData.BreedHealthProfile) (age : Q) :
  In profile BreedHealthData.BREED_HEALTH_DATABASE ->
  20 <= age ->
  BreedHealthData.getAgeSpecificAdvice profile age = None.
Proof.
  intros Hin H20.
  pose proof (database_bands profile Hin) as Hdb.
  apply andb_true_iff in Hdb. destruct Hdb as [Hdb Hup].
  apply andb_true_iff in Hdb. destruct Hdb as [Hbands _].
  apply Qleb_le in Hup.
  destruct (bands_cover age _ 0 Hbands) as [_ [_ [Habove _]]].
  unfold BreedHealthData.getAgeSpecificAdvice. apply Habove; lra.
Qed.

(** X29: for every profile of the database, [getBreedAlertsForAge] has
    nothing to say about risks and screenings for an age above 12 years
    (no typical onset is later than 10 years, no screening milestone
    later than 12), and no advice either from 20 years on. *)
Theorem getBreedAlertsForAge_beyond_tables
  (profile : BreedHealthData.BreedHealthProfile) (age : Q) :
  In profile BreedHealthData.BREED_HEALTH_DATABASE ->
  12 < age ->
  BreedHealthData.ba_alerts (BreedHealthData.getBreedAlertsForAge profile age) = []
  /\ BreedHealthData.ba_screenings (BreedHealthData.getBreedAlertsForAge profile age) = []
  /\ (20 <= age ->
      BreedHealthData.ba_advice (BreedHealthData.getBreedAlertsForAge profile age) = []).
Proof.
  intros Hin Hage.
  pose proof (database_tablesEndEarly profile Hin) as Hearly.
  unfold tablesEndEarly in Hearly. apply andb_true_iff in Hearly.
  destruct Hearly as [Hrisks Hsched]. rewrite forallb_forall in Hrisks, Hsched.
  unfold BreedHealthData.getBreedAlertsForAge. cbv zeta.
  cbn [BreedHealthData.ba_alerts BreedHealthData.ba_screenings BreedHealthData.ba_advice].
  split; [|split].
  - induction (BreedHealthData.healthRisks profile) as [|risk risks IH]; [reflexivity|].
    cbn [flat_map].
    assert (Hr : BreedHealthData.typicalOnsetYears risk <= 10)
      by (apply Qleb_le, Hrisks; now left).
    rewrite (Qeqb_false_of_lt _ age) by lra.
    rewrite (Qeqb_false_of_lt _ (age + 1)) by lra.
    apply IH. intros x Hx. apply Hrisks. now right.
  - destruct (find _ (BreedHealthData.screeningSchedule profile)) as [s|] eqn:E;
      [|reflexivity].
    apply find_some in E. destruct E as [Hs Heq].
    apply Qeqb_eq in Heq. specialize (Hsched s Hs). apply Qleb_le in Hsched. lra.
  - intro H20.
    rewrite (getAgeSpecificAdvice_beyond profile age Hin H20). reflexivity.
Qed.

Lemma getBreedAlertsForAge_beyond_tables_witness :
  BreedHealthData.ba_alerts
    (BreedHealthData.getBreedAlertsForAge BreedHealthData.maineCoon 13) = [].
Proof.
  apply (getBreedAlertsForAge_beyond_tables BreedHealthData.maineCoon 13
           (or_introl eq_refl)).
  vm_compute. reflexivity.
Defined.

(** ** The entry points of the simulator *)

Lemma enhanceSimulationWithGPT_points (result : SimulationResult.t)
  (catProfile : CatProfile.t) (careRoutine : CareRoutine.t)
  (outcome : SimulationEnhancer.FetchOutcome) :
  let localEnhanced :=
    SimulationEnhancer.enhanceSimulationLocally result catProfile careRoutine in
  let gptEnhanced :=
    SimulationEnhancer.enhanceSimulationWithGPT result catProfile careRoutine outcome in
  EnhancedSimulationResult.points gptEnhanced = SimulationResult.points result
  /\ EnhancedSimulationResult.points localEnhanced = SimulationResult.points result
  /\ EnhancedSimulationResult.alerts gptEnhanced
     = EnhancedSimulationResult.alerts localEnhanced
  /\ EnhancedSimulationResult.summary gptEnhanced
     = EnhancedSimulationResult.summary localEnhanced
  /\ EnhancedSimulationResult.recommendations gptEnhanced
     = EnhancedSimulationResult.recommendations localEnhanced
  /\ map enhancedCoreValues (EnhancedSimulationResult.enhancedPoints gptEnhanced)
     = map enhancedCoreValues (EnhancedSimulationResult.enhancedPoints localEnhanced).
Proof.
  intros localEnhanced gptEnhanced. subst gptEnhanced.
  unfold SimulationEnhancer.enhanceSimulationWithGPT. fold localEnhanced.
  assert (Hmerge : forall notes,
            map enhancedCoreValues
              (map (SimulationEnhancer.mergeNote notes)
                 (EnhancedSimulationResult.enhancedPoints localEnhanced))
            = map enhancedCoreValues
                (EnhancedSimulationResult.enhancedPoints localEnhanced)).
  { intro notes. rewrite map_map. apply map_ext. intro p. apply mergeNote_core. }
  destruct outcome as [|[|] [|[|[|] [|notes|]]]]; cbn;
    repeat split; try reflexivity; apply Hmerge.
Qed.

(** X30: the three entry points agree.  On the same draws of
    [Math.random()], when [runEnhancedSimulation] returns, then
    [runFullyEnhancedSimulation] returns as well, however the call to the
    note service ends, with the same simulated points, alerts, summary and
    recommendations and with enhanced points of the same ages, weights and
    statuses, and [runQuickSimulation] returns the points of that run
    whose month is a multiple of 12; when it throws, which it does exactly
    when the breed has no ideal weight range, the other two throw the
    same error. *)
Theorem entry_points_agree
  (catProfile : CatProfile.t) (careRoutine : CareRoutine.t) (random : nat -> Q)
  (outcome : SimulationEnhancer.FetchOutcome) :
  match SimulationEntryPoints.runEnhancedSimulation catProfile careRoutine random with
  | JS.Returned enhanced =>
      Simulation.getIdealWeightRange (CatProfile.breed catProfile) <> None
      /\ SimulationEntryPoints.runQuickSimulation catProfile careRoutine random
         = JS.Returned
             (filter (fun p => (Z.rem (SimulationPoint.ageMonths p) 12 =? 0)%Z)
                (EnhancedSimulationResult.points enhanced))
      /\ exists full,
           SimulationEntryPoints.runFullyEnhancedSimulation catProfile careRoutine
             random outcome = JS.Returned full
           /\ EnhancedSimulationResult.points full
              = EnhancedSimulationResult.points enhanced
           /\ EnhancedSimulationResult.alerts full
              = EnhancedSimulationResult.alerts enhanced
           /\ EnhancedSimulationResult.summary full
              = EnhancedSimulationResult.summary enhanced
           /\ EnhancedSimulationResult.recommendations full
              = EnhancedSimulationResult.recommendations enhanced
           /\ map enhancedCoreValues (EnhancedSimulationResult.enhancedPoints full)
              = map enhancedCoreValues
                  (EnhancedSimulationResult.enhancedPoints enhanced)
           /\ map enhancedCoreValues (EnhancedSimulationResult.enhancedPoints full)
              = map coreValues (EnhancedSimulationResult.points enhanced)
  | JS.Threw error =>
      Simulation.getIdealWeightRange (CatProfile.breed catProfile) = None
      /\ SimulationEntryPoints.runQuickSimulation catProfile careRoutine random
         = JS.Threw error
      /\ SimulationEntryPoints.runFullyEnhancedSimulation catProfile careRoutine
           random outcome = JS.Threw error
  end.
Proof.
  unfold SimulationEntryPoints.runEnhancedSimulation,
    SimulationEntryPoints.runQuickSimulation,
    SimulationEntryPoints.runFullyEnhancedSimulation.
  destruct (Simulation.getIdealWeightRange (CatProfile.breed catProfile))
    as [idealRange|] eqn:Hr.
  - destruct (runSimulation_returns
                (SimulationEntryPoints.configOf catProfile careRoutine) random
                idealRange Hr) as [result [_ [_ [Hrun _]]]].
    rewrite Hrun. cbn [SimulationEntryPoints.mapCompletion].
    destruct (enhanceSimulationWithGPT_points result catProfile careRoutine outcome)
      as [Hp [Hp' [Ha [Hs [Hrec Hcore]]]]].
    split; [discriminate|]. split; [rewrite Hp'; reflexivity|].
    eexists. split; [reflexivity|].
    rewrite Hp, Hp', Ha, Hs, Hrec, Hcore.
    repeat split. apply enhanceSimulationLocally_core.
  - unfold Simulation.runSimulation. cbv zeta.
    cbn [SimulationEntryPoints.configOf SimulationConfig.catProfile].
    rewrite Hr. cbn [SimulationEntryPoints.mapCompletion].
    repeat split.
Qed.
